(** * Unified SCM Express API (src/index.js): data model, handlers, routing and
      start-up, embedded as Rocq functions, with the properties of the
      specification settled against them.

    Conventions of the embedding.
    - A JavaScript Number is an IEEE-754 binary64 value ([spec_float] with
      precision 53 and maximal exponent 1024); [+], [-], [*], [/] are the
      correctly rounded operations of [SpecFloat].
    - A JavaScript string is a [string], the sequence of its code units, one
      per character: the strings of the embedding are those whose code units
      are below 256.  White space is JavaScript's among these code units;
      case mapping is that of the ASCII letters, and the theorems that
      depend on it keep to strings of ASCII characters.
    - A CSV row, as csv-parser delivers it, is a finite map from column names
      to raw strings; a column that the row does not have reads as
      [None] (JavaScript's [undefined]).
    - A module-level [let] array of the source is an explicit argument of the
      function that reads it. *)

From Stdlib Require Import ZArith List String Ascii Lia Permutation Sorted.
From Stdlib Require Import Floats.SpecFloat.
From Stdlib Require OrderedTypeEx.
From stdpp Require Import gmap strings list pretty.

Set Warnings "-register-all".

(** ** JavaScript Numbers *)

Module Number.
Local Open Scope Z_scope.

Definition prec : Z := 53.
Definition emax : Z := 1024.

Abbreviation number := spec_float.

Definition NaN : number := S754_nan.
Definition zero : number := S754_zero false.

Definition add : number -> number -> number := SFadd prec emax.
Definition sub : number -> number -> number := SFsub prec emax.
Definition mul : number -> number -> number := SFmul prec emax.
Definition div : number -> number -> number := SFdiv prec emax.

(** The Number nearest to the integer [z] (an integer literal, an array
    length, a counter). *)
Definition of_Z (z : Z) : number := binary_normalize prec emax z 0 false.

Definition of_nat (n : nat) : number := of_Z (Z.of_nat n).

Definition isNaN (x : number) : bool :=
  match x with S754_nan => true | _ => false end.

(** [x < y] on Numbers: false as soon as one side is NaN. *)
Definition ltb (x y : number) : bool := SFltb x y.

(** [Math.round]: the nearest integer, a tie going towards +Infinity; the
    sign of a result that is zero is the sign of the argument. *)
Definition round (x : number) : number :=
  match x with
  | S754_finite s m e =>
      if 0 <=? e then x
      else
        let twice := (if s then Z.neg m else Z.pos m) * 2 + 2 ^ (- e) in
        let r := twice / 2 ^ (1 - e) in
        if r =? 0 then S754_zero s else of_Z r
  | _ => x
  end.

(** The Number nearest to [(-1)^s * m * 10^e], for [0 <= m]: what reading a
    decimal numeral yields.  A negative exponent divides with a sticky bit
    below 64 significant bits, so that the final rounding is the rounding of
    the exact quotient. *)
Definition of_decimal (s : bool) (m e : Z) : number :=
  if m <=? 0 then S754_zero s
  else if 0 <=? e then binary_round prec emax s (Z.to_pos (m * 10 ^ e)) 0
  else
    let d := 10 ^ (- e) in
    let k := Z.max 0 (Z.log2 d - Z.log2 m) + 64 in
    let n := m * 2 ^ k in
    let sticky := if n mod d =? 0 then 0 else 1 in
    binary_round prec emax s (Z.to_pos (2 * (n / d) + sticky)) (- (k + 1)).

(** *** Reading numerals: [parseFloat] and [parseInt] *)

(** The white space and line terminators that [parseFloat] and [parseInt]
    skip, among the code units that a character of a string holds here (those
    below 256): TAB, LF, VT, FF, CR, SP and NBSP (U+00A0). *)
Definition is_white_space (c : ascii) : bool :=
  match N_of_ascii c with
  | 9%N | 10%N | 11%N | 12%N | 13%N | 32%N | 160%N => true
  | _ => false
  end.

Fixpoint trim_start (s : string) : string :=
  match s with
  | String c s' => if is_white_space c then trim_start s' else s
  | EmptyString => s
  end.

(** The value of [c] as a digit in radix [radix] (10 or 16). *)
Definition digit_value (radix : Z) (c : ascii) : option Z :=
  let n := Z.of_N (N_of_ascii c) in
  if (48 <=? n) && (n <=? 57) then Some (n - 48)
  else if (radix =? 16) && (97 <=? n) && (n <=? 102) then Some (n - 87)
  else if (radix =? 16) && (65 <=? n) && (n <=? 70) then Some (n - 55)
  else None.

(** Reads the longest run of digits at the head of [s]: the value of [acc]
    followed by those digits, how many were read, and the rest. *)
Fixpoint read_digits (radix : Z) (s : string) (acc : Z) (n : Z) : Z * Z * string :=
  match s with
  | String c s' =>
      match digit_value radix c with
      | Some d => read_digits radix s' (acc * radix + d) (n + 1)
      | None => (acc, n, s)
      end
  | EmptyString => (acc, n, s)
  end.

(** An optional sign: whether it is [-], and the rest. *)
Definition read_sign (s : string) : bool * string :=
  match s with
  | String "-" s' => (true, s')
  | String "+" s' => (false, s')
  | _ => (false, s)
  end.

(** An exponent part [e], [e+] or [e-] followed by at least one digit, if
    the text starts with one; otherwise no exponent (value 0). *)
Definition read_exponent (s : string) : Z :=
  match s with
  | String c s' =>
      if (Ascii.eqb c "e" || Ascii.eqb c "E")%bool then
        let '(neg, s'') := read_sign s' in
        let '(v, n, _) := read_digits 10 s'' 0 0 in
        if n =? 0 then 0 else if neg then - v else v
      else 0
  | EmptyString => 0
  end.

(** [parseFloat(s)]: leading white space is skipped, then the longest prefix
    that is a decimal literal is read; NaN when there is none. *)
Definition parseFloat (str : string) : number :=
  let '(neg, s1) := read_sign (trim_start str) in
  if String.prefix "Infinity" s1 then S754_infinity neg
  else
    let '(ip, ni, s2) := read_digits 10 s1 0 0 in
    let '(mant, nf, s3) :=
      match s2 with
      | String "." r => read_digits 10 r ip 0
      | _ => (ip, 0, s2)
      end in
    if ni + nf =? 0 then NaN
    else of_decimal neg mant (read_exponent s3 - nf).

(** [parseInt(s)] with no radix argument: radix 10, or 16 after a [0x]
    prefix; the digits are read up to the first character that is not one;
    NaN when there is none. *)
Definition parseInt (str : string) : number :=
  let '(neg, s1) := read_sign (trim_start str) in
  let '(radix, s2) :=
    match s1 with
    | String "0" (String "x" r) | String "0" (String "X" r) => (16, r)
    | _ => (10, s1)
    end in
  let '(v, n, _) := read_digits radix s2 0 0 in
  if n =? 0 then NaN
  else if v =? 0 then S754_zero neg
  else of_Z (if neg then - v else v).
End Number.

Abbreviation number := spec_float.

(** ** JavaScript strings *)

Module JsString.
(** A string is kept as the sequence of its code units, one per character;
    a character holds a code unit below 256. *)

(** Whether every character of the string is an ASCII character. *)
Fixpoint is_ascii (s : string) : bool :=
  match s with
  | String c s' => (N_of_ascii c <? 128)%N && is_ascii s'
  | EmptyString => true
  end.

(** [toLowerCase], on the ASCII letters: the letters [A] to [Z] are mapped,
    every other character is left as it is.  This is what the route matcher
    does with a literal segment, and what [String.prototype.toLowerCase] does
    on a string of ASCII characters; the theorems that compare names or SKUs
    through it keep to such strings ([is_ascii]). *)
Definition lower_char (c : ascii) : ascii :=
  let n := N_of_ascii c in
  if ((65 <=? n) && (n <=? 90))%N then ascii_of_N (n + 32) else c.

Fixpoint toLowerCase (s : string) : string :=
  match s with
  | String c s' => String (lower_char c) (toLowerCase s')
  | EmptyString => EmptyString
  end.

(** How a Number that is an integer or NaN prints inside a template
    literal; [None] stands for NaN. *)
Definition show (n : option Z) : string :=
  match n with
  | Some z => pretty z
  | None => "NaN"
  end.
End JsString.

(** ** Dates and the date-fns accessors

    The aggregation reads a Date only through [getFullYear] and the date-fns
    functions [getWeek], [getMonth] and [getQuarter], all of which depend on
    nothing but the calendar day the Date falls on in the server's time zone.
    A Date is therefore kept as that day, counted from 1970-01-01, or as the
    Invalid Date.  An accessor of the Invalid Date is NaN, here [None]. *)

Module Calendar.
Local Open Scope Z_scope.

Inductive JsDate :=
| InvalidDate
| LocalDay (n : Z).

(** Day number of the proleptic Gregorian date [y]-[m]-[d], [m] in 1..12. *)
Definition days_from_civil (y m d : Z) : Z :=
  let y' := if m <=? 2 then y - 1 else y in
  let era := y' / 400 in
  let yoe := y' - era * 400 in
  let doy := (153 * (if 2 <? m then m - 3 else m + 9) + 2) / 5 + d - 1 in
  let doe := yoe * 365 + yoe / 4 - yoe / 100 + doy in
  era * 146097 + doe - 719468.

(** Year, month (1..12) and day of the month of a day number. *)
Definition civil_from_days (z : Z) : Z * Z * Z :=
  let z' := z + 719468 in
  let era := z' / 146097 in
  let doe := z' - era * 146097 in
  let yoe := (doe - doe / 1460 + doe / 36524 - doe / 146096) / 365 in
  let doy := doe - (365 * yoe + yoe / 4 - yoe / 100) in
  let mp := (5 * doy + 2) / 153 in
  let d := doy - (153 * mp + 2) / 5 + 1 in
  let m := if mp <? 10 then mp + 3 else mp - 9 in
  let y := yoe + era * 400 in
  ((if m <=? 2 then y + 1 else y), m, d).

Definition mkDate (y m d : Z) : JsDate := LocalDay (days_from_civil y m d).

Definition year_of (n : Z) : Z := fst (fst (civil_from_days n)).
Definition month_of (n : Z) : Z := snd (fst (civil_from_days n)).

(** 0 is Sunday; 1970-01-01 was a Thursday. *)
Definition weekday (n : Z) : Z := (n + 4) mod 7.

Definition getFullYear (d : JsDate) : option Z :=
  match d with LocalDay n => Some (year_of n) | InvalidDate => None end.

(** date-fns [getMonth]: the Date's own [getMonth], January being 0. *)
Definition getMonth (d : JsDate) : option Z :=
  match d with LocalDay n => Some (month_of n - 1) | InvalidDate => None end.

(** date-fns [getQuarter]: [Math.trunc(getMonth / 3) + 1]. *)
Definition getQuarter (d : JsDate) : option Z :=
  match d with LocalDay n => Some ((month_of n - 1) / 3 + 1) | InvalidDate => None end.

(** date-fns [startOfWeek] with its default options (the week starts on
    Sunday). *)
Definition startOfWeek (n : Z) : Z := n - weekday n.

(** date-fns [getWeekYear] with its default options (the first week of a
    year is the one that contains January 1st). *)
Definition getWeekYear (n : Z) : Z :=
  let year := year_of n in
  let startOfNextYear := startOfWeek (days_from_civil (year + 1) 1 1) in
  let startOfThisYear := startOfWeek (days_from_civil year 1 1) in
  if startOfNextYear <=? n then year + 1
  else if startOfThisYear <=? n then year
  else year - 1.

Definition startOfWeekYear (n : Z) : Z :=
  startOfWeek (days_from_civil (getWeekYear n) 1 1).

(** date-fns [getWeek]: the number of whole weeks between the start of the
    week-numbering year and the start of the week of the date, plus one. *)
Definition getWeek (d : JsDate) : option Z :=
  match d with
  | LocalDay n => Some ((startOfWeek n - startOfWeekYear n) / 7 + 1)
  | InvalidDate => None
  end.
End Calendar.

(** ** Rows, values read from them, and what a handler produces *)

Abbreviation Row := (gmap string string).

(** A forecast row after [loadData]: the parsed columns [Forecasted_Demand]
    (through [parseFloat]) and [Date] (through [new Date]) beside the columns
    that stay raw strings. *)
Record ForecastRow := {
  columns : Row;
  Forecasted_Demand : number;
  Date : Calendar.JsDate
}.

(** Truthiness of a column value or request parameter: [undefined] and the
    empty string are falsy. *)
Definition truthy (v : option string) : bool :=
  match v with
  | Some s => negb (String.eqb s "")
  | None => false
  end.

(** [a === b] between two values that are each a string or [undefined]. *)
Definition strict_eq (a b : option string) : bool := bool_decide (a = b).

(** [ToString] of a value that is a string or [undefined]. *)
Definition to_string (v : option string) : string :=
  match v with
  | Some s => s
  | None => "undefined"
  end.

(** [v || 0] turned into the string that [parseFloat] and [parseInt] read:
    the value itself when truthy, else [ToString(0)]. *)
Definition or_zero (v : option string) : string :=
  if truthy v then to_string v else "0".

(** [parseFloat(v || 0)] and [parseInt(v || 0)]. *)
Definition float_or_zero (v : option string) : number :=
  Number.parseFloat (or_zero v).

Definition int_or_zero (v : option string) : number :=
  Number.parseInt (or_zero v).

(** [v || fallback]. *)
Definition or_else (v : option string) (fallback : string) : string :=
  if truthy v then to_string v else fallback.

(** [new Set(values).size]. *)
Definition distinct_count (values : list (option string)) : nat :=
  length (remove_dups values).

(** JSON, as [res.json] writes it. *)
Inductive Json :=
| JNull
| JNum (x : number)
| JStr (s : string)
| JArr (items : list Json)
| JObj (members : list (string * Json))
| JRow (r : Row).

(** A Number member: NaN and the infinities are written as [null], either
    zero as [0]. *)
Definition json_number (x : number) : Json :=
  match x with
  | S754_nan | S754_infinity _ => JNull
  | S754_zero _ => JNum Number.zero
  | S754_finite _ _ _ => JNum x
  end.

(** An object literal: a member whose value is [undefined] is left out. *)
Definition json_object (members : list (string * option Json)) : Json :=
  JObj (omap (fun '(k, v) => match v with Some j => Some (k, j) | None => None end) members).

Definition json_string (v : option string) : option Json := JStr <$> v.

Inductive Exn :=
| TypeError (message : string).

Definition message_of (e : Exn) : string :=
  match e with TypeError m => m end.

(** What the client receives: a JSON document, a text, or the page that
    Express's built-in error handler writes for an exception that left a route
    handler (HTML, with status 500). *)
Inductive Body :=
| JsonBody (j : Json)
| TextBody (s : string)
| ErrorPage (e : Exn).

Record Response := {
  status : Z;
  body : Body
}.

Definition json (code : Z) (j : Json) : Response :=
  {| status := code; body := JsonBody j |}.

Definition error_json (code : Z) (msg : string) : Response :=
  json code (JObj [("error", JStr msg)]).

(** *** Completions: a handler body either returns or throws *)

Inductive Completion (A : Type) :=
| Normal (a : A)
| Throw (e : Exn).

Arguments Normal {A} a.
Arguments Throw {A} e.

#[global] Instance Completion_ret : MRet Completion := fun A a => Normal a.

#[global] Instance Completion_bind : MBind Completion := fun A B k c =>
  match c with
  | Normal a => k a
  | Throw e => Throw e
  end.

(** [try { body } catch (error) { handler }]. *)
Definition try_catch {A} (body : Completion A) (handler : Exn -> Completion A) : Completion A :=
  match body with
  | Normal a => Normal a
  | Throw e => handler e
  end.

(** Calling a method of a column value: a TypeError when the value is
    [undefined]. *)
Definition method_of (name : string) (v : option string) : Completion string :=
  match v with
  | Some s => Normal s
  | None => Throw (TypeError ("Cannot read properties of undefined (reading '" ++ name ++ "')"))
  end.

Definition toLowerCase (v : option string) : Completion string :=
  s ← method_of "toLowerCase" v; Normal (JsString.toLowerCase s).

(** [s.replace('%', '')]: the first percent sign is removed. *)
Fixpoint remove_percent (s : string) : string :=
  match s with
  | String c s' => if Ascii.eqb c "%" then s' else String c (remove_percent s')
  | EmptyString => EmptyString
  end.

Definition replace_percent (v : option string) : Completion string :=
  s ← method_of "replace" v; Normal (remove_percent s).

(** [Array.prototype.filter] and [find] with a callback that may throw. *)
Fixpoint filterM {A} (p : A -> Completion bool) (l : list A) : Completion (list A) :=
  match l with
  | [] => Normal []
  | x :: l' =>
      b ← p x;
      rest ← filterM p l';
      Normal (if b : bool then x :: rest else rest)
  end.

Fixpoint findM {A} (p : A -> Completion bool) (l : list A) : Completion (option A) :=
  match l with
  | [] => Normal None
  | x :: l' =>
      b ← p x;
      if b : bool then Normal (Some x) else findM p l'
  end.

(** A GET request as Express hands it to a route: the URL as received, its
    path split at the slashes, and the query parameters (string-valued, as the
    transport contract has them). *)
Record Request := {
  originalUrl : string;
  path : list string;
  query : gmap string string
}.

(** ** Filter engine (index.js, lines 49-60 and 138-152) *)

Definition filterData (forecastData : list ForecastRow) (req : Request) : list ForecastRow :=
  let PRODUCT_CARD_ID := query req !! "PRODUCT_CARD_ID" in
  let PRODUCT_NAME := query req !! "PRODUCT_NAME" in
  let filteredData := forecastData in
  let filteredData :=
    if truthy PRODUCT_CARD_ID
    then List.filter (fun d => strict_eq (columns d !! "PRODUCT_CARD_ID") PRODUCT_CARD_ID) filteredData
    else filteredData in
  let filteredData :=
    if truthy PRODUCT_NAME
    then List.filter (fun d => strict_eq (columns d !! "PRODUCT_NAME") PRODUCT_NAME) filteredData
    else filteredData in
  filteredData.

Definition filterInsightsData (insightsData : list Row) (req : Request) : list Row :=
  let Month := query req !! "Month" in
  let PRODUCT_CARD_ID := query req !! "PRODUCT_CARD_ID" in
  let PRODUCT_NAME := query req !! "PRODUCT_NAME" in
  let filteredData := insightsData in
  let filteredData :=
    if truthy Month
    then List.filter (fun d : Row => strict_eq (d !! "Month") Month) filteredData
    else filteredData in
  let filteredData :=
    if truthy PRODUCT_CARD_ID
    then List.filter (fun d : Row => strict_eq (d !! "PRODUCT_CARD_ID") PRODUCT_CARD_ID) filteredData
    else filteredData in
  let filteredData :=
    if truthy PRODUCT_NAME
    then List.filter (fun d : Row => strict_eq (d !! "PRODUCT_NAME") PRODUCT_NAME) filteredData
    else filteredData in
  filteredData.

(** ** Keyed collections that remember insertion order

    An object used as a dictionary (none of whose keys is an array index) and
    a [Map] both enumerate their keys in the order in which they were first
    set; setting a key that is already there keeps its place.  [upsert k f m]
    sets key [k] to [f] of what it held before, [None] when it held
    nothing. *)
Fixpoint upsert {K V} `{EqDecision K} (k : K) (f : option V -> V) (m : list (K * V)) : list (K * V) :=
  match m with
  | [] => [(k, f None)]
  | (k', v) :: m' =>
      if decide (k' = k) then (k', f (Some v)) :: m' else (k', v) :: upsert k f m'
  end.

(** The value held at a key. *)
Definition held {K V} `{EqDecision K} (k : K) (m : list (K * V)) : option V :=
  snd <$> List.find (fun entry => bool_decide (fst entry = k)) m.

(** The distinct values of a list, in the order in which they first occur. *)
Definition first_seen {K} `{EqDecision K} (l : list K) : list K :=
  fold_left (fun seen x => if decide (x ∈ seen) then seen else seen ++ [x]) l [].

(** The collection that a left-to-right pass over [es] builds when each
    element [e] sets the key [key e] to [upd e] of what that key held. *)
Definition collect {K V E} `{EqDecision K} (key : E -> K) (upd : E -> option V -> V) (es : list E)
  : list (K * V) :=
  fold_left (fun m e => upsert (key e) (upd e) m) es [].

(** [numbers.reduce((sum, x) => sum + x, zero)], over any addition. *)
Definition sum_with {num} (add : num -> num -> num) (zero : num) (l : list num) : num :=
  fold_left add l zero.

(** ** Period aggregator (index.js, lines 70-98) *)

(** The key of the bucket a date falls in.  A [groupBy] other than the three
    the routes pass leaves [key] undefined, which as a property name reads
    [undefined]. *)
Definition period_key (groupBy : string) (d : Calendar.JsDate) : string :=
  let year := Calendar.getFullYear d in
  if String.eqb groupBy "weekly" then
    JsString.show year ++ "-W" ++ JsString.show (Calendar.getWeek d)
  else if String.eqb groupBy "monthly" then
    JsString.show year ++ "-M" ++ JsString.show ((fun m => m + 1)%Z <$> Calendar.getMonth d)
  else if String.eqb groupBy "quarterly" then
    JsString.show year ++ "-Q" ++ JsString.show (Calendar.getQuarter d)
  else "undefined".

(** The reduction is written once over the arithmetic it uses ([0], [+], [/]
    and the Number of a count), so that it can be read over binary64, as the
    program runs it, and over exact integers. *)
Section PeriodAggregator.
Context {R num : Type}.
Variable date_of : R -> Calendar.JsDate.
Variable measure_of : R -> num.
Variable zero : num.
Variable add : num -> num -> num.
Variable div : num -> num -> num.
Variable of_count : nat -> num.

(** [{ demand, count }], the value kept per key. *)
Record Tally := {
  demand : num;
  count : nat
}.

(** [{ period, total_demand, average_demand }], one per key. *)
Record PeriodTotal := {
  period : string;
  total_demand : num;
  average_demand : num
}.

(** One step of the [reduce]:
    [if (!acc[key]) acc[key] = { demand: 0, count: 0 }; acc[key].demand += x;
    acc[key].count += 1]. *)
Definition accumulate (key : string) (x : num) (acc : list (string * Tally)) : list (string * Tally) :=
  upsert key
    (fun slot =>
       let t := default {| demand := zero; count := 0 |} slot in
       {| demand := add (demand t) x; count := S (count t) |})
    acc.

Definition aggregated (data : list R) (groupBy : string) : list (string * Tally) :=
  fold_left (fun acc curr => accumulate (period_key groupBy (date_of curr)) (measure_of curr) acc)
    data [].

Definition aggregateData_over (data : list R) (groupBy : string) : list PeriodTotal :=
  map (fun '(key, value) =>
         {| period := key;
            total_demand := demand value;
            average_demand := div (demand value) (of_count (count value)) |})
    (aggregated data groupBy).

End PeriodAggregator.

Arguments demand {num} _.
Arguments count {num} _.
Arguments period {num} _.
Arguments total_demand {num} _.
Arguments average_demand {num} _.

(** [aggregateData], as the program runs it. *)
Definition aggregateData (data : list ForecastRow) (groupBy : string) : list (PeriodTotal (num := number)) :=
  aggregateData_over Date Forecasted_Demand Number.zero Number.add Number.div Number.of_nat
    data groupBy.

Definition period_json (p : PeriodTotal (num := number)) : Json :=
  JObj [("period", JStr (period p));
        ("total_demand", json_number (total_demand p));
        ("average_demand", json_number (average_demand p))].

(** ** [GET /api/products] (index.js, lines 161-164) *)

Record Product := {
  PRODUCT_CARD_ID : option string;
  PRODUCT_NAME : option string
}.

(** [Map.prototype.set]. *)
Definition map_set {V} (k : option string) (v : V) (m : list (option string * V)) : list (option string * V) :=
  upsert k (fun _ => v) m.

(** [new Map(entries)]. *)
Definition new_Map {V} (entries : list (option string * V)) : list (option string * V) :=
  fold_left (fun m '(k, v) => map_set k v m) entries [].

Definition products (forecastData : list ForecastRow) : list Product :=
  map snd
    (new_Map
       (map (fun item =>
               (columns item !! "PRODUCT_CARD_ID",
                {| PRODUCT_CARD_ID := columns item !! "PRODUCT_CARD_ID";
                   PRODUCT_NAME := columns item !! "PRODUCT_NAME" |}))
          forecastData)).

Definition product_json (p : Product) : Json :=
  json_object [("PRODUCT_CARD_ID", json_string (PRODUCT_CARD_ID p));
               ("PRODUCT_NAME", json_string (PRODUCT_NAME p))].

Definition products_handler (forecastData : list ForecastRow) : Completion Response :=
  Normal (json 200 (JArr (map product_json (products forecastData)))).

(** ** KPI calculators *)

(** [data.reduce((sum, item) => sum + read(item[column] || 0), 0)]. *)
Definition sum_column (read : option string -> number) (column : string) (data : list Row) : number :=
  fold_left (fun sum item => Number.add sum (read (item !! column))) data Number.zero.

Definition hundred : number := Number.of_Z 100.

(** [Math.round(x * 100) / 100]. *)
Definition round2 (x : number) : number :=
  Number.div (Number.round (Number.mul x hundred)) hundred.

(** [GET /api/sales/kpis] (index.js, lines 192-211). *)
Definition sales_kpis (salesData : list Row) : Completion Response :=
  if Nat.eqb (length salesData) 0 then
    Normal (error_json 200 "Sales data not found")
  else
    try_catch
      (let totalOrders := distinct_count (map (fun item : Row => item !! "Order Item Id") salesData) in
       let totalSales := sum_column float_or_zero "Sales" salesData in
       let avgDiscount :=
         Number.div (sum_column float_or_zero "Order Item Discount Rate" salesData)
           (Number.of_nat (length salesData)) in
       let lateDeliveries :=
         length (List.filter (fun item : Row => strict_eq (item !! "Late_delivery_risk") (Some "1")) salesData) in
       Normal (json 200 (JObj [
         ("total_orders", json_number (Number.of_nat totalOrders));
         ("total_sales", json_number (round2 totalSales));
         ("avg_discount", json_number (Number.div (Number.round (Number.mul (Number.mul avgDiscount hundred) hundred)) hundred));
         ("late_deliveries", json_number (Number.of_nat lateDeliveries))])))
      (fun error => Normal (error_json 200 (message_of error))).

(** The snapshot of [GET /api/inventory/kpis], before it is written as JSON. *)
Record InventoryKpis := {
  total_skus : number;
  total_stock_on_hand : number;
  in_transit : number;
  below_reorder_point : number;
  avg_lead_time : number;
  scheduled_qty : number
}.

Definition below_reorder (item : Row) : bool :=
  Number.ltb (int_or_zero (item !! "Available")) (int_or_zero (item !! "Reorder_Point")).

(** The body of the [try] of [GET /api/inventory/kpis] (index.js, lines
    420-436); [avg_lead_time] is the value given to [res.json],
    [Math.round(avgLeadTime * 100) / 100]. *)
Definition inventory_snapshot (stockData alertData scheduleData : list Row) : InventoryKpis :=
  let totalSkus := distinct_count (map (fun item : Row => item !! "SKU_No") stockData) in
  let totalStockOnHand := sum_column int_or_zero "Stock_On_Hand" stockData in
  let inTransit := sum_column int_or_zero "In_Transit" stockData in
  let belowReorderPoint := length (List.filter below_reorder alertData) in
  let avgLeadTime :=
    Number.div (sum_column float_or_zero "Lead_Time_Days" stockData)
      (Number.of_nat (length stockData)) in
  let scheduledQty := sum_column int_or_zero "Scheduled_Quantity" scheduleData in
  {| total_skus := Number.of_nat totalSkus;
     total_stock_on_hand := totalStockOnHand;
     in_transit := inTransit;
     below_reorder_point := Number.of_nat belowReorderPoint;
     avg_lead_time := round2 avgLeadTime;
     scheduled_qty := scheduledQty |}.

Definition inventory_json (k : InventoryKpis) : Json :=
  JObj [("total_skus", json_number (total_skus k));
        ("total_stock_on_hand", json_number (total_stock_on_hand k));
        ("in_transit", json_number (in_transit k));
        ("below_reorder_point", json_number (below_reorder_point k));
        ("avg_lead_time", json_number (avg_lead_time k));
        ("scheduled_qty", json_number (scheduled_qty k))].

(** [GET /api/inventory/kpis] (index.js, lines 418-440). *)
Definition inventory_kpis (stockData alertData scheduleData : list Row) : Completion Response :=
  try_catch
    (Normal (json 200 (inventory_json (inventory_snapshot stockData alertData scheduleData))))
    (fun error => Normal (error_json 200 (message_of error))).

(** [GET /api/kpis] (index.js, lines 614-635). *)
Definition production_kpis (attendanceData stationScheduleData : list Row) : Completion Response :=
  try_catch
    (let totalOperators := distinct_count (map (fun item : Row => item !! "Operator_ID") attendanceData) in
     let today := "2018-01-01" in
     let absentToday :=
       length (List.filter
                 (fun item : Row => strict_eq (item !! "Date") (Some today)
                                    && strict_eq (item !! "Present") (Some "No"))
                 attendanceData) in
     let totalUnitsScheduled :=
       sum_column int_or_zero "unit"
         (List.filter (fun item : Row => strict_eq (item !! "scheduled_date") (Some "01-01-2018"))
            stationScheduleData) in
     let uniqueProducts := distinct_count (map (fun item : Row => item !! "product_name") stationScheduleData) in
     Normal (json 200 (JObj [
       ("total_operators", json_number (Number.of_nat totalOperators));
       ("absent_today", json_number (Number.of_nat absentToday));
       ("total_units_scheduled", json_number totalUnitsScheduled);
       ("unique_products", json_number (Number.of_nat uniqueProducts))])))
    (fun error => Normal (error_json 500 ("KPI error: " ++ message_of error))).

(** ** Supplier services *)

(** [item.Supplier_Name.toLowerCase() === name.toLowerCase()]. *)
Definition supplier_named (name : string) (item : Row) : Completion bool :=
  lowered ← toLowerCase (item !! "Supplier_Name");
  Normal (String.eqb lowered (JsString.toLowerCase name)).

(** [GET /api/suppliers/:endpoint/:supplier] (index.js, lines 820-858). *)
Definition supplier_endpoint (suppliersData : list Row) (endpoint supplier : string) : Completion Response :=
  matching ← filterM (supplier_named supplier) suppliersData;
  match matching with
  | [] => Normal (error_json 404 (supplier ++ " not found"))
  | supplierData :: _ =>
      if String.eqb endpoint "kpis" then
        fulfillment ← replace_percent (supplierData !! "Fulfillment_Rate");
        otd ← replace_percent (supplierData !! "OTD_Percentage");
        Normal (json 200 (json_object [
          ("supplier", json_string (supplierData !! "Supplier_Name"));
          ("lead_time_days", Some (json_number (Number.parseFloat (to_string (supplierData !! "Lead_Time_Days")))));
          ("fulfillment_rate_percent", Some (json_number (Number.parseFloat fulfillment)));
          ("otd_percent", Some (json_number (Number.parseFloat otd)));
          ("late_deliveries", Some (json_number (Number.parseInt (to_string (supplierData !! "Late_Deliveries")))));
          ("total_orders", Some (json_number (Number.parseInt (to_string (supplierData !! "Total_Orders")))))]))
      else if String.eqb endpoint "metrics" then
        otd ← replace_percent (supplierData !! "OTD_Percentage");
        fulfillment ← replace_percent (supplierData !! "Fulfillment_Rate");
        Normal (json 200 (JObj [
          ("OTD %", json_number (Number.parseFloat otd));
          ("Quality Score", json_number (Number.parseFloat (to_string (supplierData !! "Quality_Score"))));
          ("Fulfillment %", json_number (Number.parseFloat fulfillment))]))
      else if String.eqb endpoint "delivery-stats" then
        let totalOrders := Number.parseInt (to_string (supplierData !! "Total_Orders")) in
        let lateDeliveries := Number.parseInt (to_string (supplierData !! "Late_Deliveries")) in
        Normal (json 200 (JObj [
          ("on_time", json_number (Number.sub totalOrders lateDeliveries));
          ("late", json_number lateDeliveries);
          ("total", json_number totalOrders)]))
      else
        Normal (error_json 400 ("Unknown supplier endpoint '" ++ endpoint ++ "'"))
  end.

(** One row of the answer of the alternates route. *)
Record Alternate := {
  sku_id : option string;
  supplier_name : option string;
  otd_percentage : option string;
  quality_score : option string;
  email : option string;
  location : option string
}.

Definition alternate_of (item : Row) : Alternate :=
  {| sku_id := item !! "sku_id";
     supplier_name := item !! "supplier_name";
     otd_percentage := item !! "otd_percentage";
     quality_score := item !! "quality_score";
     email := item !! "email";
     location := item !! "location" |}.

Definition alternate_json (a : Alternate) : Json :=
  json_object [("sku_id", json_string (sku_id a));
               ("supplier_name", json_string (supplier_name a));
               ("otd_percentage", json_string (otd_percentage a));
               ("quality_score", json_string (quality_score a));
               ("email", json_string (email a));
               ("location", json_string (location a))].

(** The rows that the handler of [/api/suppliers/alternates/:supplier] sends
    once the supplier is found (index.js, lines 880-890). *)
Definition alternates_of (mainSupplier : Row) (alternateSuppliersData : list Row) : list Alternate :=
  let skus := mainSupplier !! "SKU_No" in
  let filtered := List.filter (fun item : Row => strict_eq (item !! "sku_id") skus) alternateSuppliersData in
  List.filter (fun item => truthy (sku_id item) && truthy (supplier_name item))
    (map alternate_of filtered).

(** The handler registered for [/api/suppliers/alternates/:supplier]
    (index.js, lines 870-893). *)
Definition alternates_handler (suppliersData alternateSuppliersData : list Row) (supplier : string)
  : Completion Response :=
  mainSupplier ← findM (supplier_named supplier) suppliersData;
  match mainSupplier with
  | None => Normal (error_json 404 (supplier ++ " not found"))
  | Some mainSupplier =>
      Normal (json 200 (JArr (map alternate_json (alternates_of mainSupplier alternateSuppliersData))))
  end.

(** [item.sku_id.toLowerCase() === other.toLowerCase()], the left side
    first. *)
Definition same_sku (other : option string) (item : Row) : Completion bool :=
  mine ← toLowerCase (item !! "sku_id");
  theirs ← toLowerCase other;
  Normal (String.eqb mine theirs).

(** The handler registered for [/api/suppliers/insight/:identifier]
    (index.js, lines 896-932). *)
Definition insight_handler (suppliersData supplierInsightsData : list Row) (identifier : string)
  : Completion Response :=
  supplierMatch ← findM (supplier_named identifier) suppliersData;
  let bySku :=
    skuMatch ← filterM (same_sku (Some identifier)) supplierInsightsData;
    match skuMatch with
    | first :: _ =>
        Normal (json 200 (json_object [
          ("sku_id", Some (JStr identifier));
          ("insight", json_string (first !! "ai_supplier_insight"))]))
    | [] => Normal (error_json 404 ("No AI insight found for " ++ identifier))
    end in
  match supplierMatch with
  | Some supplierMatch =>
      skuInsights ← filterM (same_sku (supplierMatch !! "SKU_No")) supplierInsightsData;
      match skuInsights with
      | first :: _ =>
          Normal (json 200 (json_object [
            ("sku_id", json_string (supplierMatch !! "SKU_No"));
            ("supplier_name", json_string (supplierMatch !! "Supplier_Name"));
            ("insight", json_string (first !! "ai_supplier_insight"))]))
      | [] => bySku
      end
  | None => bySku
  end.

(** ** The two handlers registered for [/api/insights] *)

(** Registered first (index.js, lines 155-158). *)
Definition bullet_insights_handler (insightsData : list Row) (req : Request) : Completion Response :=
  Normal (json 200 (JArr (map JRow (filterInsightsData insightsData req)))).

(** Registered second (index.js, lines 739-744). *)
Definition operator_insights_handler (operatorInsightsData : list Row) : Completion Response :=
  let filteredInsights :=
    List.filter (fun item : Row => truthy (item !! "operator_id") && truthy (item !! "ai_insight"))
      operatorInsightsData in
  Normal (json 200 (JObj [("insights", JArr (map JRow filteredInsights))])).

(** ** Forecast routes (index.js, lines 101-114) *)

Definition forecast_period_handler (groupBy : string) (forecastData : list ForecastRow) (req : Request)
  : Completion Response :=
  let filteredData := filterData forecastData req in
  Normal (json 200 (JArr (map period_json (aggregateData filteredData groupBy)))).

(** ** Attendance (index.js, lines 700-722) *)

(** [Array.prototype.sort] with a comparator, as the language fixes it for a
    consistent comparator: the stable arrangement in which [x] stands after
    [y] only if [cmp x y > 0] or [x] came after [y] and [cmp y x <= 0].  A
    comparator result that is NaN ([None]) counts as 0. *)
Fixpoint sort_insert {A} (cmp : A -> A -> option Z) (x : A) (sorted : list A) : list A :=
  match sorted with
  | [] => [x]
  | y :: rest =>
      if (0 <? default 0 (cmp x y))%Z then y :: sort_insert cmp x rest else x :: sorted
  end.

Definition array_sort {A} (cmp : A -> A -> option Z) (l : list A) : list A :=
  foldr (sort_insert cmp) [] l.

Record AttendanceEntry := {
  date : option string;
  operator_id : option string;
  operator_name : option string;
  present : option string;
  shift : string
}.

Definition attendance_json (a : AttendanceEntry) : Json :=
  json_object [("date", json_string (date a));
               ("operator_id", json_string (operator_id a));
               ("operator_name", json_string (operator_name a));
               ("present", json_string (present a));
               ("shift", Some (JStr (shift a)))].

Section Attendance.
(** [Date.parse]: the time value of a date string in milliseconds, [None] for
    one that does not parse (NaN).  Which strings parse, beyond the ISO
    format, is up to the JavaScript engine. *)
Variable Date_parse : string -> option Z.

(** The time value of [new Date(v)]; [new Date(undefined)] is invalid. *)
Definition time_value (v : option string) : option Z :=
  match v with
  | Some s => Date_parse s
  | None => None
  end.

(** [new Date(a.date) - new Date(b.date)]: NaN as soon as one date is
    invalid.  Time values are integers below 2^53 in magnitude, so the
    rounded difference has the sign of the exact one. *)
Definition by_date (a b : AttendanceEntry) : option Z :=
  match time_value (date a), time_value (date b) with
  | Some ta, Some tb => Some (ta - tb)%Z
  | _, _ => None
  end.

(** [GET /api/attendance]. *)
Definition attendance_handler (attendanceData : list Row) : Completion Response :=
  let formattedData :=
    array_sort by_date
      (map (fun item : Row =>
              {| date := item !! "Date";
                 operator_id := item !! "Operator_ID";
                 operator_name := item !! "Operator_Name";
                 present := item !! "Present";
                 shift := or_else (item !! "Shift") "Day" |})
         attendanceData) in
  Normal (json 200 (JArr (map attendance_json formattedData))).

(** [GET /api/attendance/table]. *)
Definition attendance_table_handler (attendanceData : list Row) : Completion Response :=
  let formattedData :=
    array_sort by_date
      (map (fun item : Row =>
              {| date := item !! "Date";
                 operator_id := item !! "Operator_ID";
                 operator_name := item !! "Operator_Name";
                 present := item !! "Present";
                 shift := or_else (item !! "Shift") "Day" |})
         attendanceData) in
  Normal (json 200 (JArr (map attendance_json formattedData))).

End Attendance.

(** ** The module-level datasets *)

Record Store := {
  forecastData : list ForecastRow;
  insightsData : list Row;
  salesData : list Row;
  stockData : list Row;
  alertData : list Row;
  scheduleData : list Row;
  bomData : list Row;
  mrpData : list Row;
  productionOrdersData : list Row;
  stationScheduleData : list Row;
  procurementData : list Row;
  attendanceData : list Row;
  leaveRequestsData : list Row;
  operatorInsightsData : list Row;
  suppliersData : list Row;
  alternateSuppliersData : list Row;
  supplierInsightsData : list Row;
  monthlyInsightsData : list Row;
  quarterlyInsightsData : list Row;
  yearlyInsightsData : list Row
}.

(** ** Routing: the [app.get] registrations, in the order of the source

    Express tries the registered routes in registration order and runs the
    first whose path matches; none of the handlers of index.js calls [next],
    so no later route is tried once one matched.  A request that matches no
    route reaches the final [app.use], which answers 404. *)

Module Router.

Inductive Segment :=
| Lit (s : string)
| Param (name : string).

Inductive Route :=
| forecasts
| forecasts_weekly
| forecasts_monthly
| forecasts_quarterly
| insights_bullets
| products_list
| sales_kpis_route
| sales_metric
| inventory_kpis_route
| inventory_reorder_chart
| inventory_lead_times
| inventory_suppliers
| inventory_dataset
| procurement_insights
| procurement_insight
| kpis
| schedule
| schedule_chart
| schedule_operator_workload
| attendance
| attendance_table
| leaves
| insights_operators
| insights1
| operators_dropdown
| suppliers_endpoint
| suppliers_list
| suppliers_alternates
| suppliers_insight
| insights_period
| root.

Definition api (rest : list Segment) : list Segment := Lit "api" :: rest.

Definition routing_table : list (list Segment * Route) := [
  (api [Lit "forecasts"], forecasts);
  (api [Lit "forecasts"; Lit "weekly"], forecasts_weekly);
  (api [Lit "forecasts"; Lit "monthly"], forecasts_monthly);
  (api [Lit "forecasts"; Lit "quarterly"], forecasts_quarterly);
  (api [Lit "insights"], insights_bullets);
  (api [Lit "products"], products_list);
  (api [Lit "sales"; Lit "kpis"], sales_kpis_route);
  (api [Lit "sales"; Param "metric"], sales_metric);
  (api [Lit "inventory"; Lit "kpis"], inventory_kpis_route);
  (api [Lit "inventory"; Lit "reorder_chart"], inventory_reorder_chart);
  (api [Lit "inventory"; Lit "lead_times"], inventory_lead_times);
  (api [Lit "inventory"; Lit "suppliers"], inventory_suppliers);
  (api [Lit "inventory"; Param "dataset"], inventory_dataset);
  (api [Lit "procurement"; Lit "insights"], procurement_insights);
  (api [Lit "procurement"; Lit "insight"; Param "sku_id"], procurement_insight);
  (api [Lit "kpis"], kpis);
  (api [Lit "schedule"], schedule);
  (api [Lit "schedule"; Lit "chart"], schedule_chart);
  (api [Lit "schedule"; Lit "operator_workload"], schedule_operator_workload);
  (api [Lit "attendance"], attendance);
  (api [Lit "attendance"; Lit "table"], attendance_table);
  (api [Lit "leaves"], leaves);
  (api [Lit "insights"], insights_operators);
  (api [Lit "insights1"; Param "operator_id"], insights1);
  (api [Lit "operators"; Lit "dropdown"], operators_dropdown);
  (api [Lit "suppliers"; Param "endpoint"; Param "supplier"], suppliers_endpoint);
  (api [Lit "suppliers"; Lit "list"], suppliers_list);
  (api [Lit "suppliers"; Lit "alternates"; Param "supplier"], suppliers_alternates);
  (api [Lit "suppliers"; Lit "insight"; Param "identifier"], suppliers_insight);
  (api [Lit "insights"; Param "period"], insights_period);
  ([], root)
].

(** Whether a path matches a route's pattern, and the route parameters if it
    does.  A literal segment matches whatever the case of its letters
    (Express's default); a parameter matches one segment that is not empty.
    The path is taken without a slash at its end (which Express, not being
    strict, would let pass). *)
Fixpoint match_path (pattern : list Segment) (segments : list string) : option (list (string * string)) :=
  match pattern, segments with
  | [], [] => Some []
  | Lit s :: pattern', seg :: segments' =>
      if String.eqb (JsString.toLowerCase s) (JsString.toLowerCase seg)
      then match_path pattern' segments'
      else None
  | Param name :: pattern', seg :: segments' =>
      if String.eqb seg "" then None
      else (fun params => (name, seg) :: params) <$> match_path pattern' segments'
  | _, _ => None
  end.

Fixpoint first_match (table : list (list Segment * Route)) (segments : list string)
  : option (Route * list (string * string)) :=
  match table with
  | [] => None
  | (pattern, r) :: table' =>
      match match_path pattern segments with
      | Some params => Some (r, params)
      | None => first_match table' segments
      end
  end.

Definition dispatch (req : Request) : option (Route * list (string * string)) :=
  first_match routing_table (path req).

(** [req.params[name]]: the segment that the parameter matched, as it stands
    in the path.  Express hands the handler [decodeURIComponent] of it, which
    is the segment itself when it holds no percent sign. *)
Definition param (name : string) (params : list (string * string)) : string :=
  match List.find (fun '(k, _) => String.eqb k name) params with
  | Some (_, v) => v
  | None => "undefined"
  end.

End Router.

(** ** Serving a request *)

(** What a request is answered with: a response, or the name of a route whose
    handler is outside this development. *)
Inductive Reply :=
| Sent (response : Response)
| Elsewhere (r : Router.Route).

(** What the client gets from a handler that ran: the response it sent, or,
    when an exception left it, the page of Express's built-in error handler. *)
Definition answer (completion : Completion Response) : Reply :=
  match completion with
  | Normal response => Sent response
  | Throw e => Sent {| status := 500; body := ErrorPage e |}
  end.

Section Server.
Variable Date_parse : string -> option Z.

(** The handler registered for a route, run on the datasets as they are at
    the time of the request. *)
Definition run_route (store : Store) (req : Request) (r : Router.Route) (params : list (string * string))
  : option (Completion Response) :=
  match r with
  | Router.forecasts_weekly => Some (forecast_period_handler "weekly" (forecastData store) req)
  | Router.forecasts_monthly => Some (forecast_period_handler "monthly" (forecastData store) req)
  | Router.forecasts_quarterly => Some (forecast_period_handler "quarterly" (forecastData store) req)
  | Router.insights_bullets => Some (bullet_insights_handler (insightsData store) req)
  | Router.products_list => Some (products_handler (forecastData store))
  | Router.sales_kpis_route => Some (sales_kpis (salesData store))
  | Router.inventory_kpis_route =>
      Some (inventory_kpis (stockData store) (alertData store) (scheduleData store))
  | Router.kpis => Some (production_kpis (attendanceData store) (stationScheduleData store))
  | Router.attendance => Some (attendance_handler Date_parse (attendanceData store))
  | Router.attendance_table => Some (attendance_table_handler Date_parse (attendanceData store))
  | Router.insights_operators => Some (operator_insights_handler (operatorInsightsData store))
  | Router.suppliers_endpoint =>
      Some (supplier_endpoint (suppliersData store)
              (Router.param "endpoint" params) (Router.param "supplier" params))
  | Router.suppliers_alternates =>
      Some (alternates_handler (suppliersData store) (alternateSuppliersData store)
              (Router.param "supplier" params))
  | Router.suppliers_insight =>
      Some (insight_handler (suppliersData store) (supplierInsightsData store)
              (Router.param "identifier" params))
  | _ => None
  end.

(** The answer to a GET request: the first matching route's handler runs; an
    exception that leaves it is answered by Express's built-in error handler
    (status 500, an HTML page); a request that matches no route falls through
    to the final middleware (index.js, lines 1011-1014). *)
Definition respond (store : Store) (req : Request) : Reply :=
  match Router.dispatch req with
  | None =>
      Sent {| status := 404;
              body := TextBody ("Sorry, can't find that! The requested URL was: " ++ originalUrl req) |}
  | Some (r, params) =>
      match run_route store req r params with
      | Some completion => answer completion
      | None => Elsewhere r
      end
  end.

End Server.

(** ** Start-up (index.js, lines 1016-1034)

    [app.listen(port, callback)] binds the port first and runs [callback] once
    the server is listening; the callback starts every load and awaits them
    all.  Each load assigns its module-level array when its stream ends, and
    rejects when its stream fails.  The events below are what the event loop
    delivers from then on. *)

Module Startup.

Inductive Dataset :=
| Forecast
| Insights
| Sales
| Stock
| Alert
| Schedule
| Bom
| Mrp
| ProductionOrders
| StationSchedule
| Procurement
| Attendance
| LeaveRequests
| OperatorInsights
| Suppliers
| AlternateSuppliers
| SupplierInsights
| MonthlyInsights
| QuarterlyInsights
| YearlyInsights.

#[global] Instance Dataset_eq_dec : EqDecision Dataset.
Proof. solve_decision. Defined.

Definition all_datasets : list Dataset := [
  Forecast; Insights; Sales; Stock; Alert; Schedule; Bom; Mrp; ProductionOrders;
  StationSchedule; Procurement; Attendance; LeaveRequests; OperatorInsights;
  Suppliers; AlternateSuppliers; SupplierInsights; MonthlyInsights;
  QuarterlyInsights; YearlyInsights
].

Inductive Phase :=
| Booting
| Serving (done : list Dataset)
| Exited (code : Z).

Inductive Event :=
| Listen
| LoadEnd (d : Dataset)
| LoadError (d : Dataset)
| Get (req : Request).

(** A module-level array: [[]] as declared, the file's rows once its load has
    ended. *)
Definition current {A} (done : list Dataset) (d : Dataset) (rows : list A) : list A :=
  if bool_decide (d ∈ done) then rows else [].

(** The datasets as a handler finds them when the loads in [done] have ended;
    [disk] is what the files hold. *)
Definition globals (disk : Store) (done : list Dataset) : Store :=
  {| forecastData := current done Forecast (forecastData disk);
     insightsData := current done Insights (insightsData disk);
     salesData := current done Sales (salesData disk);
     stockData := current done Stock (stockData disk);
     alertData := current done Alert (alertData disk);
     scheduleData := current done Schedule (scheduleData disk);
     bomData := current done Bom (bomData disk);
     mrpData := current done Mrp (mrpData disk);
     productionOrdersData := current done ProductionOrders (productionOrdersData disk);
     stationScheduleData := current done StationSchedule (stationScheduleData disk);
     procurementData := current done Procurement (procurementData disk);
     attendanceData := current done Attendance (attendanceData disk);
     leaveRequestsData := current done LeaveRequests (leaveRequestsData disk);
     operatorInsightsData := current done OperatorInsights (operatorInsightsData disk);
     suppliersData := current done Suppliers (suppliersData disk);
     alternateSuppliersData := current done AlternateSuppliers (alternateSuppliersData disk);
     supplierInsightsData := current done SupplierInsights (supplierInsightsData disk);
     monthlyInsightsData := current done MonthlyInsights (monthlyInsightsData disk);
     quarterlyInsightsData := current done QuarterlyInsights (quarterlyInsightsData disk);
     yearlyInsightsData := current done YearlyInsights (yearlyInsightsData disk) |}.

(** Whether every load has ended: [Promise.all] has resolved. *)
Definition all_loaded (done : list Dataset) : bool :=
  forallb (fun d => bool_decide (d ∈ done)) all_datasets.

Section Run.
Variable Date_parse : string -> option Z.
Variable disk : Store.

(** One event: the next phase and the reply it produces, if any; [None] when
    the event cannot happen in that phase.  A request is answered from the
    moment the server listens; a failed load ends the process with
    [process.exit(1)]. *)
Definition step (phase : Phase) (ev : Event) : option (Phase * option Reply) :=
  match phase, ev with
  | Booting, Listen => Some (Serving [], None)
  | Serving done, LoadEnd d =>
      if bool_decide (d ∈ done) then None else Some (Serving (d :: done), None)
  | Serving done, LoadError d =>
      if bool_decide (d ∈ done) then None else Some (Exited 1, None)
  | Serving done, Get req =>
      Some (Serving done, Some (respond Date_parse (globals disk done) req))
  | _, _ => None
  end.

(** A run: the phase reached and the replies sent, in order. *)
Fixpoint run (phase : Phase) (events : list Event) : option (Phase * list Reply) :=
  match events with
  | [] => Some (phase, [])
  | ev :: events' =>
      match step phase ev with
      | Some (phase', out) =>
          match run phase' events' with
          | Some (final, replies) =>
              Some (final, match out with Some r => r :: replies | None => replies end)
          | None => None
          end
      | None => None
      end
  end.

End Run.

End Startup.

(** * What the specification says, in the terms of the program *)

(** ** Period aggregator: groups *)

(** The records of [data] whose period key is [k], in their order. *)
Definition group {R} (date_of : R -> Calendar.JsDate) (groupBy k : string) (data : list R) : list R :=
  List.filter (fun r => bool_decide (period_key groupBy (date_of r) = k)) data.

(** [numbers.reduce((sum, x) => sum + x, 0)] over Numbers. *)
Definition sum_numbers (l : list number) : number := sum_with Number.add Number.zero l.

(** ** Filter engine: two readings of a parameter *)

(** The program's reading: a parameter that is absent or empty asks for
    nothing. *)
Definition wanted (param v : option string) : bool :=
  if truthy param then strict_eq v param else true.

(** The specification's reading: every parameter that is present must be
    equalled. *)
Definition required (param v : option string) : bool :=
  match param with
  | Some _ => strict_eq v param
  | None => true
  end.

Definition filter_present (forecastData : list ForecastRow) (req : Request) : list ForecastRow :=
  List.filter
    (fun d => required (query req !! "PRODUCT_CARD_ID") (columns d !! "PRODUCT_CARD_ID")
              && required (query req !! "PRODUCT_NAME") (columns d !! "PRODUCT_NAME"))
    forecastData.

(** ** Products: two readings of which record names the product *)

Definition product_of (item : ForecastRow) : Product :=
  {| PRODUCT_CARD_ID := columns item !! "PRODUCT_CARD_ID";
     PRODUCT_NAME := columns item !! "PRODUCT_NAME" |}.

(** The records with a given product id, in their order. *)
Definition with_id (id : option string) (forecastData : list ForecastRow) : list ForecastRow :=
  List.filter (fun item => bool_decide (columns item !! "PRODUCT_CARD_ID" = id)) forecastData.

(** The specification's reading: for each id, the pair of the first record
    that has it. *)
Definition products_first_seen (forecastData : list ForecastRow) : list Product :=
  map snd
    (collect (fun item => columns item !! "PRODUCT_CARD_ID")
       (fun item slot => default (product_of item) slot)
       forecastData).

(** ** Alternates: the supplier looked for and the rows wanted *)

(** Whether a supplier row carries the name, whatever the case of the
    letters (of the ASCII letters: see [JsString.toLowerCase]). *)
Definition names_supplier (name : string) (item : Row) : bool :=
  match item !! "Supplier_Name" with
  | Some n => String.eqb (JsString.toLowerCase n) (JsString.toLowerCase name)
  | None => false
  end.

(** Whether an alternate-supplier row has exactly the SKU of [mainSupplier]
    and lacks neither SKU nor supplier name. *)
Definition alternate_wanted (mainSupplier item : Row) : bool :=
  strict_eq (item !! "sku_id") (mainSupplier !! "SKU_No")
  && truthy (item !! "sku_id") && truthy (item !! "supplier_name").

(** ** Attendance: the entry made of a row *)

Definition attendance_entry (item : Row) : AttendanceEntry :=
  {| date := item !! "Date";
     operator_id := item !! "Operator_ID";
     operator_name := item !! "Operator_Name";
     present := item !! "Present";
     shift := or_else (item !! "Shift") "Day" |}.

(** A date parser that reads the ISO form [YYYY-MM-DD] (UTC midnight of that
    day, as the language fixes it) and nothing else. *)
Definition iso_date_parse (s : string) : option Z :=
  match s with
  | String y1 (String y2 (String y3 (String y4 (String "-"
      (String m1 (String m2 (String "-" (String d1 (String d2 EmptyString))))))))) =>
      let digit c := Number.digit_value 10 c in
      y1 ← digit y1; y2 ← digit y2; y3 ← digit y3; y4 ← digit y4;
      m1 ← digit m1; m2 ← digit m2; d1 ← digit d1; d2 ← digit d2;
      let y := (y1 * 1000 + y2 * 100 + y3 * 10 + y4)%Z in
      let m := (m1 * 10 + m2)%Z in
      let d := (d1 * 10 + d2)%Z in
      let n := Calendar.days_from_civil y m d in
      if bool_decide (Calendar.civil_from_days n = (y, m, d))
      then Some (n * 86400000)%Z
      else None
  | _ => None
  end.

(** ** Sample data *)

Definition row (cells : list (string * string)) : Row := list_to_map cells.

Definition forecast_row (id name demand : string) (day : Calendar.JsDate) : ForecastRow :=
  {| columns := row [("PRODUCT_CARD_ID", id); ("PRODUCT_NAME", name)];
     Forecasted_Demand := Number.parseFloat demand;
     Date := day |}.

Definition get (url : string) (segments : list string) (params : list (string * string)) : Request :=
  {| originalUrl := url; path := segments; query := list_to_map params |}.

(** Three forecast rows: one in January 2024, two in February 2024. *)
Definition three_forecasts : list ForecastRow := [
  forecast_row "1" "Pump A" "0.1" (Calendar.mkDate 2024 1 5);
  forecast_row "2" "Pump B" "0.2" (Calendar.mkDate 2024 2 5);
  forecast_row "2" "Pump B" "0.3" (Calendar.mkDate 2024 2 20)
].

(** Two forecast rows with the same product id and different names. *)
Definition renamed_product : list ForecastRow := [
  forecast_row "1" "Pump A" "10" (Calendar.mkDate 2024 1 5);
  forecast_row "1" "Pump A (new)" "12" (Calendar.mkDate 2024 2 5)
].

Definition acme : Row :=
  row [("Supplier_Name", "Acme"); ("SKU_No", "S1"); ("Lead_Time_Days", "7");
       ("Fulfillment_Rate", "92.5%"); ("OTD_Percentage", "88%");
       ("Late_Deliveries", "3"); ("Total_Orders", "40")].

(** A supplier row that lacks its name column (a short CSV line). *)
Definition nameless : Row := row [("SKU_No", "S9")].

Definition some_alternates : list Row := [
  row [("sku_id", "S1"); ("supplier_name", "Beta")];
  row [("sku_id", "s1"); ("supplier_name", "Gamma")];
  row [("sku_id", "S1")];
  row [("sku_id", "S2"); ("supplier_name", "Delta")]
].

Definition some_attendance : list Row := [
  row [("Date", "2018-01-03"); ("Operator_ID", "O1"); ("Present", "Yes")];
  row [("Date", "2018-01-01"); ("Operator_ID", "O2"); ("Present", "No"); ("Shift", "Night")];
  row [("Date", "2018-01-02"); ("Operator_ID", "O1"); ("Present", "Yes"); ("Shift", "")]
].

Definition empty_store : Store :=
  {| forecastData := []; insightsData := []; salesData := []; stockData := [];
     alertData := []; scheduleData := []; bomData := []; mrpData := [];
     productionOrdersData := []; stationScheduleData := []; procurementData := [];
     attendanceData := []; leaveRequestsData := []; operatorInsightsData := [];
     suppliersData := []; alternateSuppliersData := []; supplierInsightsData := [];
     monthlyInsightsData := []; quarterlyInsightsData := []; yearlyInsightsData := [] |}.


(** ** Field coercion: a first character from which no numeral can start

    An ASCII character that is no white space, no sign, no point, no digit
    and not the [I] of [Infinity]. *)

Definition begins_no_numeral (c : ascii) : bool :=
  (N_of_ascii c <? 128)%N
  && negb (Number.is_white_space c)
  && negb (Ascii.eqb c "+") && negb (Ascii.eqb c "-")
  && negb (Ascii.eqb c ".") && negb (Ascii.eqb c "I")
  && bool_decide (Number.digit_value 10 c = None).

(** ** More sample data *)

Definition with_suppliers (rows : list Row) : Store :=
  {| forecastData := []; insightsData := []; salesData := []; stockData := [];
     alertData := []; scheduleData := []; bomData := []; mrpData := [];
     productionOrdersData := []; stationScheduleData := []; procurementData := [];
     attendanceData := []; leaveRequestsData := []; operatorInsightsData := [];
     suppliersData := rows; alternateSuppliersData := some_alternates;
     supplierInsightsData := [];
     monthlyInsightsData := []; quarterlyInsightsData := []; yearlyInsightsData := [] |}.

(** What the files hold in the start-up samples: three forecasts, one bullet
    insight and one operator insight. *)
Definition sample_disk : Store :=
  {| forecastData := three_forecasts;
     insightsData := [row [("Month", "2024-01"); ("PRODUCT_CARD_ID", "1"); ("Insight", "Demand is flat")]];
     salesData := []; stockData := [];
     alertData := []; scheduleData := []; bomData := []; mrpData := [];
     productionOrdersData := []; stationScheduleData := []; procurementData := [];
     attendanceData := some_attendance; leaveRequestsData := [];
     operatorInsightsData := [row [("operator_id", "O1"); ("ai_insight", "Often absent on Mondays")]];
     suppliersData := [acme]; alternateSuppliersData := some_alternates;
     supplierInsightsData := [];
     monthlyInsightsData := []; quarterlyInsightsData := []; yearlyInsightsData := [] |}.


(** ** Attendance: ascending dates *)

(** [a] is dated no later than [b], both dates being valid. *)
Definition no_later (Date_parse : string -> option Z) (a b : AttendanceEntry) : Prop :=
  match time_value Date_parse (date a), time_value Date_parse (date b) with
  | Some ta, Some tb => (ta <= tb)%Z
  | _, _ => False
  end.

Definition dated (Date_parse : string -> option Z) (a : AttendanceEntry) : Prop :=
  is_Some (time_value Date_parse (date a)).


(** * The other routes of index.js *)

(** ** Plain objects used as dictionaries

    [obj[key]] on an object literal finds, besides the keys set by the
    program, the properties of [Object.prototype]; these are their names.
    The functions below that build an object from data keys are defined only
    when no data key is one of them. *)
Definition inherited_names : list string := [
  "constructor"; "__defineGetter__"; "__defineSetter__"; "hasOwnProperty";
  "__lookupGetter__"; "__lookupSetter__"; "isPrototypeOf"; "propertyIsEnumerable";
  "toString"; "valueOf"; "__proto__"; "toLocaleString"
].

Definition inherited (key : string) : bool := bool_decide (key ∈ inherited_names).

(** The array index that a property name denotes, if it denotes one: the
    canonical decimal numeral of an integer below 2^32 - 1. *)
Definition array_index (key : string) : option Z :=
  let '(v, n, rest) := Number.read_digits 10 key 0 0 in
  if String.eqb rest "" && (0 <? n)%Z && String.eqb (pretty v) key && (v <? 4294967295)%Z
  then Some v
  else None.

(** [Object.entries], [Object.keys] and [Object.values] list the keys that
    are array indices first, in ascending order, then the other keys in the
    order in which they were first set. *)
Definition own_entries {V} (obj : list (string * V)) : list (string * V) :=
  let indexed :=
    omap (fun entry => (fun i => (i, entry)) <$> array_index (fst entry)) obj in
  map snd (array_sort (fun a b => Some (fst a - fst b)%Z) indexed)
  ++ List.filter (fun entry => bool_decide (array_index (fst entry) = None)) obj.

(** ** Group-by reducer: [obj[key] = (obj[key] || 0) + amount] *)

(** A Number is falsy when it is a zero or NaN. *)
Definition falsy_number (x : number) : bool :=
  match x with
  | S754_zero _ | S754_nan => true
  | _ => false
  end.

(** [obj[key] || 0]. *)
Definition held_or_zero (slot : option number) : number :=
  match slot with
  | Some x => if falsy_number x then Number.zero else x
  | None => Number.zero
  end.

(** The object that a [forEach] over [data] builds when each item adds
    [amount_of item] under the key [key_of item]; a missing key column reads
    as the key [undefined].  The object is read here without what it
    inherits: this is the program's object when no key of the data is the
    name of a property of [Object.prototype] ([plain_keys], below), which the
    handlers test and the theorems on the totals assume. *)
Definition totals_by (key_of : Row -> option string) (amount_of : Row -> number) (data : list Row)
  : list (string * number) :=
  collect (fun item => to_string (key_of item))
    (fun item slot => Number.add (held_or_zero slot) (amount_of item))
    data.

(** Whether no key of the data is a property of [Object.prototype]. *)
Definition plain_keys (key_of : Row -> option string) (data : list Row) : bool :=
  forallb (fun item => negb (inherited (to_string (key_of item)))) data.

(** The sign of a comparator's result; [None] for NaN. *)
Definition sign_of (x : number) : option Z :=
  match x with
  | S754_nan => None
  | S754_zero _ => Some 0%Z
  | S754_infinity s | S754_finite s _ _ => Some (if s then (-1)%Z else 1%Z)
  end.

(** [entries.sort(([, a], [, b]) => b - a)]. *)
Definition sort_descending (entries : list (string * number)) : list (string * number) :=
  array_sort (fun x y => sign_of (Number.sub (snd y) (snd x))) entries.

(** [{ <keys>: entries.map(([k]) => k), <values>: entries.map(([, v]) => v) }]. *)
Definition columns_json (keys values : string) (entries : list (string * number)) : Json :=
  JObj [(keys, JArr (map (fun entry => JStr (fst entry)) entries));
        (values, JArr (map (fun entry => json_number (snd entry)) entries))].

Definition sales_of (item : Row) : number := float_or_zero (item !! "Sales").

(** [GET /api/sales/:metric] (index.js, lines 214-301).  [None] where this
    development does not follow the program: the metric [monthly-sales], and
    data with a key that is a property of [Object.prototype]. *)
Definition sales_metric_handler (salesData : list Row) (metric : string)
  : option (Completion Response) :=
  if Nat.eqb (length salesData) 0 then
    Some (Normal (error_json 200 "Data not loaded"))
  else
    let totals (column : string) := totals_by (fun item : Row => item !! column) sales_of salesData in
    let answer_with (column : string) (j : Json) :=
      if plain_keys (fun item : Row => item !! column) salesData
      then Some (try_catch (Normal (json 200 j))
                   (fun error => Normal (error_json 200 (message_of error))))
      else None in
    if String.eqb metric "city-sales" then
      answer_with "Customer City"
        (columns_json "cities" "sales"
           (take 10 (sort_descending (own_entries (totals "Customer City")))))
    else if String.eqb metric "category-distribution" then
      answer_with "Category Name"
        (columns_json "categories" "sales" (own_entries (totals "Category Name")))
    else if String.eqb metric "monthly-sales" then None
    else if String.eqb metric "shipping-mode" then
      answer_with "Shipping Mode"
        (columns_json "modes" "counts"
           (own_entries
              (totals_by (fun item : Row => item !! "Shipping Mode") (fun _ => Number.of_Z 1)
                 salesData)))
    else if String.eqb metric "region-sales" then
      answer_with "Order Region"
        (columns_json "regions" "sales" (sort_descending (own_entries (totals "Order Region"))))
    else if String.eqb metric "top-products" then
      answer_with "Product Name"
        (columns_json "products" "sales"
           (take 5 (sort_descending (own_entries (totals "Product Name")))))
    else
      Some (try_catch (Normal (error_json 400 ("Invalid metric '" ++ metric ++ "'")))
              (fun error => Normal (error_json 200 (message_of error)))).

(** ** Inventory views (index.js, lines 442-508) *)

(** [GET /api/inventory/reorder_chart]. *)
Definition reorder_chart_handler (alertData : list Row) : Completion Response :=
  try_catch
    (Normal (json 200 (JArr (map (fun item : Row =>
       json_object [("SKU_No", json_string (item !! "SKU_No"));
                    ("Available", Some (json_number (int_or_zero (item !! "Available"))));
                    ("Reorder_Point", Some (json_number (int_or_zero (item !! "Reorder_Point"))))])
       alertData))))
    (fun error => Normal (error_json 200 (message_of error))).

(** [GET /api/inventory/lead_times]. *)
Definition lead_times_handler (stockData : list Row) : Completion Response :=
  try_catch
    (Normal (json 200 (JArr (map (fun item : Row =>
       json_object [("SKU_No", json_string (item !! "SKU_No"));
                    ("Lead_Time_Days", Some (json_number (float_or_zero (item !! "Lead_Time_Days"))))])
       stockData))))
    (fun error => Normal (error_json 200 (message_of error))).

(** The alert counts per supplier of [GET /api/inventory/suppliers]. *)
Definition supplier_alerts (alertData : list Row) : list (string * number) :=
  own_entries
    (totals_by (fun item : Row => item !! "Supplier") (fun _ => Number.of_Z 1)
       (List.filter below_reorder alertData)).

(** [GET /api/inventory/suppliers]; [None] when a supplier's name is a
    property of [Object.prototype]. *)
Definition inventory_suppliers_handler (alertData : list Row) : option (Completion Response) :=
  if plain_keys (fun item : Row => item !! "Supplier") (List.filter below_reorder alertData) then
    Some (try_catch
            (Normal (json 200 (JArr (map (fun entry =>
               JObj [("Supplier", JStr (fst entry)); ("Alert_Count", json_number (snd entry))])
               (supplier_alerts alertData)))))
            (fun error => Normal (error_json 200 (message_of error))))
  else None.

(** [fileMap[name]] for an object literal whose values are arrays of rows:
    [None] when the name is inherited from [Object.prototype]; otherwise
    whether the literal has the name. *)
Definition file_map (entries : list (string * list Row)) (name : string) : option (option (list Row)) :=
  if inherited name then None
  else Some (snd <$> List.find (fun entry => String.eqb (fst entry) name) entries).

(** [GET /api/inventory/:dataset] (index.js, lines 491-508). *)
Definition inventory_dataset_handler (store : Store) (dataset : string) : option (Completion Response) :=
  let fileMap := [
    ("stock_levels", stockData store);
    ("alerts", alertData store);
    ("bom", bomData store);
    ("mrp_plan", mrpData store);
    ("production_orders", productionOrdersData store);
    ("schedule", scheduleData store);
    ("station_schedule", stationScheduleData store)
  ] in
  found ← file_map fileMap dataset;
  Some (Normal
          match found with
          | None => error_json 400 ("Invalid dataset '" ++ dataset ++ "'")
          | Some rows => json 200 (JArr (map JRow rows))
          end).

(** [GET /api/insights/:period] (index.js, lines 989-1002). *)
Definition insights_period_handler (store : Store) (period_name : string) : option (Completion Response) :=
  let fileMap := [
    ("monthly", monthlyInsightsData store);
    ("quarterly", quarterlyInsightsData store);
    ("yearly", yearlyInsightsData store)
  ] in
  found ← file_map fileMap period_name;
  Some (Normal
          match found with
          | None => error_json 400 ("Invalid period '" ++ period_name ++ "'")
          | Some rows => json 200 (JArr (map JRow rows))
          end).

(** ** Procurement (index.js, lines 533-546) *)

(** [GET /api/procurement/insights]. *)
Definition procurement_insights_handler (procurementData : list Row) : Completion Response :=
  Normal (json 200 (JArr (map JRow procurementData))).

(** [GET /api/procurement/insight/:sku_id]. *)
Definition procurement_insight_handler (procurementData : list Row) (sku_id : string)
  : Completion Response :=
  let matching := List.filter (fun item : Row => strict_eq (item !! "SKU_ID") (Some sku_id)) procurementData in
  if Nat.eqb (length matching) 0 then
    Normal (json 404 (JObj [("message", JStr ("No insight found for SKU " ++ sku_id))]))
  else
    Normal (json 200 (JArr (map JRow matching))).

(** ** Schedule (index.js, lines 637-697) *)

(** [GET /api/schedule]. *)
Definition schedule_handler (stationScheduleData : list Row) : Completion Response :=
  if Nat.eqb (length stationScheduleData) 0 then
    Normal (error_json 500 "Schedule file not found or corrupted")
  else
    Normal (json 200 (JArr (map (fun item : Row =>
      json_object [("Start_Time", json_string (item !! "time"));
                   ("Station_Name", json_string (item !! "station"));
                   ("Operator_Name", json_string (item !! "operator"));
                   ("Model", json_string (item !! "product_model"));
                   ("Product", json_string (item !! "product_name"));
                   ("Date", json_string (item !! "scheduled_date"));
                   ("PO", json_string (item !! "po_number"));
                   ("Units", json_string (item !! "unit"))])
      stationScheduleData))).

(** The units per value of a column of the station schedule. *)
Definition units_by (column : string) (stationScheduleData : list Row) : list (string * number) :=
  own_entries
    (totals_by (fun item : Row => item !! column) (fun item : Row => int_or_zero (item !! "unit"))
       stationScheduleData).

(** [GET /api/schedule/chart] and [GET /api/schedule/operator_workload], which
    differ in the column grouped on, the name under which it is sent and the
    error text; [None] when a value of the column is a property of
    [Object.prototype]. *)
Definition schedule_totals_handler (column failure : string) (stationScheduleData : list Row)
  : option (Completion Response) :=
  if Nat.eqb (length stationScheduleData) 0 then
    Some (Normal (error_json 500 failure))
  else if plain_keys (fun item : Row => item !! column) stationScheduleData then
    Some (Normal (json 200 (JArr (map (fun entry =>
            JObj [(column, JStr (fst entry)); ("Total_Units", json_number (snd entry))])
            (units_by column stationScheduleData)))))
  else None.

Definition schedule_chart_handler : list Row -> option (Completion Response) :=
  schedule_totals_handler "station" "Chart data failed".

Definition operator_workload_handler : list Row -> option (Completion Response) :=
  schedule_totals_handler "operator" "Workload data failed".

(** ** Leaves, operator insights and the drop-down lists *)

(** [GET /api/leaves] (index.js, lines 725-736). *)
Definition leaves_handler (leaveRequestsData : list Row) : Completion Response :=
  Normal (json 200 (JArr (map (fun item : Row =>
    json_object [("from_date", json_string (item !! "from_date"));
                 ("to_date", json_string (item !! "to_date"));
                 ("operator_id", json_string (item !! "operator_id"));
                 ("operator_name", json_string (item !! "operator_name"));
                 ("reason", json_string (item !! "reason"));
                 ("status", json_string (item !! "status"))])
    leaveRequestsData))).

(** [GET /api/insights1/:operator_id] (index.js, lines 747-754). *)
Definition operator_insight_handler (operatorInsightsData : list Row) (id : string)
  : Completion Response :=
  let filtered := List.filter (fun item : Row => strict_eq (item !! "operator_id") (Some id)) operatorInsightsData in
  if Nat.eqb (length filtered) 0 then
    Normal (json 200 (JObj [("message", JStr ("No insights found for " ++ id))]))
  else
    Normal (json 200 (JObj [("insights1", JArr (map JRow filtered))])).

(** The order of [Array.prototype.sort] without a comparator, on strings:
    that of their code units, here bytes. *)
Definition code_unit_order (a b : string) : option Z :=
  Some match String.compare a b with
       | Lt => (-1)%Z
       | Eq => 0%Z
       | Gt => 1%Z
       end.

(** [[...new Set(data.filter(item => item[column]).map(item => item[column]))].sort()]. *)
Definition sorted_distinct (column : string) (data : list Row) : list string :=
  array_sort code_unit_order
    (first_seen
       (map (fun item : Row => to_string (item !! column))
          (List.filter (fun item : Row => truthy (item !! column)) data))).

(** [GET /api/operators/dropdown] (index.js, lines 757-763). *)
Definition operators_dropdown_handler (operatorInsightsData : list Row) : Completion Response :=
  Normal (json 200 (JObj [("operators", JArr (map JStr (sorted_distinct "operator_id" operatorInsightsData)))])).

(** [GET /api/suppliers/list] (index.js, lines 861-867). *)
Definition suppliers_list_handler (suppliersData : list Row) : Completion Response :=
  Normal (json 200 (JArr (map JStr (sorted_distinct "Supplier_Name" suppliersData)))).

(** ** [loadData]: what is kept of a line of the forecast file (index.js,
    lines 31-35)

    [new_Date] is the Date made of the text of the [Date] cell, as the calendar
    day it falls on in the server's time zone. *)
Definition load_forecast_row (new_Date : option string -> Calendar.JsDate) (line : Row) : ForecastRow :=
  {| columns := delete "Date" (delete "Forecasted_Demand" line);
     Forecasted_Demand := Number.parseFloat (to_string (line !! "Forecasted_Demand"));
     Date := new_Date (line !! "Date") |}.

(** ** Serving the other routes *)

Definition run_other (store : Store) (r : Router.Route) (params : list (string * string))
  : option (Completion Response) :=
  match r with
  | Router.sales_metric => sales_metric_handler (salesData store) (Router.param "metric" params)
  | Router.inventory_reorder_chart => Some (reorder_chart_handler (alertData store))
  | Router.inventory_lead_times => Some (lead_times_handler (stockData store))
  | Router.inventory_suppliers => inventory_suppliers_handler (alertData store)
  | Router.inventory_dataset => inventory_dataset_handler store (Router.param "dataset" params)
  | Router.procurement_insights => Some (procurement_insights_handler (procurementData store))
  | Router.procurement_insight =>
      Some (procurement_insight_handler (procurementData store) (Router.param "sku_id" params))
  | Router.schedule => Some (schedule_handler (stationScheduleData store))
  | Router.schedule_chart => schedule_chart_handler (stationScheduleData store)
  | Router.schedule_operator_workload => operator_workload_handler (stationScheduleData store)
  | Router.leaves => Some (leaves_handler (leaveRequestsData store))
  | Router.insights1 =>
      Some (operator_insight_handler (operatorInsightsData store) (Router.param "operator_id" params))
  | Router.operators_dropdown => Some (operators_dropdown_handler (operatorInsightsData store))
  | Router.suppliers_list => Some (suppliers_list_handler (suppliersData store))
  | Router.insights_period => insights_period_handler store (Router.param "period" params)
  | _ => None
  end.

(** The answer to a GET request, with the routes above beside those of
    [respond]. *)
Definition serve (Date_parse : string -> option Z) (store : Store) (req : Request) : Reply :=
  match respond Date_parse store req with
  | Elsewhere r =>
      match Router.dispatch req with
      | Some (_, params) =>
          match run_other store r params with
          | Some completion => answer completion
          | None => Elsewhere r
          end
      | None => Elsewhere r
      end
  | reply => reply
  end.


(** ** Integers as binary64 Numbers *)

(** [c] followed by [n] zero bits. *)
Definition shifted (n : nat) (c : positive) : positive := Nat.iter n xO c.

(** The normal form of a positive integer of at most 53 bits: its bits
    left-aligned in a mantissa of 53 bits. *)
Definition canonical (c : positive) : number :=
  S754_finite false (shifted (Z.to_nat (53 - Z.pos (digits2_pos c))) c)
    (Z.pos (digits2_pos c) - 53).

(** The sum of a list of integers. *)
Definition sum_Z (zs : list Z) : Z := sum_with Z.add 0%Z zs.


(** The rows filed under a key by the group-by reducer, in their order. *)
Definition filed_under (key_of : Row -> option string) (k : string) (data : list Row) : list Row :=
  List.filter (fun item => bool_decide (to_string (key_of item) = k)) data.

(** One step of the group-by reducer on the slot of a key. *)
Definition add_to_slot (amount_of : Row -> number) (slot : option number) (item : Row) : option number :=
  Some (Number.add (held_or_zero slot) (amount_of item)).


(** The routes registered behind an earlier route that matches every path
    they match. *)
Definition shadowed_routes : list Router.Route :=
  [Router.insights_operators; Router.suppliers_alternates; Router.suppliers_insight].

(** A path on which a route is the first to match. *)
Definition path_to (r : Router.Route) : list string :=
  match r with
  | Router.forecasts => ["api"; "forecasts"]
  | Router.forecasts_weekly => ["api"; "forecasts"; "weekly"]
  | Router.forecasts_monthly => ["api"; "forecasts"; "monthly"]
  | Router.forecasts_quarterly => ["api"; "forecasts"; "quarterly"]
  | Router.insights_bullets | Router.insights_operators => ["api"; "insights"]
  | Router.products_list => ["api"; "products"]
  | Router.sales_kpis_route => ["api"; "sales"; "kpis"]
  | Router.sales_metric => ["api"; "sales"; "city-sales"]
  | Router.inventory_kpis_route => ["api"; "inventory"; "kpis"]
  | Router.inventory_reorder_chart => ["api"; "inventory"; "reorder_chart"]
  | Router.inventory_lead_times => ["api"; "inventory"; "lead_times"]
  | Router.inventory_suppliers => ["api"; "inventory"; "suppliers"]
  | Router.inventory_dataset => ["api"; "inventory"; "bom"]
  | Router.procurement_insights => ["api"; "procurement"; "insights"]
  | Router.procurement_insight => ["api"; "procurement"; "insight"; "S1"]
  | Router.kpis => ["api"; "kpis"]
  | Router.schedule => ["api"; "schedule"]
  | Router.schedule_chart => ["api"; "schedule"; "chart"]
  | Router.schedule_operator_workload => ["api"; "schedule"; "operator_workload"]
  | Router.attendance => ["api"; "attendance"]
  | Router.attendance_table => ["api"; "attendance"; "table"]
  | Router.leaves => ["api"; "leaves"]
  | Router.insights1 => ["api"; "insights1"; "O1"]
  | Router.operators_dropdown => ["api"; "operators"; "dropdown"]
  | Router.suppliers_endpoint => ["api"; "suppliers"; "kpis"; "Acme"]
  | Router.suppliers_list => ["api"; "suppliers"; "list"]
  | Router.suppliers_alternates => ["api"; "suppliers"; "alternates"; "Acme"]
  | Router.suppliers_insight => ["api"; "suppliers"; "insight"; "Acme"]
  | Router.insights_period => ["api"; "insights"; "monthly"]
  | Router.root => []
  end.


(** Whether an insight row is about the SKU, whatever the case of the
    letters (of the ASCII letters: see [JsString.toLowerCase]). *)
Definition sku_is (other : option string) (item : Row) : bool :=
  match item !! "sku_id", other with
  | Some mine, Some theirs => String.eqb (JsString.toLowerCase mine) (JsString.toLowerCase theirs)
  | _, _ => false
  end.

(** The answer of the insight route when the identifier is read as a SKU. *)
Definition insight_by_sku (supplierInsightsData : list Row) (identifier : string) : Response :=
  match List.filter (sku_is (Some identifier)) supplierInsightsData with
  | first :: _ =>
      json 200 (json_object [("sku_id", Some (JStr identifier));
                             ("insight", json_string (first !! "ai_supplier_insight"))])
  | [] => error_json 404 ("No AI insight found for " ++ identifier)
  end.


(** ** Sample rows of the other routes *)

(** Three sales of one city, the second with an amount that is no number. *)
Definition pune_sales : list Row := [
  row [("Customer City", "Pune"); ("Sales", "5")];
  row [("Customer City", "Pune"); ("Sales", "n/a")];
  row [("Customer City", "Pune"); ("Sales", "7")]
].

(** Two forecasts of five units each, in January and in February 2024. *)
Definition two_fives : list ForecastRow := [
  forecast_row "1" "Pump A" "5" (Calendar.mkDate 2024 1 5);
  forecast_row "2" "Pump B" "5" (Calendar.mkDate 2024 2 5)
].


(** The names under which [GET /api/inventory/:dataset] and
    [GET /api/insights/:period] serve a dataset. *)
Definition inventory_datasets : list string :=
  ["stock_levels"; "alerts"; "bom"; "mrp_plan"; "production_orders"; "schedule"; "station_schedule"].

Definition insight_periods : list string := ["monthly"; "quarterly"; "yearly"].


(** [a] comes strictly before [b] in the order of the code units. *)
Definition before (a b : string) : Prop := String.compare a b = Lt.


(** Whether an attendance entry has the time value [t] ([None]: an invalid
    date). *)
Definition dated_at (Date_parse : string -> option Z) (t : option Z) (a : AttendanceEntry) : bool :=
  bool_decide (time_value Date_parse (date a) = t).


(** Whether the character occurs in the string. *)
Fixpoint occurs (c : ascii) (s : string) : bool :=
  match s with
  | String c' s' => Ascii.eqb c c' || occurs c s'
  | EmptyString => false
  end.

(** Whether the row has the column, with ASCII characters only in it. *)
Definition ascii_cell (column : string) (item : Row) : bool :=
  match item !! column with
  | Some text => JsString.is_ascii text
  | None => false
  end.

(** A path segment that [decodeURIComponent] leaves as it is: ASCII
    characters, none of them a percent sign. *)
Definition unescaped (segment : string) : bool :=
  JsString.is_ascii segment && negb (occurs "%" segment).


(** The metrics that [GET /api/sales/:metric] knows. *)
Definition sales_metrics : list string :=
  ["city-sales"; "category-distribution"; "monthly-sales"; "shipping-mode"; "region-sales";
   "top-products"].


(** * Properties *)

(** ** Keyed collections *)

Section KeyedFacts.
Context {K V : Type} `{EqDecision K}.

Lemma upsert_keys (k : K) (f : option V -> V) (m : list (K * V)) :
  map fst (upsert k f m) = if decide (k ∈ map fst m) then map fst m else map fst m ++ [k].
Proof.
  induction m as [|[k' v] m IH]; simpl.
  - destruct (decide (k ∈ [])) as [Hin|_]; [inversion Hin | reflexivity].
  - destruct (decide (k' = k)) as [->|Hne]; simpl.
    + rewrite decide_True by apply list_elem_of_here. reflexivity.
    + rewrite IH. destruct (decide (k ∈ map fst m)) as [Hin|Hnin].
      * rewrite decide_True by (apply list_elem_of_further, Hin). reflexivity.
      * rewrite decide_False; [reflexivity|].
        intros Hin. apply elem_of_cons in Hin as [->|Hin]; [congruence | contradiction].
Qed.

Lemma held_upsert_eq (k : K) (f : option V -> V) (m : list (K * V)) :
  held k (upsert k f m) = Some (f (held k m)).
Proof.
  unfold held. induction m as [|[k' v] m IH]; simpl.
  - rewrite bool_decide_eq_true_2 by reflexivity. reflexivity.
  - destruct (decide (k' = k)) as [->|Hne]; simpl.
    + rewrite bool_decide_eq_true_2 by reflexivity. reflexivity.
    + rewrite bool_decide_eq_false_2 by exact Hne. exact IH.
Qed.

Lemma held_upsert_ne (k k0 : K) (f : option V -> V) (m : list (K * V)) :
  k0 <> k -> held k0 (upsert k f m) = held k0 m.
Proof.
  intros Hne. unfold held. induction m as [|[k' v] m IH]; simpl.
  - rewrite bool_decide_eq_false_2 by congruence. reflexivity.
  - destruct (decide (k' = k)) as [->|Hk]; simpl.
    + rewrite !bool_decide_eq_false_2 by congruence. reflexivity.
    + destruct (bool_decide (k' = k0)); [reflexivity | exact IH].
Qed.

Lemma held_of_member (k : K) (v : V) (m : list (K * V)) :
  NoDup (map fst m) -> In (k, v) m -> held k m = Some v.
Proof.
  unfold held. induction m as [|[k' v'] m IH]; simpl; intros Hnd Hin; [contradiction|].
  apply NoDup_cons in Hnd as [Hnotin Hnd].
  destruct Hin as [Heq|Hin].
  - injection Heq as -> ->. rewrite bool_decide_eq_true_2 by reflexivity. reflexivity.
  - rewrite bool_decide_eq_false_2; [apply IH; assumption|].
    intros ->. apply Hnotin. apply list_elem_of_In. apply in_map_iff. exists (k, v). split; [reflexivity | exact Hin].
Qed.

Lemma first_seen_snoc (l : list K) (x : K) :
  first_seen (l ++ [x]) = if decide (x ∈ first_seen l) then first_seen l else first_seen l ++ [x].
Proof. unfold first_seen. rewrite fold_left_app. reflexivity. Qed.

Lemma first_seen_elem (l : list K) (x : K) : x ∈ first_seen l <-> x ∈ l.
Proof.
  induction l as [|y l IH] using rev_ind.
  - reflexivity.
  - rewrite first_seen_snoc. destruct (decide (y ∈ first_seen l)) as [Hin|Hnin].
    + rewrite elem_of_app, list_elem_of_singleton. split; [tauto|]. intros [? | ->]; tauto.
    + rewrite !elem_of_app, IH. reflexivity.
Qed.

Lemma first_seen_NoDup (l : list K) : NoDup (first_seen l).
Proof.
  induction l as [|y l IH] using rev_ind.
  - constructor.
  - rewrite first_seen_snoc. destruct (decide (y ∈ first_seen l)) as [Hin|Hnin]; [exact IH|].
    apply NoDup_app. split; [exact IH|]. split.
    + intros x Hx Hx'. apply list_elem_of_singleton in Hx' as ->. contradiction.
    + apply NoDup_singleton.
Qed.

Section Collect.
Context {E : Type}.
Variable key : E -> K.
Variable upd : E -> option V -> V.

Lemma collect_snoc (es : list E) (e : E) :
  collect key upd (es ++ [e]) = upsert (key e) (upd e) (collect key upd es).
Proof. unfold collect. rewrite fold_left_app. reflexivity. Qed.

Lemma collect_keys (es : list E) : map fst (collect key upd es) = first_seen (map key es).
Proof.
  induction es as [|e es IH] using rev_ind.
  - reflexivity.
  - rewrite collect_snoc, upsert_keys, map_app. simpl.
    rewrite first_seen_snoc, IH. reflexivity.
Qed.

Lemma collect_held (es : list E) (k : K) :
  held k (collect key upd es)
  = fold_left (fun slot e => Some (upd e slot))
      (List.filter (fun e => bool_decide (key e = k)) es) None.
Proof.
  induction es as [|e es IH] using rev_ind.
  - reflexivity.
  - rewrite collect_snoc, List.filter_app, fold_left_app. simpl.
    destruct (decide (key e = k)) as [Hk|Hk].
    + rewrite bool_decide_eq_true_2 by exact Hk. simpl. rewrite <- IH, <- Hk.
      apply held_upsert_eq.
    + rewrite bool_decide_eq_false_2 by exact Hk. simpl. rewrite <- IH.
      apply held_upsert_ne. congruence.
Qed.

End Collect.
End KeyedFacts.

(** ** Period aggregator *)

Section AggregatorFacts.
Context {R num : Type}.
Variable date_of : R -> Calendar.JsDate.
Variable measure_of : R -> num.
Variable zero : num.
Variable add : num -> num -> num.
Variable div : num -> num -> num.
Variable of_count : nat -> num.

Lemma aggregated_collect (data : list R) (groupBy : string) :
  aggregated date_of measure_of zero add data groupBy
  = collect (fun r => period_key groupBy (date_of r))
      (fun r slot =>
         let t := default {| demand := zero; count := 0 |} slot in
         {| demand := add (demand t) (measure_of r); count := S (count t) |})
      data.
Proof. reflexivity. Qed.

(** The tally of a key after the records [rs] that have it. *)
Lemma tally_fold (rs : list R) (t : Tally (num := num)) :
  fold_left
    (fun slot r =>
       Some (let t := default {| demand := zero; count := 0 |} slot in
             {| demand := add (demand t) (measure_of r); count := S (count t) |}))
    rs (Some t)
  = Some {| demand := fold_left add (map measure_of rs) (demand t);
            count := count t + length rs |}.
Proof.
  revert t. induction rs as [|r rs IH]; intros t; simpl.
  - destruct t. simpl. rewrite Nat.add_0_r. reflexivity.
  - rewrite IH. simpl. do 2 f_equal. lia.
Qed.

Lemma aggregated_held (data : list R) (groupBy k : string) (t : Tally) :
  In (k, t) (aggregated date_of measure_of zero add data groupBy) ->
  demand t = sum_with add zero (map measure_of (group date_of groupBy k data))
  /\ count t = length (group date_of groupBy k data).
Proof.
  intros Hin.
  assert (Hheld : held k (aggregated date_of measure_of zero add data groupBy) = Some t).
  { apply held_of_member; [|exact Hin].
    rewrite aggregated_collect, collect_keys. apply first_seen_NoDup. }
  rewrite aggregated_collect, collect_held in Hheld.
  fold (group date_of groupBy k data) in Hheld.
  destruct (group date_of groupBy k data) as [|r rs]; simpl in Hheld; [discriminate|].
  rewrite tally_fold in Hheld. injection Hheld as <-. simpl. split; reflexivity.
Qed.

(** One bucket per period key, in the order in which the keys first occur;
    each bucket totals, from left to right, the measures of the records with
    its key, and averages them over their number. *)
Lemma aggregate_groups (data : list R) (groupBy : string) :
  let out := aggregateData_over date_of measure_of zero add div of_count data groupBy in
  map period out = first_seen (map (fun r => period_key groupBy (date_of r)) data)
  /\ Forall
       (fun p =>
          total_demand p
          = sum_with add zero (map measure_of (group date_of groupBy (period p) data))
          /\ average_demand p
             = div (total_demand p) (of_count (length (group date_of groupBy (period p) data))))
       out.
Proof.
  unfold aggregateData_over. split.
  - rewrite map_map.
    rewrite (map_ext _ fst) by (intros [k t]; reflexivity).
    rewrite aggregated_collect. apply collect_keys.
  - apply Forall_forall. intros p Hp. apply list_elem_of_In in Hp.
    apply in_map_iff in Hp as [[k t] [<- Hin]]. simpl.
    destruct (aggregated_held _ _ _ _ Hin) as [-> ->]. split; reflexivity.
Qed.

(** *** Over an addition that is exact *)

Hypothesis add_assoc : forall x y z, add x (add y z) = add (add x y) z.
Hypothesis add_comm : forall x y, add x y = add y x.
Hypothesis add_zero : forall x, add zero x = x.

Lemma fold_add_from (l : list num) (a : num) :
  fold_left add l a = add a (sum_with add zero l).
Proof.
  unfold sum_with. revert a. induction l as [|x l IH]; intros a; simpl.
  - rewrite add_comm, add_zero. reflexivity.
  - rewrite IH, (IH (add zero x)), add_zero, add_assoc. reflexivity.
Qed.

Lemma sum_cons (x : num) (l : list num) :
  sum_with add zero (x :: l) = add x (sum_with add zero l).
Proof. unfold sum_with at 1. simpl. rewrite add_zero. apply fold_add_from. Qed.

Lemma sum_snoc (x : num) (l : list num) :
  sum_with add zero (l ++ [x]) = add (sum_with add zero l) x.
Proof. unfold sum_with. rewrite fold_left_app. reflexivity. Qed.

Lemma accumulate_sum (k : string) (x : num) (acc : list (string * Tally)) :
  sum_with add zero (map (fun e => demand (snd e)) (accumulate zero add k x acc))
  = add (sum_with add zero (map (fun e => demand (snd e)) acc)) x.
Proof.
  unfold accumulate. induction acc as [|[k' t] acc IH]; cbn [upsert map].
  - unfold sum_with. simpl. rewrite !add_zero. reflexivity.
  - destruct (decide (k' = k)) as [->|Hne]; cbn [map snd demand default].
    + rewrite !sum_cons. rewrite <- !add_assoc. f_equal. apply add_comm.
    + rewrite !sum_cons, IH, add_assoc. reflexivity.
Qed.

(** With an associative and commutative addition the bucket totals add up to
    the sum of the measure over the whole input. *)
Lemma aggregate_sum_exact (data : list R) (groupBy : string) :
  sum_with add zero
    (map total_demand (aggregateData_over date_of measure_of zero add div of_count data groupBy))
  = sum_with add zero (map measure_of data).
Proof.
  unfold aggregateData_over. rewrite map_map.
  rewrite (map_ext _ (fun e => demand (snd e))) by (intros [k t]; reflexivity).
  induction data as [|r data IH] using rev_ind.
  - reflexivity.
  - unfold aggregated in *. rewrite fold_left_app. simpl.
    rewrite accumulate_sum, IH, map_app. simpl. rewrite sum_snoc. reflexivity.
Qed.

End AggregatorFacts.

(** The sample of three forecasts, by month: January holds 0.1, February
    0.2 + 0.3 = 0.5; the totals add up to 0.6, the three demands to
    0.6000000000000001. *)
Example three_forecasts_monthly :
  map (fun p => (period p, total_demand p)) (aggregateData three_forecasts "monthly")
  = [("2024-M1", Number.parseFloat "0.1"); ("2024-M2", Number.parseFloat "0.5")]
  /\ sum_numbers (map total_demand (aggregateData three_forecasts "monthly"))
     = Number.parseFloat "0.6"
  /\ sum_numbers (map Forecasted_Demand three_forecasts)
     = Number.parseFloat "0.6000000000000001".
Proof. vm_compute. repeat split; reflexivity. Qed.

(** C2, as stated, fails: for the three sample forecasts grouped by month the
    bucket totals do not add up to the sum of [Forecasted_Demand] over the
    records. *)
Lemma aggregate_totals_differ :
  sum_numbers (map total_demand (aggregateData three_forecasts "monthly"))
  <> sum_numbers (map Forecasted_Demand three_forecasts).
Proof. vm_compute. discriminate. Qed.

(** C2, amended: whatever the records and the granularity, there is one
    bucket per period key, in the order in which the keys first occur, every
    record's key has its bucket, and a bucket's [total_demand] is the
    left-to-right Number sum of [Forecasted_Demand] over exactly the records
    with its key.  The same reduction run over integers, whose addition is
    exact, yields totals that add up to the sum of the measure over all the
    records. *)
Theorem aggregate_regroups (data : list ForecastRow) (groupBy : string) :
  let out := aggregateData data groupBy in
  let key r := period_key groupBy (Date r) in
  NoDup (map period out)
  /\ map period out = first_seen (map key data)
  /\ (forall r, In r data -> In (key r) (map period out))
  /\ Forall
       (fun p =>
          total_demand p
          = sum_numbers (map Forecasted_Demand (group Date groupBy (period p) data)))
       out
  /\ forall measure : ForecastRow -> Z,
       sum_with Z.add 0%Z
         (map total_demand
            (aggregateData_over Date measure 0%Z Z.add Z.div Z.of_nat data groupBy))
       = sum_with Z.add 0%Z (map measure data).
Proof.
  intros out key.
  destruct (aggregate_groups Date Forecasted_Demand Number.zero Number.add Number.div
              Number.of_nat data groupBy) as [Hkeys Htotals].
  fold (aggregateData data groupBy) in Hkeys, Htotals. fold out in Hkeys, Htotals.
  split; [rewrite Hkeys; apply first_seen_NoDup|].
  split; [exact Hkeys|].
  split.
  { intros r Hr. rewrite Hkeys. apply list_elem_of_In, first_seen_elem, list_elem_of_In.
    apply in_map. exact Hr. }
  split.
  { eapply Forall_impl; [exact Htotals|]. intros p [Hp _]. exact Hp. }
  intros measure. apply aggregate_sum_exact.
  - intros x y z. apply Z.add_assoc.
  - intros x y. apply Z.add_comm.
  - intros x. reflexivity.
Qed.

(** ** Filter engine *)

Lemma filter_twice {A} (p q : A -> bool) (l : list A) :
  List.filter q (List.filter p l) = List.filter (fun x => p x && q x) l.
Proof.
  induction l as [|x l IH]; simpl; [reflexivity|].
  destruct (p x); simpl; [destruct (q x)|]; rewrite IH; reflexivity.
Qed.

Lemma filter_all {A} (p : A -> bool) (l : list A) :
  (forall x, p x = true) -> List.filter p l = l.
Proof.
  intros Hp. induction l as [|x l IH]; simpl; [reflexivity|].
  rewrite Hp, IH. reflexivity.
Qed.

(** [filterData] keeps, in their order, the rows that every non-empty
    parameter asks for. *)
Lemma filterData_wanted (forecastData : list ForecastRow) (req : Request) :
  filterData forecastData req
  = List.filter
      (fun d => wanted (query req !! "PRODUCT_CARD_ID") (columns d !! "PRODUCT_CARD_ID")
                && wanted (query req !! "PRODUCT_NAME") (columns d !! "PRODUCT_NAME"))
      forecastData.
Proof.
  unfold filterData, wanted.
  destruct (truthy (query req !! "PRODUCT_CARD_ID")), (truthy (query req !! "PRODUCT_NAME")).
  - apply filter_twice.
  - apply List.filter_ext. intros d. rewrite andb_true_r. reflexivity.
  - reflexivity.
  - symmetry. apply filter_all. reflexivity.
Qed.

(** The sample forecasts hold no row whose product id is empty, and a request
    with an empty [PRODUCT_CARD_ID] gets them all. *)
Example empty_parameter_keeps_all :
  let req := get "/api/forecasts?PRODUCT_CARD_ID=" ["api"; "forecasts"] [("PRODUCT_CARD_ID", "")] in
  length (filterData three_forecasts req) = 3
  /\ filter_present three_forecasts req = [].
Proof. vm_compute. split; reflexivity. Qed.

(** C6, as stated, fails: a [PRODUCT_CARD_ID] parameter that is present and
    empty is not filtered on, so the rows returned are not the rows whose
    field equals the parameter. *)
Lemma filterData_skips_empty_parameter :
  filterData three_forecasts
    (get "/api/forecasts?PRODUCT_CARD_ID=" ["api"; "forecasts"] [("PRODUCT_CARD_ID", "")])
  <> filter_present three_forecasts
       (get "/api/forecasts?PRODUCT_CARD_ID=" ["api"; "forecasts"] [("PRODUCT_CARD_ID", "")]).
Proof. vm_compute. discriminate. Qed.

(** C6, amended: the filter returns, in the order of the dataset, exactly the
    rows whose [PRODUCT_CARD_ID] and [PRODUCT_NAME] equal each parameter that
    is present and not empty; with no such parameter it returns the dataset
    as it is; and filtering on the id, then on the name, is filtering on
    both. *)
Theorem filterData_conjunction (forecastData : list ForecastRow) (req : Request) :
  filterData forecastData req
  = List.filter
      (fun d => wanted (query req !! "PRODUCT_CARD_ID") (columns d !! "PRODUCT_CARD_ID")
                && wanted (query req !! "PRODUCT_NAME") (columns d !! "PRODUCT_NAME"))
      forecastData
  /\ (truthy (query req !! "PRODUCT_CARD_ID") = false ->
      truthy (query req !! "PRODUCT_NAME") = false ->
      filterData forecastData req = forecastData)
  /\ (forall byId byName : Request,
        query byId !! "PRODUCT_CARD_ID" = query req !! "PRODUCT_CARD_ID" ->
        query byId !! "PRODUCT_NAME" = None ->
        query byName !! "PRODUCT_CARD_ID" = None ->
        query byName !! "PRODUCT_NAME" = query req !! "PRODUCT_NAME" ->
        filterData (filterData forecastData byId) byName = filterData forecastData req).
Proof.
  split; [apply filterData_wanted|]. split.
  - intros Hid Hname. unfold filterData. rewrite Hid, Hname. reflexivity.
  - intros byId byName Hid1 Hname1 Hid2 Hname2.
    rewrite !filterData_wanted, filter_twice.
    rewrite Hid1, Hname1, Hid2, Hname2.
    apply List.filter_ext. intros d. unfold wanted at 2 3. simpl.
    rewrite andb_true_r. reflexivity.
Qed.

(** The composition at the sample forecasts: by id [2], then by name. *)
Lemma filterData_conjunction_witness :
  filterData
    (filterData three_forecasts (get "/api/forecasts" ["api"; "forecasts"] [("PRODUCT_CARD_ID", "2")]))
    (get "/api/forecasts" ["api"; "forecasts"] [("PRODUCT_NAME", "Pump B")])
  = filterData three_forecasts
      (get "/api/forecasts" ["api"; "forecasts"] [("PRODUCT_CARD_ID", "2"); ("PRODUCT_NAME", "Pump B")]).
Proof.
  apply (proj2 (proj2 (filterData_conjunction three_forecasts
           (get "/api/forecasts" ["api"; "forecasts"]
              [("PRODUCT_CARD_ID", "2"); ("PRODUCT_NAME", "Pump B")]))));
    vm_compute; reflexivity.
Defined.

(** ** Products *)

Lemma new_Map_collect {V} (entries : list (option string * V)) :
  new_Map entries = collect fst (fun e _ => snd e) entries.
Proof.
  unfold new_Map, collect. generalize (@nil (option string * V)).
  induction entries as [|[k v] entries IH]; intros m; simpl; [reflexivity|].
  apply IH.
Qed.

(** What a key holds after a pass in which every element overwrites it: the
    value set by the last element with that key. *)
Lemma overwrite_fold {E V} (f : E -> V) (es : list E) (init : option V) :
  fold_left (fun _ e => Some (f e)) es init
  = match last es with Some e => Some (f e) | None => init end.
Proof.
  revert init. induction es as [|e es IH] using rev_ind; intros init.
  - reflexivity.
  - rewrite fold_left_app, last_snoc. reflexivity.
Qed.

Lemma filter_map_swap {A B} (f : A -> B) (p : B -> bool) (l : list A) :
  List.filter p (map f l) = map f (List.filter (fun x => p (f x)) l).
Proof.
  induction l as [|x l IH]; simpl; [reflexivity|].
  destruct (p (f x)); simpl; rewrite IH; reflexivity.
Qed.

Lemma last_map {A B} (f : A -> B) (l : list A) : last (map f l) = f <$> last l.
Proof.
  induction l as [|x l IH] using rev_ind; [reflexivity|].
  rewrite map_app. simpl. rewrite !last_snoc. reflexivity.
Qed.

Lemma last_filter_holds {A} (p : A -> bool) (l : list A) (x : A) :
  last (List.filter p l) = Some x -> p x = true.
Proof.
  intros Hlast. apply last_Some in Hlast as [l' Hl'].
  assert (Hin : In x (List.filter p l)).
  { rewrite Hl'. apply in_or_app. right. left. reflexivity. }
  apply filter_In in Hin. tauto.
Qed.

(** Each entry of the map built by [/api/products] pairs an id with the
    product of the last record that has this id. *)
Lemma products_entries (forecastData : list ForecastRow) (k : option string) (p : Product) :
  In (k, p)
    (new_Map (map (fun item => (columns item !! "PRODUCT_CARD_ID", product_of item)) forecastData)) ->
  exists item, last (with_id k forecastData) = Some item
               /\ p = product_of item /\ PRODUCT_CARD_ID p = k.
Proof.
  intros Hin. rewrite new_Map_collect in Hin.
  assert (Hheld : held k (collect fst (fun (e : option string * Product) (_ : option Product) => snd e)
                            (map (fun item => (columns item !! "PRODUCT_CARD_ID", product_of item))
                               forecastData)) = Some p).
  { apply held_of_member; [|exact Hin]. rewrite collect_keys. apply first_seen_NoDup. }
  rewrite collect_held, overwrite_fold, filter_map_swap, last_map in Hheld. simpl in Hheld.
  fold (with_id k forecastData) in Hheld.
  destruct (last (with_id k forecastData)) as [item|] eqn:Hlast; [|discriminate].
  simpl in Hheld. injection Hheld as <-. exists item. split; [reflexivity|]. split; [reflexivity|].
  apply last_filter_holds in Hlast. apply bool_decide_eq_true in Hlast. exact Hlast.
Qed.

(** The sample with a renamed product: the program answers with the later
    name, the first-seen reading with the earlier one. *)
Example renamed_product_pairs :
  products renamed_product
  = [{| PRODUCT_CARD_ID := Some "1"; PRODUCT_NAME := Some "Pump A (new)" |}]
  /\ products_first_seen renamed_product
     = [{| PRODUCT_CARD_ID := Some "1"; PRODUCT_NAME := Some "Pump A" |}].
Proof. vm_compute. split; reflexivity. Qed.

(** C8, as stated, fails: for two records with the same id and different
    names, the pair returned is not the pair of the first-seen record. *)
Lemma products_not_first_seen :
  products renamed_product <> products_first_seen renamed_product.
Proof. vm_compute. discriminate. Qed.

(** C8, amended: [/api/products] returns one pair per distinct
    [PRODUCT_CARD_ID], in the order in which the ids first occur, and the
    pair for an id is that of the last record with this id. *)
Theorem products_last_wins (forecastData : list ForecastRow) :
  map PRODUCT_CARD_ID (products forecastData)
  = first_seen (map (fun item => columns item !! "PRODUCT_CARD_ID") forecastData)
  /\ NoDup (map PRODUCT_CARD_ID (products forecastData))
  /\ Forall
       (fun p => exists item,
            last (with_id (PRODUCT_CARD_ID p) forecastData) = Some item
            /\ p = product_of item)
       (products forecastData).
Proof.
  assert (Hids : map PRODUCT_CARD_ID (products forecastData)
                 = first_seen (map (fun item => columns item !! "PRODUCT_CARD_ID") forecastData)).
  { unfold products. fold product_of.
    change (fun item : ForecastRow =>
              (columns item !! "PRODUCT_CARD_ID",
               {| PRODUCT_CARD_ID := columns item !! "PRODUCT_CARD_ID";
                  PRODUCT_NAME := columns item !! "PRODUCT_NAME" |}))
      with (fun item : ForecastRow => (columns item !! "PRODUCT_CARD_ID", product_of item)).
    rewrite map_map.
    rewrite (map_ext_in _ fst).
    - rewrite new_Map_collect, collect_keys, map_map. reflexivity.
    - intros [k p] Hin. apply products_entries in Hin as (item & _ & _ & Hk). exact Hk. }
  split; [exact Hids|]. split; [rewrite Hids; apply first_seen_NoDup|].
  apply Forall_forall. intros p Hp. apply list_elem_of_In in Hp.
  unfold products in Hp. apply in_map_iff in Hp as [[k p'] [Heq Hin]]. simpl in Heq. subst p'.
  apply (products_entries forecastData k p) in Hin as (item & Hlast & Hp & Hk).
  exists item. rewrite Hk. split; assumption.
Qed.

(** ** Field coercion *)

Example coercion_samples :
  float_or_zero (Some "12.5") = Number.parseFloat "12.5"
  /\ float_or_zero (Some " 7 units") = Number.of_Z 7
  /\ int_or_zero (Some "12.5") = Number.of_Z 12
  /\ int_or_zero (Some "0x1A") = Number.of_Z 26
  /\ float_or_zero None = Number.zero
  /\ int_or_zero (Some "") = Number.zero.
Proof. vm_compute. repeat split; reflexivity. Qed.

Lemma falsy_cases (raw : option string) :
  truthy raw = false <-> raw = None \/ raw = Some "".
Proof.
  destruct raw as [[|c s]|]; simpl; split; intros Hraw; try reflexivity; try discriminate.
  - right. reflexivity.
  - destruct Hraw as [Hraw|Hraw]; discriminate.
  - left. reflexivity.
Qed.

(** A text whose first character can begin no numeral reads as NaN. *)
Lemma no_numeral_is_NaN (c : ascii) (rest : string) :
  begins_no_numeral c = true ->
  Number.parseFloat (String c rest) = Number.NaN
  /\ Number.parseInt (String c rest) = Number.NaN.
Proof.
  destruct c as [[] [] [] [] [] [] [] []]; intros Hc;
    try (vm_compute in Hc; discriminate Hc); split; reflexivity.
Qed.

(** C5, as stated, fails: a value that is not a number, such as [n/a], is
    coerced to NaN, not to the default 0. *)
Lemma coercion_of_text_is_NaN :
  float_or_zero (Some "n/a") = Number.NaN
  /\ int_or_zero (Some "n/a") = Number.NaN
  /\ float_or_zero (Some "n/a") <> Number.zero.
Proof. vm_compute. repeat split; try reflexivity. discriminate. Qed.

(** White space before a numeral is skipped, the no-break space U+00A0
    included: such a cell reads as its number. *)
Example coercion_skips_white_space :
  float_or_zero (Some (String (ascii_of_N 160) "12")) = Number.of_Z 12
  /\ int_or_zero (Some (String (ascii_of_N 160) " 12")) = Number.of_Z 12
  /\ begins_no_numeral (ascii_of_N 160) = false.
Proof. vm_compute. repeat split; reflexivity. Qed.

(** C5, amended: the coercion never fails (it is a total function); it yields
    0 when the raw value is absent or empty; for any other raw value it is
    [parseFloat] (or [parseInt]) of that value, which is NaN when the value
    begins with an ASCII character from which no numeral can start (one that
    is no white space, sign, point or digit, and not the [I] of
    [Infinity]). *)
Theorem coercion_default (raw : option string) :
  (raw = None \/ raw = Some "" ->
   float_or_zero raw = Number.zero /\ int_or_zero raw = Number.zero)
  /\ (forall s, raw = Some s -> s <> "" ->
      float_or_zero raw = Number.parseFloat s /\ int_or_zero raw = Number.parseInt s)
  /\ (forall c rest, raw = Some (String c rest) -> begins_no_numeral c = true ->
      float_or_zero raw = Number.NaN /\ int_or_zero raw = Number.NaN).
Proof.
  split; [|split].
  - intros [-> | ->]; split; reflexivity.
  - intros s -> Hs. destruct s as [|c s]; [contradiction|]. split; reflexivity.
  - intros c rest -> Hc. apply (no_numeral_is_NaN c rest Hc).
Qed.

(** The three cases at an empty value, at [42] and at [n/a]. *)
Lemma coercion_default_witness :
  (float_or_zero (Some "") = Number.zero /\ int_or_zero (Some "") = Number.zero)
  /\ (float_or_zero (Some "42") = Number.parseFloat "42"
      /\ int_or_zero (Some "42") = Number.parseInt "42")
  /\ (float_or_zero (Some "n/a") = Number.NaN /\ int_or_zero (Some "n/a") = Number.NaN).
Proof.
  split; [|split].
  - apply (proj1 (coercion_default (Some ""))). right. reflexivity.
  - apply (proj1 (proj2 (coercion_default (Some "42"))) "42"); [reflexivity | discriminate].
  - apply (proj2 (proj2 (coercion_default (Some "n/a"))) "n"%char "/a"); reflexivity.
Defined.

(** ** KPI calculators on empty datasets *)

(** The sales calculator tests [salesData.length] first. *)
Lemma sales_kpis_empty : sales_kpis [] = Normal (error_json 200 "Sales data not found").
Proof. reflexivity. Qed.

(** The production calculator and the supplier calculators answer an empty
    dataset with zeros and with 404. *)
Lemma production_kpis_empty :
  production_kpis [] []
  = Normal (json 200 (JObj [("total_operators", JNum Number.zero);
                            ("absent_today", JNum Number.zero);
                            ("total_units_scheduled", JNum Number.zero);
                            ("unique_products", JNum Number.zero)])).
Proof. reflexivity. Qed.

Lemma supplier_endpoint_empty (endpoint supplier : string) :
  supplier_endpoint [] endpoint supplier = Normal (error_json 404 (supplier ++ " not found")).
Proof. reflexivity. Qed.

(** C3, at the failing input.  With every dataset empty the inventory
    calculator, which has no test of [stockData.length], divides the lead-time
    sum 0 by the length 0: the average is NaN, and the snapshot sent carries
    [avg_lead_time: null]. *)
Theorem inventory_kpis_empty_divides_by_zero (alertData scheduleData : list Row) :
  Number.div (sum_column float_or_zero "Lead_Time_Days" []) (Number.of_nat (length (@nil Row)))
  = Number.NaN
  /\ avg_lead_time (inventory_snapshot [] alertData scheduleData) = Number.NaN
  /\ inventory_kpis [] [] []
     = Normal (json 200 (JObj [("total_skus", JNum Number.zero);
                               ("total_stock_on_hand", JNum Number.zero);
                               ("in_transit", JNum Number.zero);
                               ("below_reorder_point", JNum Number.zero);
                               ("avg_lead_time", JNull);
                               ("scheduled_qty", JNum Number.zero)])).
Proof. split; [|split]; vm_compute; reflexivity. Qed.

(** ** Exceptions and the request boundary *)

(** The handlers whose body stands in [try]/[catch] always send a
    response. *)
Lemma wrapped_handlers_respond (store : Store) :
  (exists r, sales_kpis (salesData store) = Normal r)
  /\ (exists r, inventory_kpis (stockData store) (alertData store) (scheduleData store) = Normal r)
  /\ (exists r, production_kpis (attendanceData store) (stationScheduleData store) = Normal r).
Proof.
  split; [|split].
  - unfold sales_kpis. destruct (Nat.eqb _ _); eexists; reflexivity.
  - eexists. reflexivity.
  - eexists. reflexivity.
Qed.

(** The three supplier handlers have no [try]/[catch]: a first supplier row
    without [Supplier_Name] makes each of them throw. *)
Lemma unwrapped_handlers_throw
  (item : Row) (rest others : list Row) (endpoint name : string) :
  item !! "Supplier_Name" = None ->
  let e := TypeError "Cannot read properties of undefined (reading 'toLowerCase')" in
  supplier_endpoint (item :: rest) endpoint name = Throw e
  /\ alternates_handler (item :: rest) others name = Throw e
  /\ insight_handler (item :: rest) others name = Throw e.
Proof.
  intros Hnone e.
  assert (Hthrow : supplier_named name item = Throw e).
  { unfold supplier_named, toLowerCase. rewrite Hnone. reflexivity. }
  unfold supplier_endpoint, alternates_handler, insight_handler.
  cbn [filterM findM]. rewrite Hthrow. repeat split; reflexivity.
Qed.

(** C4, at the failing input.  [GET /api/suppliers/kpis/acme] when a row of
    the Suppliers dataset lacks its [Supplier_Name] column: the handler, which
    has no [try]/[catch], throws a TypeError; the client gets the page of
    Express's built-in error handler with status 500, not a JSON error
    payload.  The same happens when the supplier is found and lacks its
    [Fulfillment_Rate]. *)
Theorem supplier_endpoint_throws :
  supplier_endpoint [nameless] "kpis" "acme"
  = Throw (TypeError "Cannot read properties of undefined (reading 'toLowerCase')")
  /\ (forall Date_parse,
        respond Date_parse (with_suppliers [nameless])
          (get "/api/suppliers/kpis/acme" ["api"; "suppliers"; "kpis"; "acme"] [])
        = Sent {| status := 500;
                  body := ErrorPage (TypeError "Cannot read properties of undefined (reading 'toLowerCase')") |})
  /\ supplier_endpoint [row [("Supplier_Name", "Acme")]] "kpis" "acme"
     = Throw (TypeError "Cannot read properties of undefined (reading 'replace')").
Proof. split; [|split]; [|intros Date_parse|]; vm_compute; reflexivity. Qed.

(** ** The alternates resolver *)

(** On a Suppliers dataset all of whose rows carry [Supplier_Name], the
    search by name does not throw and finds the first row with that name,
    whatever the case of the letters. *)
Lemma supplier_named_of (name n : string) (item : Row) :
  item !! "Supplier_Name" = Some n ->
  supplier_named name item = Normal (names_supplier name item).
Proof. intros Hn. unfold supplier_named, names_supplier, toLowerCase. rewrite Hn. reflexivity. Qed.

Lemma find_supplier (suppliersData : list Row) (name : string) :
  Forall (fun item : Row => is_Some (item !! "Supplier_Name")) suppliersData ->
  findM (supplier_named name) suppliersData
  = Normal (List.find (names_supplier name) suppliersData).
Proof.
  induction 1 as [|item rest [n Hn] _ IH]; cbn [findM List.find]; [reflexivity|].
  rewrite (supplier_named_of name n item Hn). cbn [mbind Completion_bind].
  destruct (names_supplier name item); [reflexivity | exact IH].
Qed.

Lemma alternates_filtered (mainSupplier : Row) (alternateSuppliersData : list Row) :
  alternates_of mainSupplier alternateSuppliersData
  = map alternate_of (List.filter (alternate_wanted mainSupplier) alternateSuppliersData).
Proof.
  unfold alternates_of, alternate_wanted.
  rewrite filter_map_swap, filter_twice. f_equal.
  apply List.filter_ext. intros item. simpl. rewrite andb_assoc. reflexivity.
Qed.

(** The name is matched whatever its case, the SKU exactly, and rows that
    lack the SKU or the supplier name are dropped. *)
Example alternates_of_acme :
  alternates_handler [acme] some_alternates "ACME"
  = Normal (json 200 (JArr [JObj [("sku_id", JStr "S1"); ("supplier_name", JStr "Beta")]]))
  /\ alternates_handler [acme] some_alternates "Apex"
     = Normal (error_json 404 "Apex not found").
Proof. vm_compute. split; reflexivity. Qed.

Lemma ascii_cells_present (column : string) (data : list Row) :
  Forall (fun item : Row => ascii_cell column item = true) data ->
  Forall (fun item : Row => is_Some (item !! column)) data.
Proof.
  intros Hcells. eapply Forall_impl; [exact Hcells|].
  intros item Hcell. unfold ascii_cell in Hcell.
  destruct (item !! column) as [text|]; [eexists; reflexivity | discriminate Hcell].
Qed.

(** What the handler written for [/api/suppliers/alternates/:supplier] does
    when it is called: on a Suppliers dataset whose rows all carry
    [Supplier_Name], names being ASCII, it looks the name up whatever the
    case of its letters; when no supplier has it, it answers 404 with
    [{error: "<name> not found"}]; otherwise it answers with the rows of the
    Alternate Suppliers dataset, in their order, whose [sku_id] is exactly
    the SKU of the first supplier found and that lack neither [sku_id] nor
    [supplier_name]. *)
Lemma alternates_resolver (suppliersData alternateSuppliersData : list Row) (supplier : string) :
  Forall (fun item : Row => ascii_cell "Supplier_Name" item = true) suppliersData ->
  JsString.is_ascii supplier = true ->
  alternates_handler suppliersData alternateSuppliersData supplier
  = Normal
      match List.find (names_supplier supplier) suppliersData with
      | None => error_json 404 (supplier ++ " not found")
      | Some mainSupplier =>
          json 200
            (JArr (map alternate_json
                     (map alternate_of
                        (List.filter (alternate_wanted mainSupplier) alternateSuppliersData))))
      end.
Proof.
  intros Hnamed _. unfold alternates_handler.
  rewrite (find_supplier _ _ (ascii_cells_present _ _ Hnamed)). simpl.
  destruct (List.find _ _) as [mainSupplier|]; [|reflexivity].
  rewrite alternates_filtered. reflexivity.
Qed.

(** The handler at a dataset of one supplier, asked for it in mixed case. *)
Lemma alternates_resolver_witness :
  alternates_handler [acme] some_alternates "aCmE"
  = Normal (json 200 (JArr [JObj [("sku_id", JStr "S1"); ("supplier_name", JStr "Beta")]])).
Proof.
  rewrite (alternates_resolver [acme] some_alternates "aCmE").
  - vm_compute. reflexivity.
  - repeat constructor.
  - reflexivity.
Defined.

(** C7, at the failing input.  The route of the alternates resolver is
    registered after [/api/suppliers/:endpoint/:supplier], which matches
    every path of three segments under [/api/suppliers] (the literal routes
    of the sales and of the inventory are registered before their
    parameter route).  [GET /api/suppliers/alternates/Acme], with the
    supplier Acme and an alternate for its SKU loaded, is dispatched to that
    earlier handler and answered 400, unknown endpoint; the handler of the
    alternates, which would have sent the alternate, is not run. *)
Theorem alternates_never_served :
  Router.dispatch (get "/api/suppliers/alternates/Acme" ["api"; "suppliers"; "alternates"; "Acme"] [])
  = Some (Router.suppliers_endpoint, [("endpoint", "alternates"); ("supplier", "Acme")])
  /\ respond iso_date_parse (with_suppliers [acme])
       (get "/api/suppliers/alternates/Acme" ["api"; "suppliers"; "alternates"; "Acme"] [])
     = Sent (error_json 400 "Unknown supplier endpoint 'alternates'")
  /\ answer (alternates_handler (suppliersData (with_suppliers [acme]))
               (alternateSuppliersData (with_suppliers [acme])) "Acme")
     = Sent (json 200 (JArr [JObj [("sku_id", JStr "S1"); ("supplier_name", JStr "Beta")]])).
Proof. vm_compute. repeat split; reflexivity. Qed.

(** ** The two registrations of [/api/insights] *)

(** A path that matches [/api/insights] (whatever the case of its letters)
    is matched by the fifth registration, that of the monthly bullet
    insights: none of the four routes before it matches, and the
    registration of the operator insights comes eighteen routes later. *)
Lemma insights_dispatch (req : Request) :
  Router.match_path (Router.api [Router.Lit "insights"]) (path req) = Some [] ->
  Router.dispatch req = Some (Router.insights_bullets, []).
Proof.
  unfold Router.dispatch.
  destruct (path req) as [|a [|b [|c rest]]]; cbn [Router.match_path Router.api];
    intros Hmatch; try discriminate Hmatch.
  - destruct (String.eqb _ _); discriminate Hmatch.
  - destruct (String.eqb _ (JsString.toLowerCase a)) eqn:Ha; [|discriminate Hmatch].
    destruct (String.eqb _ (JsString.toLowerCase b)) eqn:Hb; [|discriminate Hmatch].
    apply String.eqb_eq in Ha, Hb.
    unfold Router.routing_table, Router.api.
    cbn [Router.first_match Router.match_path]. rewrite <- Ha, <- Hb. reflexivity.
  - destruct (String.eqb _ (JsString.toLowerCase a)); [|discriminate Hmatch].
    destruct (String.eqb _ (JsString.toLowerCase b)); discriminate Hmatch.
Qed.

(** With one bullet insight and one operator insight loaded, the answer to
    [GET /api/insights] is the list of bullet insights; the handler
    registered later would have sent [{insights: [...]}]. *)
Example insights_sample (Date_parse : string -> option Z) :
  respond Date_parse sample_disk (get "/api/insights" ["api"; "insights"] [])
  = Sent (json 200 (JArr [JRow (row [("Month", "2024-01"); ("PRODUCT_CARD_ID", "1");
                                     ("Insight", "Demand is flat")])]))
  /\ operator_insights_handler (operatorInsightsData sample_disk)
     = Normal (json 200 (JObj [("insights",
                 JArr [JRow (row [("operator_id", "O1");
                                  ("ai_insight", "Often absent on Mondays")])])])).
Proof. vm_compute. split; reflexivity. Qed.

(** C9, as stated, fails: the response to [GET /api/insights] is not the one
    of the handler registered later. *)
Lemma insights_not_later_handler :
  respond iso_date_parse sample_disk (get "/api/insights" ["api"; "insights"] [])
  <> answer (operator_insights_handler (operatorInsightsData sample_disk)).
Proof. vm_compute. discriminate. Qed.

(** C9, amended: of the two handlers registered for [/api/insights], only the
    one registered first is reachable: every [GET] whose path matches
    [/api/insights] is answered by the monthly bullet-insights handler, with
    the insights that pass the request's filters. *)
Theorem insights_first_registered
  (Date_parse : string -> option Z) (store : Store) (req : Request) :
  Router.match_path (Router.api [Router.Lit "insights"]) (path req) = Some [] ->
  Router.dispatch req = Some (Router.insights_bullets, [])
  /\ respond Date_parse store req = answer (bullet_insights_handler (insightsData store) req)
  /\ respond Date_parse store req
     = Sent (json 200 (JArr (map JRow (filterInsightsData (insightsData store) req)))).
Proof.
  intros Hpath. split; [apply insights_dispatch, Hpath|].
  unfold respond. rewrite (insights_dispatch req Hpath). split; reflexivity.
Qed.

(** A request for the insights of a month that has none. *)
Lemma insights_first_registered_witness :
  respond iso_date_parse sample_disk
    (get "/api/insights?Month=2024-02" ["api"; "insights"] [("Month", "2024-02")])
  = Sent (json 200 (JArr [])).
Proof.
  rewrite (proj2 (proj2 (insights_first_registered iso_date_parse sample_disk
             (get "/api/insights?Month=2024-02" ["api"; "insights"] [("Month", "2024-02")])
             eq_refl))).
  vm_compute. reflexivity.
Defined.

(** ** Attendance *)

Section SortFacts.
Context {A : Type}.
Variable cmp : A -> A -> option Z.

Lemma sort_insert_perm (x : A) (sorted : list A) :
  Permutation (sort_insert cmp x sorted) (x :: sorted).
Proof.
  induction sorted as [|y rest IH]; simpl; [reflexivity|].
  destruct (0 <? default 0 (cmp x y))%Z; [|reflexivity].
  rewrite IH. apply perm_swap.
Qed.

Lemma array_sort_perm (l : list A) : Permutation (array_sort cmp l) l.
Proof.
  induction l as [|x l IH]; simpl; [reflexivity|].
  rewrite sort_insert_perm, IH. reflexivity.
Qed.

End SortFacts.

Section AttendanceFacts.
Variable Date_parse : string -> option Z.

Lemma no_later_trans (a b c : AttendanceEntry) :
  no_later Date_parse a b -> no_later Date_parse b c -> no_later Date_parse a c.
Proof.
  unfold no_later.
  destruct (time_value Date_parse (date a)), (time_value Date_parse (date b)),
    (time_value Date_parse (date c)); try tauto. lia.
Qed.

Lemma insert_by_date_sorted (x : AttendanceEntry) (sorted : list AttendanceEntry) :
  dated Date_parse x ->
  Forall (dated Date_parse) sorted ->
  StronglySorted (no_later Date_parse) sorted ->
  StronglySorted (no_later Date_parse) (sort_insert (by_date Date_parse) x sorted).
Proof.
  intros [tx Hx] Hdated Hsorted.
  induction Hsorted as [|y rest Hrest IH Hy]; simpl.
  - repeat constructor.
  - apply Forall_cons in Hdated as [[ty Hty] Hdated].
    unfold by_date at 1. rewrite Hx, Hty. simpl.
    destruct (0 <? tx - ty)%Z eqn:Hcmp.
    + apply Z.ltb_lt in Hcmp. constructor; [apply IH, Hdated|].
      rewrite sort_insert_perm. constructor; [|exact Hy].
      unfold no_later. rewrite Hx, Hty. lia.
    + apply Z.ltb_ge in Hcmp.
      assert (Hxy : no_later Date_parse x y) by (unfold no_later; rewrite Hx, Hty; lia).
      constructor; [constructor; assumption|].
      constructor; [exact Hxy|].
      eapply Forall_impl; [exact Hy|]. intros z Hz. exact (no_later_trans x y z Hxy Hz).
Qed.

Lemma sort_by_date_sorted (l : list AttendanceEntry) :
  Forall (dated Date_parse) l ->
  StronglySorted (no_later Date_parse) (array_sort (by_date Date_parse) l).
Proof.
  induction 1 as [|x l Hx Hl IH]; simpl; [constructor|].
  apply insert_by_date_sorted; [exact Hx| |exact IH].
  rewrite array_sort_perm. exact Hl.
Qed.

(** C10: [/api/attendance] and [/api/attendance/table] send the same
    response: the entries made of the attendance rows (fields renamed, [shift]
    being [Day] when the row has no [Shift]), rearranged by the same sort;
    when every row's [Date] parses, the entries stand in ascending order of
    date. *)
Theorem attendance_routes_agree (attendanceData : list Row) :
  attendance_handler Date_parse attendanceData
  = attendance_table_handler Date_parse attendanceData
  /\ exists entries,
       attendance_handler Date_parse attendanceData
       = Normal (json 200 (JArr (map attendance_json entries)))
       /\ Permutation entries (map attendance_entry attendanceData)
       /\ (Forall (fun item : Row => is_Some (time_value Date_parse (item !! "Date")))
             attendanceData ->
           StronglySorted (no_later Date_parse) entries).
Proof.
  split; [reflexivity|].
  exists (array_sort (by_date Date_parse) (map attendance_entry attendanceData)).
  split; [reflexivity|]. split; [apply array_sort_perm|].
  intros Hdates. apply sort_by_date_sorted.
  apply Forall_forall. intros e He. apply list_elem_of_In, in_map_iff in He as [item [<- Hitem]].
  rewrite Forall_forall in Hdates. apply Hdates, list_elem_of_In, Hitem.
Qed.

End AttendanceFacts.

(** Three attendance rows, the second with a shift, the third with an empty
    one: both routes list them by date, with [Day] where the shift lacks. *)
Example attendance_sample :
  attendance_handler iso_date_parse some_attendance
  = Normal (json 200 (JArr [
      JObj [("date", JStr "2018-01-01"); ("operator_id", JStr "O2");
            ("present", JStr "No"); ("shift", JStr "Night")];
      JObj [("date", JStr "2018-01-02"); ("operator_id", JStr "O1");
            ("present", JStr "Yes"); ("shift", JStr "Day")];
      JObj [("date", JStr "2018-01-03"); ("operator_id", JStr "O1");
            ("present", JStr "Yes"); ("shift", JStr "Day")]])).
Proof. vm_compute. reflexivity. Qed.

(** The two routes at the sample rows, with the ISO date parser. *)
Lemma attendance_routes_agree_witness :
  attendance_handler iso_date_parse some_attendance
  = attendance_table_handler iso_date_parse some_attendance
  /\ exists entries,
       attendance_handler iso_date_parse some_attendance
       = Normal (json 200 (JArr (map attendance_json entries)))
       /\ StronglySorted (no_later iso_date_parse) entries.
Proof.
  destruct (attendance_routes_agree iso_date_parse some_attendance)
    as [Hsame [entries [Hsent [_ Hsorted]]]].
  split; [exact Hsame|]. exists entries. split; [exact Hsent|].
  apply Hsorted. repeat constructor; vm_compute; eexists; reflexivity.
Defined.

(** ** Start-up *)

Section StartupFacts.
Variable Date_parse : string -> option Z.
Variable disk : Store.

(** Before any load has ended the datasets are the empty arrays of their
    declarations. *)
Lemma globals_initially : Startup.globals disk [] = empty_store.
Proof. reflexivity. Qed.

(** Once every load has ended the datasets are what the files hold. *)
Lemma globals_finally : Startup.globals disk Startup.all_datasets = disk.
Proof. destruct disk. reflexivity. Qed.

(** A load that fails ends the process with status 1. *)
Lemma load_failure_exits (done : list Startup.Dataset) (d : Startup.Dataset) :
  d ∉ done ->
  Startup.step Date_parse disk (Startup.Serving done) (Startup.LoadError d)
  = Some (Startup.Exited 1, None).
Proof. intros Hd. simpl. rewrite bool_decide_eq_false_2 by exact Hd. reflexivity. Qed.

(** After exit nothing is served. *)
Lemma exited_serves_nothing (code : Z) (ev : Startup.Event) :
  Startup.step Date_parse disk (Startup.Exited code) ev = None.
Proof. destruct ev; reflexivity. Qed.

(** A request that arrives once the server listens is answered at once, from
    the datasets as they are, whichever loads are still running. *)
Lemma request_answered_while_loading (done : list Startup.Dataset) (req : Request) :
  Startup.run Date_parse disk Startup.Booting [Startup.Listen; Startup.Get req]
  = Some (Startup.Serving [], [respond Date_parse empty_store req])
  /\ Startup.step Date_parse disk (Startup.Serving done) (Startup.Get req)
     = Some (Startup.Serving done, Some (respond Date_parse (Startup.globals disk done) req)).
Proof. split; reflexivity. Qed.

End StartupFacts.

(** C1, at the failing input.  The files hold three forecasts.  The server
    listens, a [GET /api/products] arrives before the forecast load has ended,
    the loads end, and the same request arrives again: the first request is
    accepted and answered from the empty array ([[]]), the second from the
    loaded dataset. *)
Theorem request_served_before_loads :
  Startup.run iso_date_parse sample_disk Startup.Booting
    ([Startup.Listen; Startup.Get (get "/api/products" ["api"; "products"] [])]
     ++ map Startup.LoadEnd Startup.all_datasets
     ++ [Startup.Get (get "/api/products" ["api"; "products"] [])])
  = Some (Startup.Serving (rev Startup.all_datasets),
          [Sent (json 200 (JArr []));
           Sent (json 200 (JArr [
             JObj [("PRODUCT_CARD_ID", JStr "1"); ("PRODUCT_NAME", JStr "Pump A")];
             JObj [("PRODUCT_CARD_ID", JStr "2"); ("PRODUCT_NAME", JStr "Pump B")]]))]).
Proof. vm_compute. reflexivity. Qed.

(** ** The examples of the specification *)

(** Two sales of 100 and 50 with discount rates 0.1 and 0.2, one of them at
    risk of late delivery: 2 orders, 150 in sales, 15 percent average
    discount, 1 late delivery. *)
Example sales_kpis_sample :
  sales_kpis [
    row [("Order Item Id", "1"); ("Sales", "100"); ("Order Item Discount Rate", "0.1");
         ("Late_delivery_risk", "1")];
    row [("Order Item Id", "2"); ("Sales", "50"); ("Order Item Discount Rate", "0.2");
         ("Late_delivery_risk", "0")]]
  = Normal (json 200 (JObj [("total_orders", JNum (Number.of_Z 2));
                            ("total_sales", JNum (Number.of_Z 150));
                            ("avg_discount", JNum (Number.of_Z 15));
                            ("late_deliveries", JNum (Number.of_Z 1))])).
Proof. vm_compute. reflexivity. Qed.

(** Two records of the same month make one bucket, whose average is the sum
    over 2. *)
Example same_month_one_bucket :
  aggregateData
    [forecast_row "1" "Pump A" "10" (Calendar.mkDate 2024 7 1);
     forecast_row "1" "Pump A" "15" (Calendar.mkDate 2024 7 31)]
    "monthly"
  = [{| period := "2024-M7";
        total_demand := Number.of_Z 25;
        average_demand := Number.parseFloat "12.5" |}].
Proof. vm_compute. reflexivity. Qed.

(** Period keys of one day by week, month and quarter; of the Invalid Date;
    and the week of the last days of a year, which date-fns counts as week 1
    of the next year while the key keeps the calendar year. *)
Example period_key_samples :
  period_key "weekly" (Calendar.mkDate 2024 3 31) = "2024-W14"
  /\ period_key "monthly" (Calendar.mkDate 2024 3 31) = "2024-M3"
  /\ period_key "quarterly" (Calendar.mkDate 2024 3 31) = "2024-Q1"
  /\ period_key "monthly" Calendar.InvalidDate = "NaN-MNaN"
  /\ period_key "weekly" (Calendar.mkDate 2024 12 30) = "2024-W1"
  /\ period_key "weekly" (Calendar.mkDate 2024 1 2) = "2024-W1".
Proof. vm_compute. repeat split; reflexivity. Qed.

(** Binary64 at work: 0.1 + 0.2 is not 0.3, and [Math.round] sends a tie
    upwards. *)
Example number_samples :
  Number.add (Number.parseFloat "0.1") (Number.parseFloat "0.2")
  = Number.parseFloat "0.30000000000000004"
  /\ Number.add (Number.parseFloat "0.1") (Number.parseFloat "0.2") <> Number.parseFloat "0.3"
  /\ Number.round (Number.parseFloat "2.5") = Number.of_Z 3
  /\ Number.round (Number.parseFloat "-2.5") = Number.of_Z (-2)
  /\ Number.div Number.zero Number.zero = Number.NaN.
Proof. vm_compute. repeat split; try reflexivity. discriminate. Qed.

(** * Properties of the other routes *)

(** ** Sums of integers in binary64 are exact below 2^53 *)

Section ExactIntegers.
Local Open Scope Z_scope.

Lemma iter_pos_nat {A} (f : A -> A) (p : positive) (x : A) :
  SpecFloat.iter_pos f p x = Nat.iter (Pos.to_nat p) f x.
Proof.
  revert x. induction p as [p IH|p IH|]; intros x; cbn [SpecFloat.iter_pos].
  - rewrite !IH, Pos2Nat.inj_xI.
    replace (S (2 * Pos.to_nat p)) with (Pos.to_nat p + S (Pos.to_nat p))%nat by lia.
    rewrite Nat.iter_add, Nat.iter_succ_r. reflexivity.
  - rewrite !IH, Pos2Nat.inj_xO.
    replace (2 * Pos.to_nat p)%nat with (Pos.to_nat p + Pos.to_nat p)%nat by lia.
    rewrite Nat.iter_add. reflexivity.
  - reflexivity.
Qed.

Lemma Pos_iter_shifted (c d : positive) : Pos.iter xO c d = shifted (Pos.to_nat d) c.
Proof. unfold shifted. rewrite Pos2Nat.inj_iter. induction (Pos.to_nat d); simpl; congruence. Qed.

Lemma shifted_add (n m : nat) (c : positive) : shifted n (shifted m c) = shifted (n + m) c.
Proof. unfold shifted. rewrite Nat.iter_add. reflexivity. Qed.

Lemma shifted_plus (n : nat) (a b : positive) :
  (shifted n a + shifted n b)%positive = shifted n (a + b).
Proof. induction n as [|n IH]; simpl; [reflexivity|]. rewrite <- IH. reflexivity. Qed.

Lemma digits_shifted (n : nat) (c : positive) :
  Z.pos (digits2_pos (shifted n c)) = Z.pos (digits2_pos c) + Z.of_nat n.
Proof.
  induction n as [|n IH]; [simpl; lia|].
  change (shifted (S n) c) with (xO (shifted n c)). cbn [digits2_pos].
  rewrite Pos2Z.inj_succ, IH, Nat2Z.inj_succ. unfold Z.succ. ring.
Qed.

Lemma shr_shifted (n m : nat) (c : positive) :
  Nat.iter n shr_1 {| shr_m := Z.pos (shifted (n + m) c); shr_r := false; shr_s := false |}
  = {| shr_m := Z.pos (shifted m c); shr_r := false; shr_s := false |}.
Proof.
  induction n as [|n IH]; [reflexivity|].
  rewrite Nat.iter_succ_r. simpl. exact IH.
Qed.

Lemma digits_size (p : positive) : digits2_pos p = Pos.size p.
Proof. induction p; simpl; congruence. Qed.

Lemma digits_bound (p : positive) : Z.pos p < 2 ^ 53 -> Z.pos (digits2_pos p) <= 53.
Proof.
  intros Hp. rewrite digits_size.
  pose proof (Pos.size_le p) as Hsize. apply Pos2Z.pos_le_pos in Hsize.
  rewrite Pos2Z.inj_pow, (Pos2Z.inj_xO p) in Hsize.
  assert (Hlt : 2 ^ Z.pos (Pos.size p) < 2 ^ 54).
  { change (2 ^ 54) with (2 * 2 ^ 53).
    generalize dependent (2 ^ Z.pos (Pos.size p)). generalize dependent (2 ^ 53). intros; lia. }
  clear Hp Hsize. apply (Z.pow_lt_mono_r_iff 2) in Hlt; [|lia|]; lia.
Qed.

Lemma digits_mono (p q : positive) :
  Z.pos p <= Z.pos q -> Z.pos (digits2_pos p) <= Z.pos (digits2_pos q).
Proof.
  intros Hpq. rewrite (digits_size p), (digits_size q).
  pose proof (Pos.size_le p) as Hp. pose proof (Pos.size_gt q) as Hq.
  apply Pos2Z.pos_le_pos in Hp. apply Pos2Z.pos_lt_pos in Hq.
  rewrite Pos2Z.inj_pow in Hp, Hq. rewrite (Pos2Z.inj_xO p) in Hp.
  assert (Hlt : 2 ^ Z.pos (Pos.size p) < 2 ^ (Z.pos (Pos.size q) + 1)).
  { rewrite Z.pow_add_r by lia. change (2 ^ 1) with 2.
    generalize dependent (2 ^ Z.pos (Pos.size p)). generalize dependent (2 ^ Z.pos (Pos.size q)).
    intros; lia. }
  clear Hp Hq Hpq. apply (Z.pow_lt_mono_r_iff 2) in Hlt; lia.
Qed.

(** Rounding a mantissa that is [c] followed by zeros, with at least 53
    digits, to the exponent it needs yields [c] exactly. *)
Lemma round_aux_exact (c : positive) (j : nat) (e : Z) :
  Z.pos (digits2_pos c) <= 53 ->
  e = - Z.of_nat j ->
  53 - Z.pos (digits2_pos c) <= Z.of_nat j ->
  Z.of_nat j <= 1000 ->
  binary_round_aux Number.prec Number.emax false (Z.pos (shifted j c)) e loc_Exact
  = canonical c.
Proof.
  intros Hc He Hj Hsmall. unfold binary_round_aux, canonical.
  set (d := Z.pos (digits2_pos c)) in *.
  set (k := Z.to_nat (53 - d)).
  assert (Hjk : j = (Z.to_nat (d - 53 - e) + k)%nat) by lia.
  assert (Hfexp1 : fexp Number.prec Number.emax (Zdigits2 (Z.pos (shifted j c)) + e) - e = d - 53 - e).
  { unfold fexp, emin, Number.prec, Number.emax. simpl Zdigits2. rewrite digits_shifted. fold d. lia. }
  unfold shr_fexp at 1. rewrite Hfexp1. simpl shr_record_of_loc.
  assert (Hshr : shr {| shr_m := Z.pos (shifted j c); shr_r := false; shr_s := false |} e (d - 53 - e)
                 = ({| shr_m := Z.pos (shifted k c); shr_r := false; shr_s := false |}, d - 53)).
  { unfold shr. destruct (d - 53 - e) as [|q|q] eqn:Hn.
    - f_equal; [|lia]. rewrite Hjk. reflexivity.
    - rewrite iter_pos_nat. f_equal; [|lia]. rewrite Hjk.
      replace (Z.to_nat (Z.pos q)) with (Pos.to_nat q) by lia. apply shr_shifted.
    - lia. }
  rewrite Hshr. cbn [shr_m loc_of_shr_record round_nearest_even].
  assert (Hfexp2 : fexp Number.prec Number.emax (Zdigits2 (Z.pos (shifted k c)) + (d - 53)) - (d - 53) = 0).
  { unfold fexp, emin, Number.prec, Number.emax. simpl Zdigits2. rewrite digits_shifted. fold d. lia. }
  unfold shr_fexp. rewrite Hfexp2. cbn [shr shr_record_of_loc shr_m].
  replace (d - 53 <=? Number.emax - Number.prec) with true
    by (symmetry; apply Z.leb_le; unfold Number.emax, Number.prec; lia).
  reflexivity.
Qed.

Lemma of_Z_canonical (c : positive) :
  Z.pos c < 2 ^ 53 -> Number.of_Z (Z.pos c) = canonical c.
Proof.
  intros Hc. apply digits_bound in Hc.
  unfold Number.of_Z, binary_normalize, binary_round.
  set (d := Z.pos (digits2_pos c)) in *.
  assert (Hfexp : fexp Number.prec Number.emax (d + 0) = d - 53).
  { unfold fexp, emin, Number.prec, Number.emax. lia. }
  rewrite Hfexp. unfold shl_align.
  destruct (d - 53 - 0) as [|q|q] eqn:Hn.
  - apply (round_aux_exact c 0); fold d; lia.
  - lia.
  - rewrite Pos_iter_shifted.
    apply (round_aux_exact c (Pos.to_nat q)); fold d; lia.
Qed.

Lemma canonical_add (a b : positive) :
  Z.pos (a + b) < 2 ^ 53 ->
  Number.add (canonical a) (canonical b) = canonical (a + b).
Proof.
  intros Hab.
  assert (Ha : Z.pos a < 2 ^ 53) by lia. assert (Hb : Z.pos b < 2 ^ 53) by lia.
  apply digits_bound in Ha, Hb. pose proof (digits_bound _ Hab) as Hd.
  unfold Number.add, canonical at 1 2, SFadd.
  set (da := Z.pos (digits2_pos a)) in *. set (db := Z.pos (digits2_pos b)) in *.
  set (ez := Z.min (da - 53) (db - 53)).
  assert (Hsa : fst (shl_align (shifted (Z.to_nat (53 - da)) a) (da - 53) ez)
                = shifted (Z.to_nat (- ez)) a).
  { unfold shl_align. destruct (ez - (da - 53)) as [|q|q] eqn:Hn; simpl.
    - f_equal. lia.
    - lia.
    - rewrite Pos_iter_shifted, shifted_add. f_equal. lia. }
  assert (Hsb : fst (shl_align (shifted (Z.to_nat (53 - db)) b) (db - 53) ez)
                = shifted (Z.to_nat (- ez)) b).
  { unfold shl_align. destruct (ez - (db - 53)) as [|q|q] eqn:Hn; simpl.
    - f_equal. lia.
    - lia.
    - rewrite Pos_iter_shifted, shifted_add. f_equal. lia. }
  rewrite Hsa, Hsb. cbn [cond_Zopp]. rewrite <- Pos2Z.inj_add, shifted_plus.
  unfold binary_normalize, binary_round.
  set (d := Z.pos (digits2_pos (a + b))) in *.
  assert (Hda : da <= d) by (apply digits_mono; lia).
  assert (Hdb : db <= d) by (apply digits_mono; lia).
  assert (Hfexp : fexp Number.prec Number.emax (Z.pos (digits2_pos (shifted (Z.to_nat (- ez)) (a + b))) + ez) = d - 53).
  { unfold fexp, emin, Number.prec, Number.emax. rewrite digits_shifted. fold d. lia. }
  rewrite Hfexp. unfold shl_align.
  destruct (d - 53 - ez) as [|q|q] eqn:Hn.
  - apply round_aux_exact; fold d; lia.
  - apply round_aux_exact; fold d; lia.
  - lia.
Qed.

Lemma of_Z_add_exact (a b : Z) :
  0 <= a -> 0 <= b -> a + b < 2 ^ 53 ->
  Number.add (Number.of_Z a) (Number.of_Z b) = Number.of_Z (a + b).
Proof.
  intros Ha Hb Hab. destruct a as [|a|a]; [|destruct b as [|b|b]|]; try lia.
  - destruct b as [|b|b]; try lia; [reflexivity|].
    change (0 + Z.pos b) with (Z.pos b). rewrite of_Z_canonical by lia. reflexivity.
  - rewrite Z.add_0_r, of_Z_canonical by lia. reflexivity.
  - rewrite <- Pos2Z.inj_add in *. rewrite !of_Z_canonical by lia. apply canonical_add. exact Hab.
Qed.

End ExactIntegers.

(** ** Integer amounts *)

Lemma sum_Z_cons (z : Z) (zs : list Z) : sum_Z (z :: zs) = (z + sum_Z zs)%Z.
Proof.
  unfold sum_Z. apply sum_cons.
  - intros x y w. apply Z.add_assoc.
  - intros x y. apply Z.add_comm.
  - intros x. reflexivity.
Qed.

Lemma sum_Z_nonneg (zs : list Z) : Forall (fun z => 0 <= z)%Z zs -> (0 <= sum_Z zs)%Z.
Proof.
  induction 1 as [|z zs Hz _ IH]; [reflexivity|]. rewrite sum_Z_cons. lia.
Qed.

Lemma sum_Z_filter_le {A} (n : A -> Z) (p : A -> bool) (l : list A) :
  Forall (fun x => 0 <= n x)%Z l ->
  (0 <= sum_Z (map n (List.filter p l)) <= sum_Z (map n l))%Z.
Proof.
  induction 1 as [|x l Hx _ IH]; simpl; [unfold sum_Z, sum_with; simpl; lia|].
  destruct (p x); simpl; rewrite !sum_Z_cons; lia.
Qed.

Lemma of_Z_zero : Number.of_Z 0 = Number.zero.
Proof. reflexivity. Qed.

(** A positive integer below 2^53 is a truthy Number; [x || 0] leaves every
    Number of a natural below 2^53 as it is. *)
Lemma held_of_Z (z : Z) :
  (0 <= z < 2 ^ 53)%Z -> held_or_zero (Some (Number.of_Z z)) = Number.of_Z z.
Proof.
  intros Hz. destruct z as [|p|p]; [reflexivity| |lia].
  rewrite of_Z_canonical by lia. reflexivity.
Qed.

(** Adding up Numbers of naturals, restarting from 0 at a falsy total as
    [(obj[key] || 0) + amount] does, is exact as long as the sum stays below
    2^53. *)
Lemma restart_sum_exact (zs : list Z) (a : Z) :
  (0 <= a)%Z ->
  Forall (fun z => 0 <= z)%Z zs ->
  (a + sum_Z zs < 2 ^ 53)%Z ->
  fold_left (fun slot z => Some (Number.add (held_or_zero slot) (Number.of_Z z))) zs
    (Some (Number.of_Z a))
  = Some (Number.of_Z (a + sum_Z zs)).
Proof.
  intros Ha Hzs. revert a Ha. induction Hzs as [|z zs Hz Hzs IH]; intros a Ha Hsum.
  - simpl. unfold sum_Z, sum_with. simpl. rewrite Z.add_0_r. reflexivity.
  - rewrite sum_Z_cons in Hsum. pose proof (sum_Z_nonneg zs Hzs) as Hrest.
    cbn [fold_left]. rewrite held_of_Z, of_Z_add_exact by lia.
    rewrite IH by lia. rewrite sum_Z_cons. f_equal. f_equal. lia.
Qed.

Lemma restart_sum_from_nothing (zs : list Z) :
  zs <> [] ->
  Forall (fun z => 0 <= z)%Z zs ->
  (sum_Z zs < 2 ^ 53)%Z ->
  fold_left (fun slot z => Some (Number.add (held_or_zero slot) (Number.of_Z z))) zs None
  = Some (Number.of_Z (sum_Z zs)).
Proof.
  intros Hne Hzs Hsum. destruct zs as [|z zs]; [contradiction|].
  apply Forall_cons in Hzs as [Hz Hzs]. rewrite sum_Z_cons in *.
  pose proof (sum_Z_nonneg zs Hzs) as Hrest.
  cbn [fold_left held_or_zero].
  change Number.zero with (Number.of_Z 0). rewrite of_Z_add_exact by lia.
  apply restart_sum_exact; [lia | exact Hzs | lia].
Qed.

Lemma fold_left_map {A B C} (f : C -> B -> C) (g : A -> B) (l : list A) (c : C) :
  fold_left f (map g l) c = fold_left (fun acc x => f acc (g x)) l c.
Proof. revert c. induction l as [|x l IH]; intros c; simpl; [reflexivity | apply IH]. Qed.

Lemma fold_left_ext_in {A C} (f g : C -> A -> C) (l : list A) (c : C) :
  (forall acc x, In x l -> f acc x = g acc x) -> fold_left f l c = fold_left g l c.
Proof.
  revert c. induction l as [|x l IH]; intros c Hfg; simpl; [reflexivity|].
  rewrite Hfg by (left; reflexivity). apply IH. intros acc y Hy. apply Hfg. right. exact Hy.
Qed.

(** The keys of the reducer's object are the distinct keys of the data, in
    the order in which they first occur. *)
Lemma totals_by_keys (key_of : Row -> option string) (amount_of : Row -> number) (data : list Row) :
  map fst (totals_by key_of amount_of data)
  = first_seen (map (fun item => to_string (key_of item)) data).
Proof. unfold totals_by. apply collect_keys. Qed.

Lemma totals_by_member
  (key_of : Row -> option string) (amount_of : Row -> number) (data : list Row)
  (k : string) (v : number) :
  In (k, v) (totals_by key_of amount_of data) ->
  fold_left (fun slot item => Some (Number.add (held_or_zero slot) (amount_of item)))
    (List.filter (fun item => bool_decide (to_string (key_of item) = k)) data) None
  = Some v.
Proof.
  intros Hin. rewrite <- (collect_held (fun item => to_string (key_of item))
                            (fun item slot => Number.add (held_or_zero slot) (amount_of item))).
  apply held_of_member; [|exact Hin].
  fold (totals_by key_of amount_of data). rewrite totals_by_keys. apply first_seen_NoDup.
Qed.

(** ** [Object.entries] *)

Section OwnEntries.
Context {V : Type}.

Lemma indexed_entries (obj : list (string * V)) :
  map snd (omap (fun entry => (fun i => (i, entry)) <$> array_index (fst entry)) obj)
  = List.filter (fun entry => negb (bool_decide (array_index (fst entry) = None))) obj.
Proof.
  induction obj as [|entry obj IH]; [reflexivity|].
  cbn [omap list_omap List.filter]. destruct (array_index (fst entry)) as [i|]; simpl.
  - f_equal. exact IH.
  - exact IH.
Qed.

Lemma filter_split_perm {A} (p : A -> bool) (l : list A) :
  Permutation (List.filter (fun x => negb (p x)) l ++ List.filter p l) l.
Proof.
  induction l as [|x l IH]; simpl; [reflexivity|].
  destruct (p x); simpl.
  - rewrite <- Permutation_middle. constructor. exact IH.
  - constructor. exact IH.
Qed.

(** [Object.entries] lists every entry of the object once. *)
Lemma own_entries_perm (obj : list (string * V)) : Permutation (own_entries obj) obj.
Proof.
  unfold own_entries. rewrite array_sort_perm, indexed_entries.
  apply (filter_split_perm (fun entry => bool_decide (array_index (fst entry) = None))).
Qed.

(** When no key is an array index, the entries come in the order in which
    the keys were first set. *)
Lemma own_entries_plain (obj : list (string * V)) :
  Forall (fun entry => array_index (fst entry) = None) obj -> own_entries obj = obj.
Proof.
  intros Hplain. unfold own_entries.
  assert (Hnone : omap (fun entry => (fun i => (i, entry)) <$> array_index (fst entry)) obj = []).
  { induction Hplain as [|entry obj Hentry _ IH]; [reflexivity|].
    cbn [omap list_omap]. rewrite Hentry. exact IH. }
  rewrite Hnone. simpl.
  induction Hplain as [|entry obj Hentry _ IH]; [reflexivity|].
  simpl. rewrite bool_decide_eq_true_2 by exact Hentry. f_equal. apply IH.
  clear -Hnone Hentry. cbn [omap list_omap] in Hnone. rewrite Hentry in Hnone. exact Hnone.
Qed.

End OwnEntries.

(** ** Group-by reducer *)

Section GroupBy.
Variable key_of : Row -> option string.
Variable amount_of : Row -> number.

Lemma totals_by_slot (data : list Row) (k : string) (v : number) :
  In (k, v) (totals_by key_of amount_of data) ->
  fold_left (add_to_slot amount_of) (filed_under key_of k data) None = Some v.
Proof. apply totals_by_member. Qed.

(** Every key of the result has at least one row. *)
Lemma totals_by_inhabited (data : list Row) (k : string) (v : number) :
  In (k, v) (totals_by key_of amount_of data) -> filed_under key_of k data <> [].
Proof.
  intros Hin Hnil. apply totals_by_slot in Hin. rewrite Hnil in Hin. discriminate.
Qed.

(** X1: amounts that are naturals.  When no key is the name of a property
    of [Object.prototype], every amount is the Number of a natural and the
    amounts add up to less than 2^53, the entries of the reducer's object
    are one per distinct key of the data, and the total of a key is exactly
    the sum of the amounts of its rows. *)
Theorem totals_by_naturals (n : Row -> Z) (data : list Row) :
  plain_keys key_of data = true ->
  (forall item, In item data -> amount_of item = Number.of_Z (n item) /\ (0 <= n item)%Z) ->
  (sum_Z (map n data) < 2 ^ 53)%Z ->
  NoDup (map fst (own_entries (totals_by key_of amount_of data)))
  /\ Permutation (map fst (own_entries (totals_by key_of amount_of data)))
       (first_seen (map (fun item => to_string (key_of item)) data))
  /\ forall k v, In (k, v) (own_entries (totals_by key_of amount_of data)) ->
       v = Number.of_Z (sum_Z (map n (filed_under key_of k data))).
Proof.
  intros _ Hamounts Hbound.
  split; [rewrite own_entries_perm, totals_by_keys; apply first_seen_NoDup|].
  split; [rewrite own_entries_perm, totals_by_keys; reflexivity|].
  intros k v Hin.
  apply (Permutation_in _ (own_entries_perm (totals_by key_of amount_of data))) in Hin.
  pose proof (totals_by_inhabited data k v Hin) as Hne.
  apply totals_by_slot in Hin.
  assert (Hsub : forall item, In item (filed_under key_of k data) -> In item data).
  { intros item Hitem. apply filter_In in Hitem. tauto. }
  assert (Hnonneg : Forall (fun item => 0 <= n item)%Z data).
  { apply Forall_forall. intros item Hitem. apply list_elem_of_In in Hitem. apply Hamounts, Hitem. }
  pose proof (sum_Z_filter_le n (fun item => bool_decide (to_string (key_of item) = k)) data Hnonneg)
    as Hle.
  fold (filed_under key_of k data) in Hle.
  rewrite (fold_left_ext_in _
             (fun slot item => Some (Number.add (held_or_zero slot) (Number.of_Z (n item))))) in Hin.
  2:{ intros slot item Hitem. unfold add_to_slot.
      rewrite (proj1 (Hamounts item (Hsub item Hitem))). reflexivity. }
  rewrite <- (fold_left_map
                (fun slot z => Some (Number.add (held_or_zero slot) (Number.of_Z z))) n) in Hin.
  rewrite restart_sum_from_nothing in Hin.
  - injection Hin as <-. reflexivity.
  - destruct (filed_under key_of k data); [contradiction | discriminate].
  - apply Forall_forall. intros z Hz. apply list_elem_of_In, in_map_iff in Hz as [item [<- Hitem]].
    apply Hamounts, Hsub, Hitem.
  - lia.
Qed.

Lemma add_NaN (x : number) : Number.add x Number.NaN = Number.NaN.
Proof. destruct x as [s|s| |s m e]; try destruct s; reflexivity. Qed.

Lemma NaN_add (x : number) : Number.add Number.NaN x = Number.NaN.
Proof. reflexivity. Qed.

(** X2: an amount that is NaN wipes out what its key had gathered.  When no
    key is the name of a property of [Object.prototype], a row of a key has
    a NaN amount and rows of that key follow it, the total of the key is
    what those later rows alone add up to. *)
Theorem unreadable_amount_restarts_total
  (data pre post : list Row) (x : Row) (k : string) (v : number) :
  plain_keys key_of data = true ->
  In (k, v) (totals_by key_of amount_of data) ->
  filed_under key_of k data = pre ++ x :: post ->
  amount_of x = Number.NaN ->
  post <> [] ->
  fold_left (add_to_slot amount_of) post None = Some v.
Proof.
  intros _ Hin Hsplit Hx Hpost. apply totals_by_slot in Hin.
  rewrite Hsplit, fold_left_app in Hin. cbn [fold_left] in Hin.
  unfold add_to_slot at 2 in Hin. rewrite Hx, add_NaN in Hin.
  destruct post as [|y post]; [contradiction|]. exact Hin.
Qed.

(** When the last row of a key has a NaN amount, the total of the key is
    NaN. *)
Lemma unreadable_last_amount (data pre : list Row) (x : Row) (k : string) (v : number) :
  plain_keys key_of data = true ->
  In (k, v) (totals_by key_of amount_of data) ->
  filed_under key_of k data = pre ++ [x] ->
  amount_of x = Number.NaN ->
  v = Number.NaN.
Proof.
  intros _ Hin Hsplit Hx. apply totals_by_slot in Hin.
  rewrite Hsplit, fold_left_app in Hin. cbn [fold_left] in Hin.
  unfold add_to_slot at 1 in Hin. rewrite Hx, add_NaN in Hin. congruence.
Qed.

End GroupBy.

(** ** Counting routes *)

Lemma sum_Z_ones {A} (l : list A) : sum_Z (map (fun _ => 1%Z) l) = Z.of_nat (length l).
Proof.
  induction l as [|x l IH]; [reflexivity|].
  cbn [map length]. rewrite sum_Z_cons, IH. lia.
Qed.

Lemma filed_under_length (key_of : Row -> option string) (k : string) (data : list Row) :
  length (filed_under key_of k data) <= length data.
Proof. apply List.filter_length_le. Qed.

(** The reducer with the amount 1 counts the rows of each key. *)
Lemma totals_by_count (key_of : Row -> option string) (data : list Row) (k : string) (v : number) :
  (Z.of_nat (length data) < 2 ^ 53)%Z ->
  In (k, v) (totals_by key_of (fun _ => Number.of_Z 1) data) ->
  v = Number.of_nat (length (filed_under key_of k data)).
Proof.
  intros Hbound Hin.
  pose proof (totals_by_inhabited _ _ _ _ _ Hin) as Hne.
  pose proof (filed_under_length key_of k data) as Hle.
  apply totals_by_slot in Hin.
  change (add_to_slot (fun _ : Row => Number.of_Z 1))
    with (fun (slot : option number) (item : Row) =>
            (fun slot z => Some (Number.add (held_or_zero slot) (Number.of_Z z)))
              slot ((fun _ : Row => 1%Z) item)) in Hin.
  rewrite <- (fold_left_map (fun slot z => Some (Number.add (held_or_zero slot) (Number.of_Z z)))
                (fun _ : Row => 1%Z)) in Hin.
  rewrite restart_sum_from_nothing in Hin.
  - rewrite sum_Z_ones in Hin. injection Hin as <-. reflexivity.
  - destruct (filed_under key_of k data); [contradiction | discriminate].
  - apply Forall_forall. intros z Hz. apply list_elem_of_In, in_map_iff in Hz as [_ [<- _]]. lia.
  - rewrite sum_Z_ones. lia.
Qed.

Lemma sales_metric_shipping_mode (salesData : list Row) :
  salesData <> [] ->
  plain_keys (fun item : Row => item !! "Shipping Mode") salesData = true ->
  sales_metric_handler salesData "shipping-mode"
  = Some (Normal (json 200 (columns_json "modes" "counts"
            (own_entries (totals_by (fun item : Row => item !! "Shipping Mode")
                            (fun _ => Number.of_Z 1) salesData))))).
Proof.
  intros Hne Hplain. destruct salesData as [|item salesData]; [contradiction|].
  unfold sales_metric_handler. rewrite Hplain. reflexivity.
Qed.

(** X3: [GET /api/sales/shipping-mode] counts the rows of each shipping mode.
    On sales data that is not empty (fewer than 2^53 rows, no mode named as
    a property of [Object.prototype]), the response lists every distinct mode
    once, and beside it the number of rows that have this mode. *)
Theorem shipping_mode_counts (salesData : list Row) :
  salesData <> [] ->
  plain_keys (fun item : Row => item !! "Shipping Mode") salesData = true ->
  (Z.of_nat (length salesData) < 2 ^ 53)%Z ->
  exists entries,
    sales_metric_handler salesData "shipping-mode"
    = Some (Normal (json 200 (columns_json "modes" "counts" entries)))
    /\ Permutation (map fst entries)
         (first_seen (map (fun item : Row => to_string (item !! "Shipping Mode")) salesData))
    /\ forall mode n, In (mode, n) entries ->
         n = Number.of_nat
               (length (filed_under (fun item : Row => item !! "Shipping Mode") mode salesData)).
Proof.
  intros Hne Hplain Hbound.
  eexists. split; [apply sales_metric_shipping_mode; assumption|]. split.
  - rewrite own_entries_perm, totals_by_keys. reflexivity.
  - intros mode n Hin. apply (totals_by_count _ _ _ _ Hbound).
    eapply Permutation_in; [apply own_entries_perm | exact Hin].
Qed.

(** Three orders, two of them shipped first class. *)
Lemma shipping_mode_counts_witness :
  exists entries,
    sales_metric_handler
      [row [("Shipping Mode", "First Class")]; row [("Shipping Mode", "Same Day")];
       row [("Shipping Mode", "First Class")]] "shipping-mode"
    = Some (Normal (json 200 (columns_json "modes" "counts" entries)))
    /\ In ("First Class", Number.of_nat 2) entries.
Proof.
  destruct (shipping_mode_counts
              [row [("Shipping Mode", "First Class")]; row [("Shipping Mode", "Same Day")];
               row [("Shipping Mode", "First Class")]])
    as [entries [Hsent [Hkeys Hcounts]]].
  - discriminate.
  - vm_compute. reflexivity.
  - vm_compute. reflexivity.
  - exists entries. split; [exact Hsent|].
    assert (Hin : In "First Class" (map fst entries)).
    { eapply Permutation_in; [symmetry; exact Hkeys|]. vm_compute. left. reflexivity. }
    apply in_map_iff in Hin as [[mode n] [Hmode Hin]]. simpl in Hmode. subst mode.
    rewrite (Hcounts _ _ Hin) in Hin. exact Hin.
Defined.

(** ** Routing *)

Lemma lowered_empty (s : string) : JsString.toLowerCase s = "" -> s = "".
Proof. destruct s; [reflexivity | discriminate]. Qed.

(** A path that matches [/api/suppliers/<literal>/:name] matches
    [/api/suppliers/:endpoint/:name] as well. *)
Lemma under_suppliers (literal name : string) (segments : list string) (params : list (string * string)) :
  literal <> "" ->
  Router.match_path (Router.api [Router.Lit "suppliers"; Router.Lit literal; Router.Param name])
    segments = Some params ->
  Router.match_path (Router.api [Router.Lit "suppliers"; Router.Param "endpoint"; Router.Param "supplier"])
    segments <> None.
Proof.
  intros Hliteral.
  destruct segments as [|a [|b [|c [|d [|e rest]]]]]; cbn [Router.match_path Router.api];
    try discriminate;
    destruct (String.eqb _ (JsString.toLowerCase a)); try discriminate;
    destruct (String.eqb _ (JsString.toLowerCase b)); try discriminate.
  - destruct (String.eqb _ (JsString.toLowerCase c)); discriminate.
  - destruct (String.eqb _ (JsString.toLowerCase c)) eqn:Hc; [|discriminate].
    apply String.eqb_eq in Hc.
    destruct (String.eqb c "") eqn:Hempty.
    { apply String.eqb_eq in Hempty. subst c. apply lowered_empty in Hc. contradiction. }
    destruct (String.eqb d ""); discriminate.
  - destruct (String.eqb _ (JsString.toLowerCase c)); [|discriminate].
    destruct (String.eqb d ""); discriminate.
Qed.

Ltac walk_routes H :=
  repeat match type of H with
         | match Router.match_path ?p ?s with _ => _ end = _ =>
             let E := fresh "E" in
             destruct (Router.match_path p s) eqn:E; [try discriminate H|]
         end;
  try discriminate H.

Lemma never_operator_insights (segments : list string) (params : list (string * string)) :
  Router.first_match Router.routing_table segments <> Some (Router.insights_operators, params).
Proof.
  unfold Router.routing_table. cbn [Router.first_match]. intros H.
  walk_routes H.
Qed.

Lemma never_alternates (segments : list string) (params : list (string * string)) :
  Router.first_match Router.routing_table segments <> Some (Router.suppliers_alternates, params).
Proof.
  unfold Router.routing_table. cbn [Router.first_match]. intros H.
  walk_routes H.
  match goal with
  | Hsome : Router.match_path (Router.api [_; Router.Lit "alternates"; _]) _ = Some _ |- _ =>
      apply under_suppliers in Hsome; [contradiction | discriminate]
  end.
Qed.

Lemma never_insight (segments : list string) (params : list (string * string)) :
  Router.first_match Router.routing_table segments <> Some (Router.suppliers_insight, params).
Proof.
  unfold Router.routing_table. cbn [Router.first_match]. intros H.
  walk_routes H.
  match goal with
  | Hsome : Router.match_path (Router.api [_; Router.Lit "insight"; _]) _ = Some _ |- _ =>
      apply under_suppliers in Hsome; [contradiction | discriminate]
  end.
Qed.

(** X4: which handlers can run.  Three of the thirty-one registered handlers
    are never run, for any request: the operator insights of
    [/api/insights], the alternates of
    [/api/suppliers/alternates/:supplier] and the insight of
    [/api/suppliers/insight/:identifier], each registered behind a route that
    matches every path it matches.  Every other handler is the first match
    of some path. *)
Theorem reachable_routes (r : Router.Route) :
  (exists req params, Router.dispatch req = Some (r, params)) <-> r ∉ shadowed_routes.
Proof.
  split.
  - intros [req [params Hdispatch]] Hshadowed. unfold Router.dispatch in Hdispatch.
    unfold shadowed_routes in Hshadowed.
    rewrite !elem_of_cons, elem_of_nil in Hshadowed.
    destruct Hshadowed as [-> | [-> | [-> | []]]].
    + exact (never_operator_insights _ _ Hdispatch).
    + exact (never_alternates _ _ Hdispatch).
    + exact (never_insight _ _ Hdispatch).
  - intros Hr. exists {| originalUrl := ""; path := path_to r; query := ∅ |}.
    destruct r; try (eexists; vm_compute; reflexivity);
      exfalso; apply Hr; unfold shadowed_routes; set_solver.
Qed.

(** ** Supplier services *)

Lemma filter_suppliers (name : string) (suppliersData : list Row) :
  Forall (fun item : Row => is_Some (item !! "Supplier_Name")) suppliersData ->
  filterM (supplier_named name) suppliersData
  = Normal (List.filter (names_supplier name) suppliersData).
Proof.
  induction 1 as [|item rest [n Hn] _ IH]; [reflexivity|].
  cbn [filterM List.filter]. rewrite (supplier_named_of name n item Hn), IH. reflexivity.
Qed.

(** X5: [GET /api/suppliers/:endpoint/:supplier] looks the supplier up before
    it looks at the endpoint.  On a Suppliers dataset whose rows all carry
    [Supplier_Name], the names of the rows and the name asked for being
    ASCII: a name that no row has is answered 404, whatever the endpoint; a
    name that some row has, with an endpoint other than [kpis], [metrics]
    and [delivery-stats], is answered 400; [delivery-stats] is answered from
    the first row that has the name, with [on_time = total - late]. *)
Theorem supplier_endpoint_order (suppliersData : list Row) (endpoint supplier : string) :
  Forall (fun item : Row => ascii_cell "Supplier_Name" item = true) suppliersData ->
  JsString.is_ascii supplier = true ->
  match List.filter (names_supplier supplier) suppliersData with
  | [] =>
      supplier_endpoint suppliersData endpoint supplier
      = Normal (error_json 404 (supplier ++ " not found"))
  | first :: _ =>
      (endpoint ∉ ["kpis"; "metrics"; "delivery-stats"] ->
       supplier_endpoint suppliersData endpoint supplier
       = Normal (error_json 400 ("Unknown supplier endpoint '" ++ endpoint ++ "'")))
      /\ supplier_endpoint suppliersData "delivery-stats" supplier
         = Normal (json 200 (JObj [
             ("on_time", json_number
                (Number.sub (Number.parseInt (to_string (first !! "Total_Orders")))
                   (Number.parseInt (to_string (first !! "Late_Deliveries")))));
             ("late", json_number (Number.parseInt (to_string (first !! "Late_Deliveries"))));
             ("total", json_number (Number.parseInt (to_string (first !! "Total_Orders"))))]))
  end.
Proof.
  intros Hcells _. pose proof (ascii_cells_present _ _ Hcells) as Hnamed.
  unfold supplier_endpoint. rewrite (filter_suppliers _ _ Hnamed).
  cbn [mbind Completion_bind].
  destruct (List.filter _ _) as [|first rest]; [reflexivity|]. split; [|reflexivity].
  intros Hother.
  destruct (String.eqb endpoint "kpis") eqn:Hkpis;
    [apply String.eqb_eq in Hkpis; subst; exfalso; apply Hother; set_solver|].
  destruct (String.eqb endpoint "metrics") eqn:Hmetrics;
    [apply String.eqb_eq in Hmetrics; subst; exfalso; apply Hother; set_solver|].
  destruct (String.eqb endpoint "delivery-stats") eqn:Hstats;
    [apply String.eqb_eq in Hstats; subst; exfalso; apply Hother; set_solver|].
  reflexivity.
Qed.

(** An unknown endpoint is reported only for a supplier that exists. *)
Lemma supplier_endpoint_order_witness :
  supplier_endpoint [acme] "scores" "Apex" = Normal (error_json 404 "Apex not found")
  /\ supplier_endpoint [acme] "scores" "ACME"
     = Normal (error_json 400 "Unknown supplier endpoint 'scores'").
Proof.
  split.
  - apply (supplier_endpoint_order [acme] "scores" "Apex").
    + repeat constructor.
    + reflexivity.
  - apply (supplier_endpoint_order [acme] "scores" "ACME").
    + repeat constructor.
    + reflexivity.
    + intros Hin. rewrite !elem_of_cons, elem_of_nil in Hin.
      destruct Hin as [Hin | [Hin | [Hin | []]]]; discriminate Hin.
Defined.

(** X6: the percent columns.  When the supplier is found (on a dataset whose
    rows all carry [Supplier_Name], the names of the rows and the name asked
    for being ASCII), the endpoints [kpis] and [metrics] send a response
    exactly when the first row that has the name carries both
    [Fulfillment_Rate] and [OTD_Percentage]; otherwise a TypeError leaves
    the handler. *)
Theorem supplier_percent_columns (suppliersData rest : list Row) (first : Row) (supplier : string) :
  Forall (fun item : Row => ascii_cell "Supplier_Name" item = true) suppliersData ->
  JsString.is_ascii supplier = true ->
  List.filter (names_supplier supplier) suppliersData = first :: rest ->
  ((exists response, supplier_endpoint suppliersData "kpis" supplier = Normal response)
   <-> is_Some (first !! "Fulfillment_Rate") /\ is_Some (first !! "OTD_Percentage"))
  /\ ((exists response, supplier_endpoint suppliersData "metrics" supplier = Normal response)
      <-> is_Some (first !! "Fulfillment_Rate") /\ is_Some (first !! "OTD_Percentage")).
Proof.
  intros Hcells _ Hfound. pose proof (ascii_cells_present _ _ Hcells) as Hnamed.
  unfold supplier_endpoint.
  rewrite (filter_suppliers _ _ Hnamed), Hfound.
  cbn [mbind Completion_bind String.eqb Ascii.eqb Bool.eqb]. unfold replace_percent, method_of.
  destruct (first !! "Fulfillment_Rate") as [fulfillment|],
    (first !! "OTD_Percentage") as [otd|]; cbn [mbind Completion_bind];
    (split;
     (split;
      [ intros [response Hsent]; try discriminate Hsent; split; eexists; reflexivity
      | intros [[? Hf] [? Ho]]; try discriminate Hf; try discriminate Ho; eexists; reflexivity ])).
Qed.

(** The sample supplier carries both columns. *)
Lemma supplier_percent_columns_witness :
  exists response, supplier_endpoint [acme] "metrics" "acme" = Normal response.
Proof.
  apply (proj2 (supplier_percent_columns [acme] [] acme "acme"
                  ltac:(repeat constructor)
                  ltac:(reflexivity)
                  ltac:(vm_compute; reflexivity))).
  split; vm_compute; eexists; reflexivity.
Defined.

Lemma dispatch_under_suppliers (req : Request) (a b c name : string) :
  path req = [a; b; c; name] ->
  JsString.toLowerCase a = "api" ->
  JsString.toLowerCase b = "suppliers" ->
  c <> "" -> name <> "" ->
  Router.dispatch req = Some (Router.suppliers_endpoint, [("endpoint", c); ("supplier", name)]).
Proof.
  intros Hpath Ha Hb Hc Hname. unfold Router.dispatch, Router.routing_table, Router.api.
  rewrite Hpath. cbn [Router.first_match Router.match_path]. rewrite Ha, Hb.
  apply String.eqb_neq in Hc, Hname.
  cbn [JsString.toLowerCase JsString.lower_char String.eqb Ascii.eqb Bool.eqb
       N_of_ascii N_of_digits N.leb N.compare Pos.compare Pos.compare_cont N.add N.mul
       andb ascii_of_N ascii_of_pos fmap option_fmap option_map].
  rewrite Hc, Hname. reflexivity.
Qed.

Lemma lowered_is (c literal : string) (other : string) :
  JsString.toLowerCase c = literal ->
  JsString.toLowerCase other <> literal ->
  String.eqb c other = false.
Proof. intros Hc Hother. apply String.eqb_neq. intros ->. contradiction. Qed.

(** X7: the alternates and the insight of a supplier over HTTP.  A request
    for [/api/suppliers/alternates/<name>] or [/api/suppliers/insight/<name>]
    is handled by the route [/api/suppliers/:endpoint/:supplier], registered
    before them.  For a name of ASCII characters without a percent sign (so
    that the handler gets the segment as it stands in the path), on a
    Suppliers dataset whose rows all carry an ASCII [Supplier_Name], it is
    answered 404 when no supplier has the name and 400, unknown endpoint,
    when one has; the alternates and the insight are never sent. *)
Theorem supplier_details_over_http
  (Date_parse : string -> option Z) (store : Store) (req : Request) (a b c name : string) :
  path req = [a; b; c; name] ->
  JsString.toLowerCase a = "api" ->
  JsString.toLowerCase b = "suppliers" ->
  JsString.toLowerCase c = "alternates" \/ JsString.toLowerCase c = "insight" ->
  name <> "" ->
  unescaped name = true ->
  Forall (fun item : Row => ascii_cell "Supplier_Name" item = true) (suppliersData store) ->
  respond Date_parse store req
  = Sent match List.filter (names_supplier name) (suppliersData store) with
         | [] => error_json 404 (name ++ " not found")
         | _ :: _ => error_json 400 ("Unknown supplier endpoint '" ++ c ++ "'")
         end.
Proof.
  intros Hpath Ha Hb Hc Hname _ Hcells.
  pose proof (ascii_cells_present _ _ Hcells) as Hnamed.
  assert (Hnonempty : c <> "") by (intros ->; destruct Hc as [Hc | Hc]; discriminate Hc).
  unfold respond. rewrite (dispatch_under_suppliers req a b c name Hpath Ha Hb Hnonempty Hname).
  cbn [run_route Router.param List.find String.eqb Ascii.eqb Bool.eqb].
  unfold supplier_endpoint. rewrite (filter_suppliers _ _ Hnamed).
  cbn [mbind Completion_bind].
  destruct (List.filter _ _) as [|first rest]; [reflexivity|].
  assert (Hkpis : String.eqb c "kpis" = false)
    by (destruct Hc as [Hc | Hc]; apply (lowered_is _ _ _ Hc); discriminate).
  assert (Hmetrics : String.eqb c "metrics" = false)
    by (destruct Hc as [Hc | Hc]; apply (lowered_is _ _ _ Hc); discriminate).
  assert (Hstats : String.eqb c "delivery-stats" = false)
    by (destruct Hc as [Hc | Hc]; apply (lowered_is _ _ _ Hc); discriminate).
  rewrite Hkpis, Hmetrics, Hstats. reflexivity.
Qed.

(** The alternates of a supplier that exists, asked for over HTTP. *)
Lemma supplier_details_over_http_witness :
  respond iso_date_parse (with_suppliers [acme])
    (get "/api/suppliers/alternates/Acme" ["api"; "suppliers"; "alternates"; "Acme"] [])
  = Sent (error_json 400 "Unknown supplier endpoint 'alternates'").
Proof.
  apply (supplier_details_over_http iso_date_parse (with_suppliers [acme])
           (get "/api/suppliers/alternates/Acme" ["api"; "suppliers"; "alternates"; "Acme"] [])
           "api" "suppliers" "alternates" "Acme").
  - reflexivity.
  - reflexivity.
  - reflexivity.
  - left. reflexivity.
  - discriminate.
  - reflexivity.
  - repeat constructor.
Defined.

Lemma filter_skus (other : string) (supplierInsightsData : list Row) :
  Forall (fun item : Row => is_Some (item !! "sku_id")) supplierInsightsData ->
  filterM (same_sku (Some other)) supplierInsightsData
  = Normal (List.filter (sku_is (Some other)) supplierInsightsData).
Proof.
  induction 1 as [|item rest [mine Hmine] _ IH]; [reflexivity|].
  cbn [filterM List.filter]. rewrite IH.
  unfold same_sku, sku_is, toLowerCase, method_of. rewrite Hmine. reflexivity.
Qed.

(** X8: the handler written for [/api/suppliers/insight/:identifier] reads the
    identifier as a supplier name first and as a SKU second.  When every
    supplier row carries [Supplier_Name] and [SKU_No] and every insight row
    carries [sku_id], all of them and the identifier being ASCII, the
    handler does not throw; it sends the first insight about the SKU of the
    first supplier with that name, if there is one; otherwise the first
    insight whose SKU is the identifier; otherwise 404. *)
Theorem insight_lookup (suppliersData supplierInsightsData : list Row) (identifier : string) :
  Forall (fun item : Row => ascii_cell "Supplier_Name" item = true) suppliersData ->
  Forall (fun item : Row => ascii_cell "SKU_No" item = true) suppliersData ->
  Forall (fun item : Row => ascii_cell "sku_id" item = true) supplierInsightsData ->
  JsString.is_ascii identifier = true ->
  insight_handler suppliersData supplierInsightsData identifier
  = Normal
      match List.find (names_supplier identifier) suppliersData with
      | Some supplierMatch =>
          match List.filter (sku_is (supplierMatch !! "SKU_No")) supplierInsightsData with
          | first :: _ =>
              json 200 (json_object [
                ("sku_id", json_string (supplierMatch !! "SKU_No"));
                ("supplier_name", json_string (supplierMatch !! "Supplier_Name"));
                ("insight", json_string (first !! "ai_supplier_insight"))])
          | [] => insight_by_sku supplierInsightsData identifier
          end
      | None => insight_by_sku supplierInsightsData identifier
      end.
Proof.
  intros Hnames Hnumbers Hcells _.
  pose proof (ascii_cells_present _ _ Hnames) as Hnamed.
  pose proof (ascii_cells_present _ _ Hnumbers) as Hskus.
  pose proof (ascii_cells_present _ _ Hcells) as Hinsights.
  unfold insight_handler, insight_by_sku.
  rewrite (find_supplier _ _ Hnamed). cbn [mbind Completion_bind].
  rewrite (filter_skus identifier _ Hinsights). cbn [mbind Completion_bind].
  destruct (List.find (names_supplier identifier) suppliersData) as [supplierMatch|] eqn:Hfind.
  - apply find_some in Hfind as [Hin _].
    rewrite Forall_forall in Hskus. apply list_elem_of_In, Hskus in Hin as [sku Hsku].
    rewrite Hsku, (filter_skus sku _ Hinsights). cbn [mbind Completion_bind].
    destruct (List.filter (sku_is (Some sku)) supplierInsightsData) as [|first rest];
      [|reflexivity].
    destruct (List.filter (sku_is (Some identifier)) supplierInsightsData); reflexivity.
  - destruct (List.filter (sku_is (Some identifier)) supplierInsightsData); reflexivity.
Qed.

(** A supplier's name finds the insight about its SKU; a SKU finds it too. *)
Lemma insight_lookup_witness :
  insight_handler [acme] [row [("sku_id", "s1"); ("ai_supplier_insight", "Often late")]] "ACME"
  = Normal (json 200 (JObj [("sku_id", JStr "S1"); ("supplier_name", JStr "Acme");
                            ("insight", JStr "Often late")]))
  /\ insight_handler [acme] [row [("sku_id", "s1"); ("ai_supplier_insight", "Often late")]] "S1"
     = Normal (json 200 (JObj [("sku_id", JStr "S1"); ("insight", JStr "Often late")])).
Proof.
  split.
  - rewrite (insight_lookup [acme] [row [("sku_id", "s1"); ("ai_supplier_insight", "Often late")]]
               "ACME").
    + vm_compute. reflexivity.
    + repeat constructor.
    + repeat constructor.
    + repeat constructor.
    + reflexivity.
  - rewrite (insight_lookup [acme] [row [("sku_id", "s1"); ("ai_supplier_insight", "Often late")]]
               "S1").
    + vm_compute. reflexivity.
    + repeat constructor.
    + repeat constructor.
    + repeat constructor.
    + reflexivity.
Defined.

(** ** Period aggregator: more *)

Lemma map_of_Forall {A B C} (f : A -> C) (g : B -> C) (h : A -> B) (l : list A) :
  Forall (fun x => f x = g (h x)) l -> map f l = map g (map h l).
Proof. induction 1 as [|x l Hx _ IH]; simpl; [reflexivity|]. rewrite Hx, IH. reflexivity. Qed.

Lemma group_inhabited {R} (date_of : R -> Calendar.JsDate) (groupBy k : string) (data : list R) :
  k ∈ first_seen (map (fun r => period_key groupBy (date_of r)) data) ->
  group date_of groupBy k data <> [].
Proof.
  intros Hk. apply first_seen_elem, list_elem_of_In, in_map_iff in Hk as [r [Hkey Hr]].
  intros Hnil. assert (Hin : In r (group date_of groupBy k data)).
  { apply filter_In. split; [exact Hr|]. apply bool_decide_eq_true_2, Hkey. }
  rewrite Hnil in Hin. exact Hin.
Qed.

(** X9: no bucket of the period aggregator is empty.  Every bucket that
    [aggregateData] emits holds at least one record, and its
    [average_demand] is its [total_demand] divided by the number of its
    records: the aggregator never divides by zero, and on no records it emits
    no bucket. *)
Theorem aggregate_buckets_inhabited (data : list ForecastRow) (groupBy : string) :
  Forall
    (fun p =>
       let records := group Date groupBy (period p) data in
       0 < length records
       /\ average_demand p = Number.div (total_demand p) (Number.of_nat (length records)))
    (aggregateData data groupBy)
  /\ (data = [] <-> aggregateData data groupBy = []).
Proof.
  destruct (aggregate_groups Date Forecasted_Demand Number.zero Number.add Number.div
              Number.of_nat data groupBy) as [Hkeys Htotals].
  fold (aggregateData data groupBy) in Hkeys, Htotals.
  split.
  - apply Forall_forall. intros p Hp. cbn zeta. split.
    + assert (Hk : period p ∈ first_seen (map (fun r => period_key groupBy (Date r)) data)).
      { rewrite <- Hkeys. apply list_elem_of_In, in_map, list_elem_of_In, Hp. }
      apply (group_inhabited Date) in Hk.
      destruct (group Date groupBy (period p) data); [contradiction | simpl; lia].
    + rewrite Forall_forall in Htotals. apply (Htotals p Hp).
  - split; [intros ->; reflexivity|].
    intros Hnone. rewrite Hnone in Hkeys. simpl in Hkeys.
    destruct data as [|r data]; [reflexivity|]. exfalso.
    assert (Hin : period_key groupBy (Date r)
                  ∈ first_seen (map (fun r => period_key groupBy (Date r)) (r :: data))).
    { apply first_seen_elem. simpl. left. }
    rewrite <- Hkeys in Hin. inversion Hin.
Qed.

Lemma fold_add_of_Z (zs : list Z) (a : Z) :
  (0 <= a)%Z ->
  Forall (fun z => 0 <= z)%Z zs ->
  (a + sum_Z zs < 2 ^ 53)%Z ->
  fold_left Number.add (map Number.of_Z zs) (Number.of_Z a) = Number.of_Z (a + sum_Z zs).
Proof.
  intros Ha Hzs. revert a Ha. induction Hzs as [|z zs Hz Hzs IH]; intros a Ha Hsum.
  - simpl. unfold sum_Z, sum_with. simpl. rewrite Z.add_0_r. reflexivity.
  - rewrite sum_Z_cons in Hsum. pose proof (sum_Z_nonneg zs Hzs) as Hrest.
    cbn [map fold_left]. rewrite of_Z_add_exact by lia.
    rewrite IH by lia. rewrite sum_Z_cons. f_equal. lia.
Qed.

(** The left-to-right Number sum of naturals that add up to less than 2^53
    is exact. *)
Lemma sum_numbers_of_Z (zs : list Z) :
  Forall (fun z => 0 <= z)%Z zs ->
  (sum_Z zs < 2 ^ 53)%Z ->
  sum_numbers (map Number.of_Z zs) = Number.of_Z (sum_Z zs).
Proof.
  intros Hzs Hsum. unfold sum_numbers, sum_with.
  change Number.zero with (Number.of_Z 0). rewrite fold_add_of_Z; [reflexivity | lia | exact Hzs | lia].
Qed.

Lemma map_of_naturals {A} (amount : A -> number) (n : A -> Z) (l : list A) :
  (forall x, In x l -> amount x = Number.of_Z (n x)) ->
  map amount l = map Number.of_Z (map n l).
Proof. intros Hl. rewrite map_map. apply map_ext_in. exact Hl. Qed.

(** X10: demands that are naturals.  When every [Forecasted_Demand] is the
    Number of a natural and the demands add up to less than 2^53, each
    bucket's total is exactly the sum of the demands of its records, and the
    bucket totals add up, in Number arithmetic, to exactly the sum of the
    demands of all records. *)
Theorem aggregate_naturals (n : ForecastRow -> Z) (data : list ForecastRow) (groupBy : string) :
  (forall r, In r data -> Forecasted_Demand r = Number.of_Z (n r) /\ (0 <= n r)%Z) ->
  (sum_Z (map n data) < 2 ^ 53)%Z ->
  Forall
    (fun p => total_demand p = Number.of_Z (sum_Z (map n (group Date groupBy (period p) data))))
    (aggregateData data groupBy)
  /\ sum_numbers (map total_demand (aggregateData data groupBy)) = Number.of_Z (sum_Z (map n data))
  /\ sum_numbers (map total_demand (aggregateData data groupBy))
     = sum_numbers (map Forecasted_Demand data).
Proof.
  intros Hnat Hbound.
  assert (Hnonneg : Forall (fun r => 0 <= n r)%Z data).
  { apply Forall_forall. intros r Hr. apply list_elem_of_In in Hr. apply Hnat, Hr. }
  assert (Hgroup : forall k,
            sum_numbers (map Forecasted_Demand (group Date groupBy k data))
            = Number.of_Z (sum_Z (map n (group Date groupBy k data)))).
  { intros k.
    pose proof (sum_Z_filter_le n (fun r => bool_decide (period_key groupBy (Date r) = k)) data Hnonneg)
      as Hle.
    fold (group Date groupBy k data) in Hle.
    rewrite (map_of_naturals Forecasted_Demand n).
    - apply sum_numbers_of_Z; [|lia].
      apply Forall_forall. intros z Hz. apply list_elem_of_In, in_map_iff in Hz as [r [<- Hr]].
      apply filter_In in Hr as [Hr _]. apply Hnat, Hr.
    - intros r Hr. apply filter_In in Hr as [Hr _]. apply Hnat, Hr. }
  destruct (aggregate_groups Date Forecasted_Demand Number.zero Number.add Number.div
              Number.of_nat data groupBy) as [Hkeys Htotals].
  fold (aggregateData data groupBy) in Hkeys, Htotals.
  assert (Hexact : Forall
            (fun p => total_demand p
                      = Number.of_Z (sum_Z (map n (group Date groupBy (period p) data))))
            (aggregateData data groupBy)).
  { eapply Forall_impl; [exact Htotals|]. intros p [Hp _]. cbn beta in Hp.
    rewrite Hp. apply Hgroup. }
  split; [exact Hexact|].
  assert (Hsum : sum_numbers (map total_demand (aggregateData data groupBy))
                 = Number.of_Z (sum_Z (map n data))).
  { destruct (aggregate_groups Date n 0%Z Z.add Z.div Z.of_nat data groupBy) as [HkeysZ HtotalsZ].
    pose proof (aggregate_sum_exact Date n 0%Z Z.add Z.div Z.of_nat
                  Z.add_assoc Z.add_comm Z.add_0_l data groupBy) as HsumZ.
    set (exact := aggregateData_over Date n 0%Z Z.add Z.div Z.of_nat data groupBy) in *.
    fold (sum_Z (map total_demand exact)) in HsumZ. fold (sum_Z (map n data)) in HsumZ.
    assert (HtotalZ : map total_demand exact
                      = map (fun k => sum_Z (map n (group Date groupBy k data))) (map period exact)).
    { apply (map_of_Forall total_demand _ period).
      eapply Forall_impl; [exact HtotalsZ|]. intros p [Hp _]. exact Hp. }
    rewrite (map_of_Forall total_demand
               (fun k => Number.of_Z (sum_Z (map n (group Date groupBy k data)))) period _ Hexact).
    rewrite Hkeys, <- HkeysZ.
    rewrite <- (map_map (fun k => sum_Z (map n (group Date groupBy k data))) Number.of_Z).
    rewrite <- HtotalZ, sum_numbers_of_Z; [rewrite HsumZ; reflexivity| |rewrite HsumZ; exact Hbound].
    rewrite HtotalZ. apply Forall_forall. intros z Hz.
    apply list_elem_of_In, in_map_iff in Hz as [k [<- _]].
    apply (sum_Z_filter_le n (fun r => bool_decide (period_key groupBy (Date r) = k)) data Hnonneg). }
  split; [exact Hsum|].
  rewrite Hsum, (map_of_naturals Forecasted_Demand n) by (intros r Hr; apply Hnat, Hr).
  symmetry. apply sum_numbers_of_Z; [|exact Hbound].
  apply Forall_forall. intros z Hz. apply list_elem_of_In, in_map_iff in Hz as [r [<- Hr]].
  apply Hnat, Hr.
Qed.

(** Two forecasts of five units: the monthly totals add up to ten. *)
Lemma aggregate_naturals_witness :
  sum_numbers (map total_demand (aggregateData two_fives "monthly")) = Number.of_Z 10.
Proof.
  apply (proj1 (proj2 (aggregate_naturals (fun _ => 5%Z) two_fives "monthly"
                         ltac:(intros r [<- | [<- | []]]; (split; [vm_compute; reflexivity | lia]))
                         ltac:(vm_compute; reflexivity)))).
Defined.

(** The three sales of Pune, counted one each. *)
Lemma totals_by_naturals_witness :
  Number.of_Z 3
  = Number.of_Z
      (sum_Z (map (fun _ => 1%Z)
                (filed_under (fun item : Row => item !! "Customer City") "Pune" pune_sales))).
Proof.
  assert (Hplain : plain_keys (fun item : Row => item !! "Customer City") pune_sales = true)
    by (vm_compute; reflexivity).
  apply (proj2 (proj2 (totals_by_naturals (fun item : Row => item !! "Customer City")
                         (fun _ => Number.of_Z 1) (fun _ => 1%Z) pune_sales
                         Hplain
                         ltac:(intros item _; split; [reflexivity | lia])
                         ltac:(vm_compute; reflexivity)))
           "Pune" (Number.of_Z 3)).
  vm_compute. left. reflexivity.
Defined.

(** The sale of 5 is lost to the total of the city: it is 7. *)
Lemma unreadable_amount_restarts_total_witness :
  In ("Pune", Number.of_Z 7) (totals_by (fun item : Row => item !! "Customer City") sales_of pune_sales)
  /\ fold_left (add_to_slot sales_of) [row [("Customer City", "Pune"); ("Sales", "7")]] None
     = Some (Number.of_Z 7).
Proof.
  assert (Hin : In ("Pune", Number.of_Z 7)
                  (totals_by (fun item : Row => item !! "Customer City") sales_of pune_sales))
    by (vm_compute; left; reflexivity).
  assert (Hplain : plain_keys (fun item : Row => item !! "Customer City") pune_sales = true)
    by (vm_compute; reflexivity).
  split; [exact Hin|].
  apply (unreadable_amount_restarts_total (fun item : Row => item !! "Customer City") sales_of
           pune_sales
           [row [("Customer City", "Pune"); ("Sales", "5")]]
           [row [("Customer City", "Pune"); ("Sales", "7")]]
           (row [("Customer City", "Pune"); ("Sales", "n/a")])
           "Pune" (Number.of_Z 7) Hplain Hin).
  - vm_compute. reflexivity.
  - vm_compute. reflexivity.
  - discriminate.
Defined.

(** ** NaN in the sums that do not restart *)

Lemma fold_add_NaN (l : list number) : fold_left Number.add l Number.NaN = Number.NaN.
Proof. induction l as [|x l IH]; [reflexivity|]. cbn [fold_left]. rewrite NaN_add. exact IH. Qed.

Lemma fold_add_with_NaN (l : list number) (a : number) :
  In Number.NaN l -> fold_left Number.add l a = Number.NaN.
Proof.
  revert a. induction l as [|x l IH]; intros a Hin; [contradiction|].
  cbn [fold_left]. destruct Hin as [-> | Hin].
  - rewrite add_NaN. apply fold_add_NaN.
  - apply IH, Hin.
Qed.

(** X11: a demand that is NaN makes the total of its bucket NaN.  For every
    record whose [Forecasted_Demand] is NaN, the bucket of the record's
    period has NaN as [total_demand] and as [average_demand]; both are sent
    as [null]. *)
Theorem unreadable_demand_nulls_bucket (data : list ForecastRow) (groupBy : string) (r : ForecastRow) :
  In r data ->
  Forecasted_Demand r = Number.NaN ->
  exists p,
    In p (aggregateData data groupBy)
    /\ period p = period_key groupBy (Date r)
    /\ total_demand p = Number.NaN
    /\ average_demand p = Number.NaN
    /\ period_json p
       = JObj [("period", JStr (period p)); ("total_demand", JNull); ("average_demand", JNull)].
Proof.
  intros Hr Hnan.
  destruct (aggregate_groups Date Forecasted_Demand Number.zero Number.add Number.div
              Number.of_nat data groupBy) as [Hkeys Htotals].
  fold (aggregateData data groupBy) in Hkeys, Htotals.
  assert (Hkey : In (period_key groupBy (Date r)) (map period (aggregateData data groupBy))).
  { rewrite Hkeys. apply list_elem_of_In, first_seen_elem, list_elem_of_In.
    apply (in_map (fun r => period_key groupBy (Date r))). exact Hr. }
  apply in_map_iff in Hkey as [p [Hperiod Hp]].
  rewrite Forall_forall in Htotals.
  destruct (Htotals p (proj2 (list_elem_of_In _ _) Hp)) as [Htotal Haverage].
  assert (Hsum : total_demand p = Number.NaN).
  { rewrite Htotal. unfold sum_with. apply fold_add_with_NaN.
    rewrite <- Hnan. apply in_map. apply filter_In. split; [exact Hr|].
    apply bool_decide_eq_true_2. symmetry. exact Hperiod. }
  assert (Havg : average_demand p = Number.NaN) by (rewrite Haverage, Hsum; reflexivity).
  exists p. repeat split; try assumption.
  unfold period_json. rewrite Hsum, Havg. reflexivity.
Qed.

(** X12: [loadData] reads the demand without a default.  A line that lacks
    the [Forecasted_Demand] cell or has it empty is kept with the demand
    NaN, where the coercion of the KPI routes, [parseFloat(v || 0)], yields
    0 for the same cell; so is a line whose cell begins with an ASCII
    character from which no numeral can start. *)
Theorem load_forecast_row_demand (new_Date : option string -> Calendar.JsDate) (line : Row) :
  (line !! "Forecasted_Demand" = None \/ line !! "Forecasted_Demand" = Some "" ->
   Forecasted_Demand (load_forecast_row new_Date line) = Number.NaN
   /\ float_or_zero (line !! "Forecasted_Demand") = Number.zero)
  /\ (forall c rest, line !! "Forecasted_Demand" = Some (String c rest) ->
      begins_no_numeral c = true ->
      Forecasted_Demand (load_forecast_row new_Date line) = Number.NaN).
Proof.
  unfold load_forecast_row. cbn [Forecasted_Demand]. split.
  - intros [-> | ->]; split; reflexivity.
  - intros c rest -> Hc. apply (no_numeral_is_NaN c rest Hc).
Qed.

Lemma sum_column_NaN (read : option string -> number) (column : string) (data : list Row) (item : Row) :
  In item data -> read (item !! column) = Number.NaN -> sum_column read column data = Number.NaN.
Proof.
  intros Hin Hnan. unfold sum_column.
  rewrite <- (fold_left_map Number.add (fun item : Row => read (item !! column))).
  apply fold_add_with_NaN. rewrite <- Hnan.
  apply (in_map (fun item : Row => read (item !! column))). exact Hin.
Qed.

(** X13: in [GET /api/sales/kpis] one amount that is no number makes the total
    unknown.  When the [Sales] cell of a row reads as NaN, the route sends
    [total_sales: null]. *)
Theorem unreadable_sale_nulls_total (salesData : list Row) (item : Row) :
  In item salesData ->
  float_or_zero (item !! "Sales") = Number.NaN ->
  exists orders discount late,
    sales_kpis salesData
    = Normal (json 200 (JObj [("total_orders", orders); ("total_sales", JNull);
                              ("avg_discount", discount); ("late_deliveries", late)])).
Proof.
  intros Hin Hnan. unfold sales_kpis.
  destruct salesData as [|first rest]; [contradiction|].
  cbn [length Nat.eqb try_catch].
  rewrite (sum_column_NaN float_or_zero "Sales" (first :: rest) item Hin Hnan).
  do 3 eexists. reflexivity.
Qed.

(** The three sales of Pune: the total of the KPIs is unknown. *)
Lemma unreadable_sale_nulls_total_witness :
  exists orders discount late,
    sales_kpis pune_sales
    = Normal (json 200 (JObj [("total_orders", orders); ("total_sales", JNull);
                              ("avg_discount", discount); ("late_deliveries", late)])).
Proof.
  apply (unreadable_sale_nulls_total pune_sales (row [("Customer City", "Pune"); ("Sales", "n/a")])).
  - right. left. reflexivity.
  - vm_compute. reflexivity.
Defined.

(** A forecast whose demand cell was empty, among the three samples. *)
Lemma unreadable_demand_nulls_bucket_witness :
  exists p,
    In p (aggregateData (forecast_row "3" "Pump C" "" (Calendar.mkDate 2024 2 7) :: three_forecasts)
            "monthly")
    /\ period_json p
       = JObj [("period", JStr (period p)); ("total_demand", JNull); ("average_demand", JNull)].
Proof.
  destruct (unreadable_demand_nulls_bucket
              (forecast_row "3" "Pump C" "" (Calendar.mkDate 2024 2 7) :: three_forecasts)
              "monthly" (forecast_row "3" "Pump C" "" (Calendar.mkDate 2024 2 7)))
    as [p [Hp [_ [_ [_ Hjson]]]]].
  - left. reflexivity.
  - vm_compute. reflexivity.
  - exists p. split; assumption.
Defined.

(** ** Filter of the bullet insights *)

(** X14: [filterInsightsData] keeps, in their order, exactly the rows whose
    [Month], [PRODUCT_CARD_ID] and [PRODUCT_NAME] equal each parameter that
    is present and not empty; filtering what it returned changes nothing,
    and it filters a dataset made of two parts part by part. *)
Theorem filterInsightsData_conjunction (insightsData : list Row) (req : Request) :
  let asked (d : Row) :=
    wanted (query req !! "Month") (d !! "Month")
    && wanted (query req !! "PRODUCT_CARD_ID") (d !! "PRODUCT_CARD_ID")
    && wanted (query req !! "PRODUCT_NAME") (d !! "PRODUCT_NAME") in
  filterInsightsData insightsData req = List.filter asked insightsData
  /\ filterInsightsData (filterInsightsData insightsData req) req = filterInsightsData insightsData req
  /\ forall more,
       filterInsightsData (insightsData ++ more) req
       = filterInsightsData insightsData req ++ filterInsightsData more req.
Proof.
  intros asked.
  assert (Hfilter : forall data, filterInsightsData data req = List.filter asked data).
  { intros data. unfold filterInsightsData, asked, wanted.
    destruct (truthy (query req !! "Month")), (truthy (query req !! "PRODUCT_CARD_ID")),
      (truthy (query req !! "PRODUCT_NAME"));
      rewrite ?filter_twice;
      first [ symmetry; apply filter_all; reflexivity
            | apply List.filter_ext; intros d; simpl;
              rewrite ?andb_true_r, ?andb_assoc; reflexivity ]. }
  split; [apply Hfilter|]. split.
  - rewrite !Hfilter, filter_twice. apply List.filter_ext. intros d. apply andb_diag.
  - intros more. rewrite !Hfilter. apply List.filter_app.
Qed.

(** ** Lookups by identifier *)

(** X15: the two lookups by identifier compare exactly.
    [GET /api/procurement/insight/:sku_id] answers 404 exactly when no row
    has the identifier as its [SKU_ID], letter for letter, and otherwise
    sends the matching rows, never an empty array;
    [GET /api/insights1/:operator_id] answers 200 in both cases, with a
    [message] in place of [insights1] when no row matches. *)
Theorem lookups_by_identifier (procurementData operatorInsightsData : list Row) (id : string) :
  (procurement_insight_handler procurementData id
   = Normal (json 404 (JObj [("message", JStr ("No insight found for SKU " ++ id))]))
   <-> forall item, In item procurementData -> item !! "SKU_ID" <> Some id)
  /\ procurement_insight_handler procurementData id <> Normal (json 200 (JArr []))
  /\ (exists j, operator_insight_handler operatorInsightsData id = Normal (json 200 j))
  /\ (operator_insight_handler operatorInsightsData id
      = Normal (json 200 (JObj [("message", JStr ("No insights found for " ++ id))]))
      <-> forall item, In item operatorInsightsData -> item !! "operator_id" <> Some id).
Proof.
  assert (Hnone : forall (column : string) (data : list Row),
            List.filter (fun item : Row => strict_eq (item !! column) (Some id)) data = []
            <-> forall item, In item data -> item !! column <> Some id).
  { intros column data. split.
    - intros Hnil item Hin Heq.
      assert (Hitem : In item (List.filter (fun item : Row => strict_eq (item !! column) (Some id)) data)).
      { apply filter_In. split; [exact Hin|]. apply bool_decide_eq_true_2, Heq. }
      rewrite Hnil in Hitem. exact Hitem.
    - intros Hall. induction data as [|item data IH]; [reflexivity|].
      simpl. unfold strict_eq at 1.
      rewrite bool_decide_eq_false_2 by (apply Hall; left; reflexivity).
      apply IH. intros other Hother. apply Hall. right. exact Hother. }
  unfold procurement_insight_handler, operator_insight_handler.
  rewrite <- (Hnone "SKU_ID"), <- (Hnone "operator_id").
  destruct (List.filter _ procurementData) as [|p ps];
    destruct (List.filter _ operatorInsightsData) as [|o os]; cbn [length Nat.eqb map];
    repeat split; try discriminate; try (eexists; reflexivity); try reflexivity;
    intros H; discriminate H.
Qed.

(** ** Datasets served as they are *)

Ltac no_such_name H :=
  repeat match goal with
         | |- context [String.eqb ?known ?name] =>
             destruct (String.eqb_spec known name) as [<- | _];
             [exfalso; apply H; repeat first [left; reflexivity | right] |]
         end.

(** X16: [GET /api/inventory/:dataset] and [GET /api/insights/:period] serve
    each known name with the rows of its own dataset, whatever it holds (an
    empty dataset as [[]]); 400 is the answer to an unknown name only (here:
    one that is no property of [Object.prototype]). *)
Theorem datasets_served_as_loaded (store : Store) (name : string) :
  let dump (rows : list Row) := Some (Normal (json 200 (JArr (map JRow rows)))) in
  (inventory_dataset_handler store "stock_levels" = dump (stockData store)
   /\ inventory_dataset_handler store "alerts" = dump (alertData store)
   /\ inventory_dataset_handler store "bom" = dump (bomData store)
   /\ inventory_dataset_handler store "mrp_plan" = dump (mrpData store)
   /\ inventory_dataset_handler store "production_orders" = dump (productionOrdersData store)
   /\ inventory_dataset_handler store "schedule" = dump (scheduleData store)
   /\ inventory_dataset_handler store "station_schedule" = dump (stationScheduleData store))
  /\ (insights_period_handler store "monthly" = dump (monthlyInsightsData store)
      /\ insights_period_handler store "quarterly" = dump (quarterlyInsightsData store)
      /\ insights_period_handler store "yearly" = dump (yearlyInsightsData store))
  /\ (inherited name = false ->
      (~ In name inventory_datasets ->
       inventory_dataset_handler store name
       = Some (Normal (error_json 400 ("Invalid dataset '" ++ name ++ "'"))))
      /\ (~ In name insight_periods ->
          insights_period_handler store name
          = Some (Normal (error_json 400 ("Invalid period '" ++ name ++ "'"))))).
Proof.
  intros dump. split; [|split].
  - repeat split; reflexivity.
  - repeat split; reflexivity.
  - intros Hplain. split; intros Hunknown.
    + unfold inventory_dataset_handler, file_map. rewrite Hplain.
      cbn [mbind option_bind List.find fst snd]. unfold inventory_datasets in Hunknown.
      no_such_name Hunknown. reflexivity.
    + unfold insights_period_handler, file_map. rewrite Hplain.
      cbn [mbind option_bind List.find fst snd]. unfold insight_periods in Hunknown.
      no_such_name Hunknown. reflexivity.
Qed.

(** ** Schedule *)

(** X17: the three schedule routes answer 500 exactly when the station
    schedule is empty; otherwise [GET /api/schedule] sends one object per
    row. *)
Theorem schedule_routes_need_rows (stationScheduleData : list Row) :
  (schedule_handler stationScheduleData
   = Normal (error_json 500 "Schedule file not found or corrupted")
   <-> stationScheduleData = [])
  /\ (schedule_chart_handler stationScheduleData = Some (Normal (error_json 500 "Chart data failed"))
      <-> stationScheduleData = [])
  /\ (operator_workload_handler stationScheduleData
      = Some (Normal (error_json 500 "Workload data failed"))
      <-> stationScheduleData = [])
  /\ (stationScheduleData <> [] ->
      exists objects,
        schedule_handler stationScheduleData = Normal (json 200 (JArr objects))
        /\ length objects = length stationScheduleData).
Proof.
  unfold schedule_chart_handler, operator_workload_handler, schedule_totals_handler, schedule_handler.
  destruct stationScheduleData as [|item rest]; cbn [length Nat.eqb].
  - repeat split; try reflexivity. intros Hne. contradiction.
  - split; [split; intros H; discriminate H|].
    split; [split; [destruct (plain_keys _ _); intros H; discriminate H | intros H; discriminate H]|].
    split; [split; [destruct (plain_keys _ _); intros H; discriminate H | intros H; discriminate H]|].
    intros _. eexists. split; [reflexivity|]. rewrite length_map. reflexivity.
Qed.

(** ** Drop-down lists *)

Lemma before_trans (a b c : string) : before a b -> before b c -> before a c.
Proof.
  unfold before. intros Hab Hbc.
  apply OrderedTypeEx.String_as_OT.cmp_lt.
  apply OrderedTypeEx.String_as_OT.cmp_lt in Hab, Hbc.
  exact (OrderedTypeEx.String_as_OT.lt_trans _ _ _ Hab Hbc).
Qed.

Lemma after_before (a b : string) : String.compare a b = Gt -> before b a.
Proof.
  unfold before. intros Hgt. rewrite String.compare_antisym, Hgt. reflexivity.
Qed.

Lemma insert_before (x : string) (sorted : list string) :
  ~ In x sorted ->
  StronglySorted before sorted ->
  StronglySorted before (sort_insert code_unit_order x sorted).
Proof.
  intros Hfresh Hsorted. induction Hsorted as [|y rest Hrest IH Hy]; simpl.
  - repeat constructor.
  - destruct (String.compare x y) eqn:Hcmp; simpl.
    + apply String.compare_eq_iff in Hcmp. subst y. exfalso. apply Hfresh. left. reflexivity.
    + constructor; [constructor; assumption|].
      constructor; [exact Hcmp|].
      eapply Forall_impl; [exact Hy|]. intros z Hz. exact (before_trans x y z Hcmp Hz).
    + constructor.
      * apply IH. intros Hin. apply Hfresh. right. exact Hin.
      * rewrite sort_insert_perm. constructor; [apply after_before, Hcmp | exact Hy].
Qed.

Lemma sort_distinct_before (l : list string) :
  NoDup l -> StronglySorted before (array_sort code_unit_order l).
Proof.
  induction 1 as [|x l Hx Hl IH]; simpl; [constructor|].
  apply insert_before; [|exact IH].
  intros Hin. apply Hx, list_elem_of_In.
  eapply Permutation_in; [apply array_sort_perm | exact Hin].
Qed.

(** X18: the lists of [GET /api/operators/dropdown] and
    [GET /api/suppliers/list].  The values sent stand in strictly ascending
    order of their code units, so none is sent twice; they are exactly the
    values of the column that are not empty. *)
Theorem sorted_distinct_listing (column : string) (data : list Row) :
  StronglySorted before (sorted_distinct column data)
  /\ NoDup (sorted_distinct column data)
  /\ forall s, In s (sorted_distinct column data)
               <-> s <> "" /\ exists item, In item data /\ item !! column = Some s.
Proof.
  unfold sorted_distinct.
  set (values := map (fun item : Row => to_string (item !! column))
                   (List.filter (fun item : Row => truthy (item !! column)) data)).
  split; [apply sort_distinct_before, first_seen_NoDup|].
  split.
  { rewrite array_sort_perm. apply first_seen_NoDup. }
  intros s.
  assert (Hsame : In s (array_sort code_unit_order (first_seen values)) <-> In s values).
  { rewrite <- !list_elem_of_In, array_sort_perm. apply first_seen_elem. }
  rewrite Hsame. unfold values. rewrite in_map_iff. split.
  - intros [item [Hvalue Hitem]]. apply filter_In in Hitem as [Hitem Htruthy].
    destruct (item !! column) as [v|] eqn:Hv; [|discriminate Htruthy].
    simpl in Hvalue, Htruthy. subst v. split.
    + intros ->. discriminate Htruthy.
    + exists item. split; [exact Hitem | exact Hv].
  - intros [Hs [item [Hitem Hv]]]. exists item. rewrite Hv. split; [reflexivity|].
    apply filter_In. split; [exact Hitem|]. rewrite Hv. simpl.
    apply negb_true_iff, String.eqb_neq, Hs.
Qed.

(** ** Start-up: more *)

Section StartupRuns.
Variable Date_parse : string -> option Z.
Variable disk : Store.

(** X19: a failed load is the last event.  In every run in which a load
    fails, the process exits with status 1 at that event and nothing happens
    after it: no request is answered any more. *)
Theorem failed_load_is_final
  (phase final : Startup.Phase) (events rest : list Startup.Event) (d : Startup.Dataset)
  (replies : list Reply) :
  Startup.run Date_parse disk phase (events ++ Startup.LoadError d :: rest) = Some (final, replies) ->
  rest = [] /\ final = Startup.Exited 1.
Proof.
  revert phase replies. induction events as [|ev events IH]; intros phase replies Hrun.
  - cbn [app Startup.run] in Hrun.
    destruct phase as [|done|code]; try discriminate Hrun.
    cbn [Startup.step] in Hrun. destruct (bool_decide (d ∈ done)); [discriminate Hrun|].
    destruct rest as [|ev rest].
    + cbn [Startup.run] in Hrun. injection Hrun as <- _. split; reflexivity.
    + cbn [Startup.run] in Hrun. rewrite exited_serves_nothing in Hrun. discriminate Hrun.
  - cbn [app Startup.run] in Hrun.
    destruct (Startup.step Date_parse disk phase ev) as [[phase' out]|]; [|discriminate Hrun].
    destruct (Startup.run Date_parse disk phase' (events ++ Startup.LoadError d :: rest))
      as [[final' replies']|] eqn:Hrest; [|discriminate Hrun].
    injection Hrun as <- _. exact (IH phase' replies' Hrest).
Qed.

End StartupRuns.

(** A load that fails after the server began to listen. *)
Lemma failed_load_is_final_witness :
  Startup.run iso_date_parse sample_disk Startup.Booting
    ([Startup.Listen] ++ Startup.LoadError Startup.Forecast :: [])
  = Some (Startup.Exited 1, [])
  /\ @nil Startup.Event = [] /\ Startup.Exited 1 = Startup.Exited 1.
Proof.
  split; [reflexivity|].
  apply (failed_load_is_final iso_date_parse sample_disk Startup.Booting (Startup.Exited 1)
           [Startup.Listen] [] Startup.Forecast []).
  reflexivity.
Defined.


(** ** Attendance: entries of the same date *)

Section AttendanceOrder.
Variable Date_parse : string -> option Z.

Lemma insert_keeps_same_date (t : option Z) (x : AttendanceEntry) (sorted : list AttendanceEntry) :
  List.filter (dated_at Date_parse t) (sort_insert (by_date Date_parse) x sorted)
  = List.filter (dated_at Date_parse t) (x :: sorted).
Proof.
  induction sorted as [|y rest IH]; [reflexivity|].
  cbn [sort_insert]. unfold by_date at 1.
  destruct (time_value Date_parse (date x)) as [tx|] eqn:Hx;
    destruct (time_value Date_parse (date y)) as [ty|] eqn:Hy; cbn [from_option id]; try reflexivity.
  destruct (0 <? tx - ty)%Z eqn:Hcmp; [|reflexivity].
  apply Z.ltb_lt in Hcmp.
  assert (Hpx : dated_at Date_parse t x = bool_decide (Some tx = t))
    by (unfold dated_at; rewrite Hx; reflexivity).
  assert (Hpy : dated_at Date_parse t y = bool_decide (Some ty = t))
    by (unfold dated_at; rewrite Hy; reflexivity).
  cbn [List.filter] in *. rewrite IH, Hpx, Hpy.
  destruct (bool_decide (Some ty = t)) eqn:Hty; [|reflexivity].
  apply bool_decide_eq_true_1 in Hty. subst t.
  rewrite bool_decide_eq_false_2 by (intros [= Heq]; lia). reflexivity.
Qed.

(** X21: the sort of the attendance routes is stable.  When the [Date] of
    every row parses, the entries that have the same date (the same time
    value) are sent in the order in which their rows stand in the dataset. *)
Theorem attendance_sort_stable (attendanceData : list Row) (t : Z) :
  Forall (fun item : Row => is_Some (time_value Date_parse (item !! "Date"))) attendanceData ->
  exists entries,
    attendance_handler Date_parse attendanceData
    = Normal (json 200 (JArr (map attendance_json entries)))
    /\ List.filter (dated_at Date_parse (Some t)) entries
       = List.filter (dated_at Date_parse (Some t)) (map attendance_entry attendanceData).
Proof.
  intros _.
  exists (array_sort (by_date Date_parse) (map attendance_entry attendanceData)).
  split; [reflexivity|].
  induction (map attendance_entry attendanceData) as [|x l IH]; [reflexivity|].
  cbn [array_sort foldr]. fold (array_sort (by_date Date_parse) l).
  rewrite insert_keeps_same_date. cbn [List.filter]. rewrite IH. reflexivity.
Qed.

End AttendanceOrder.

(** Two operators on the second of January, listed before a row of the
    first: they are sent after it, the one listed first before the other. *)
Lemma attendance_sort_stable_witness :
  exists entries,
    attendance_handler iso_date_parse
      [row [("Date", "2018-01-02"); ("Operator_ID", "O1")];
       row [("Date", "2018-01-02"); ("Operator_ID", "O2")];
       row [("Date", "2018-01-01"); ("Operator_ID", "O3")]]
    = Normal (json 200 (JArr (map attendance_json entries)))
    /\ map operator_id (List.filter (dated_at iso_date_parse (Some 1514851200000%Z)) entries)
       = [Some "O1"; Some "O2"].
Proof.
  destruct (attendance_sort_stable iso_date_parse
              [row [("Date", "2018-01-02"); ("Operator_ID", "O1")];
               row [("Date", "2018-01-02"); ("Operator_ID", "O2")];
               row [("Date", "2018-01-01"); ("Operator_ID", "O3")]]
              1514851200000%Z)
    as [entries [Hsent Hsame]].
  - repeat constructor; vm_compute; eexists; reflexivity.
  - exists entries. split; [exact Hsent|]. rewrite Hsame. vm_compute. reflexivity.
Defined.

(** ** Paths that no route matches *)

(** X22: the final middleware.  A request whose path does not begin with
    [api] (whatever the case of the letters) and is not [/], or whose path is
    [/api] alone, matches no route; it is answered 404 with a text that
    repeats the URL as it was received. *)
Theorem unknown_path_404
  (Date_parse : string -> option Z) (store : Store) (req : Request) (first : string) (rest : list string) :
  path req = first :: rest ->
  JsString.toLowerCase first <> "api" \/ rest = [] ->
  serve Date_parse store req
  = Sent {| status := 404;
            body := TextBody ("Sorry, can't find that! The requested URL was: " ++ originalUrl req) |}.
Proof.
  intros Hpath Hcase.
  assert (Hnone : Router.dispatch req = None).
  { unfold Router.dispatch, Router.routing_table, Router.api. rewrite Hpath.
    destruct Hcase as [Hfirst | ->].
    - assert (Hneq : String.eqb (JsString.toLowerCase "api") (JsString.toLowerCase first) = false).
      { apply String.eqb_neq. intros Heq. apply Hfirst. symmetry. exact Heq. }
      cbn [Router.first_match Router.match_path]. rewrite Hneq. reflexivity.
    - cbn [Router.first_match Router.match_path].
      destruct (String.eqb _ (JsString.toLowerCase first)); reflexivity. }
  unfold serve, respond. rewrite Hnone. reflexivity.
Qed.

(** A path outside [/api], with a query string. *)
Lemma unknown_path_404_witness :
  serve iso_date_parse sample_disk (get "/health?probe=1" ["health"] [("probe", "1")])
  = Sent {| status := 404;
            body := TextBody "Sorry, can't find that! The requested URL was: /health?probe=1" |}.
Proof.
  apply (unknown_path_404 iso_date_parse sample_disk
           (get "/health?probe=1" ["health"] [("probe", "1")]) "health" []).
  - reflexivity.
  - left. discriminate.
Defined.

(** ** The lists cut to the highest totals *)

Lemma top_entries (n : nat) (key_of : Row -> option string) (amount_of : Row -> number) (data : list Row) :
  let entries := take n (sort_descending (own_entries (totals_by key_of amount_of data))) in
  length entries = Nat.min n (length (first_seen (map (fun item => to_string (key_of item)) data)))
  /\ NoDup (map fst entries)
  /\ forall k v, In (k, v) entries ->
       fold_left (add_to_slot amount_of) (filed_under key_of k data) None = Some v.
Proof.
  intros entries.
  assert (Hperm : Permutation (sort_descending (own_entries (totals_by key_of amount_of data)))
                    (totals_by key_of amount_of data)).
  { unfold sort_descending. rewrite array_sort_perm. apply own_entries_perm. }
  split; [|split].
  - unfold entries. rewrite length_take, Hperm, <- (totals_by_keys key_of amount_of), length_map. reflexivity.
  - unfold entries. change (map fst) with (fmap (M := list) (@fst string number)).
    rewrite fmap_take. eapply sublist_NoDup; [|apply sublist_take].
    rewrite Hperm. change (fmap fst) with (map (@fst string number)).
    rewrite totals_by_keys. apply first_seen_NoDup.
  - intros k v Hin. apply totals_by_slot.
    eapply Permutation_in; [exact Hperm|].
    apply list_elem_of_In. eapply elem_of_sublist; [|apply sublist_take].
    apply list_elem_of_In. exact Hin.
Qed.

(** X23: [GET /api/sales/city-sales] and [GET /api/sales/top-products].  On
    sales data that is not empty (no city or product named as a property of
    [Object.prototype]) the first sends ten cities, or every city when there
    are fewer than ten, the second five products or every product; no city
    or product is sent twice, and the amount beside it is the total that the
    reducer holds for it. *)
Theorem top_lists (salesData : list Row) :
  salesData <> [] ->
  (plain_keys (fun item : Row => item !! "Customer City") salesData = true ->
   exists entries,
     sales_metric_handler salesData "city-sales"
     = Some (Normal (json 200 (columns_json "cities" "sales" entries)))
     /\ length entries
        = Nat.min 10 (length (first_seen (map (fun item : Row => to_string (item !! "Customer City"))
                                            salesData)))
     /\ NoDup (map fst entries)
     /\ forall k v, In (k, v) entries ->
          fold_left (add_to_slot sales_of)
            (filed_under (fun item : Row => item !! "Customer City") k salesData) None
          = Some v)
  /\ (plain_keys (fun item : Row => item !! "Product Name") salesData = true ->
      exists entries,
        sales_metric_handler salesData "top-products"
        = Some (Normal (json 200 (columns_json "products" "sales" entries)))
        /\ length entries
           = Nat.min 5 (length (first_seen (map (fun item : Row => to_string (item !! "Product Name"))
                                              salesData)))
        /\ NoDup (map fst entries)
        /\ forall k v, In (k, v) entries ->
             fold_left (add_to_slot sales_of)
               (filed_under (fun item : Row => item !! "Product Name") k salesData) None
             = Some v).
Proof.
  intros Hne. destruct salesData as [|item rest]; [contradiction|].
  split; intros Hplain; eexists;
    (split; [unfold sales_metric_handler; rewrite Hplain; reflexivity | apply top_entries]).
Qed.

(** The three sales of Pune make one city. *)
Lemma top_lists_witness :
  exists entries,
    sales_metric_handler pune_sales "city-sales"
    = Some (Normal (json 200 (columns_json "cities" "sales" entries)))
    /\ length entries = 1.
Proof.
  destruct (proj1 (top_lists pune_sales ltac:(discriminate)) ltac:(vm_compute; reflexivity))
    as [entries [Hsent [Hlength _]]].
  exists entries. split; [exact Hsent|]. rewrite Hlength. vm_compute. reflexivity.
Defined.

(** ** The keys of the period aggregator as property names *)

Lemma occurs_in_middle (c : ascii) (a tail : string) : occurs c (a ++ String c tail) = true.
Proof.
  induction a as [|h a IH]; simpl.
  - rewrite Ascii.eqb_refl. reflexivity.
  - rewrite IH. apply orb_true_r.
Qed.

Lemma hyphen_not_inherited (key : string) : occurs "-" key = true -> inherited key = false.
Proof.
  intros Hkey. unfold inherited. apply bool_decide_eq_false_2. unfold inherited_names.
  rewrite !elem_of_cons, elem_of_nil. intros Hin.
  repeat (destruct Hin as [-> | Hin]; [vm_compute in Hkey; discriminate Hkey|]).
  exact Hin.
Qed.

Lemma digits_stop (c : ascii) (a tail : string) (v n : Z) :
  Number.digit_value 10 c = None ->
  snd (Number.read_digits 10 (a ++ String c tail) v n) <> "".
Proof.
  intros Hc. revert v n. induction a as [|h a IH]; intros v n; simpl.
  - rewrite Hc. discriminate.
  - destruct (Number.digit_value 10 h); [apply IH | discriminate].
Qed.

Lemma hyphen_no_index (a tail : string) : array_index (a ++ String "-" tail) = None.
Proof.
  unfold array_index.
  pose proof (digits_stop "-" a tail 0 0 eq_refl) as Hrest.
  destruct (Number.read_digits 10 (a ++ String "-" tail) 0 0) as [[v n] rest].
  simpl in Hrest. apply String.eqb_neq in Hrest. rewrite Hrest. reflexivity.
Qed.

Lemma period_key_shape (groupBy : string) (d : Calendar.JsDate) :
  period_key groupBy d = "undefined" \/ exists a tail : string, period_key groupBy d = (a ++ String "-" tail)%string.
Proof.
  unfold period_key.
  destruct (String.eqb groupBy "weekly"); [right; eexists; eexists; reflexivity|].
  destruct (String.eqb groupBy "monthly"); [right; eexists; eexists; reflexivity|].
  destruct (String.eqb groupBy "quarterly"); [right; eexists; eexists; reflexivity|].
  left. reflexivity.
Qed.

(** X24: the keys of the period aggregator are plain property names.  No
    period key is an array index or the name of a property of
    [Object.prototype]; so the test [!acc[key]] finds only what the reducer
    has set, and [Object.entries] lists the buckets in the order in which
    their keys first occur. *)
Theorem period_keys_are_plain (groupBy : string) (d : Calendar.JsDate) (data : list ForecastRow) :
  array_index (period_key groupBy d) = None
  /\ inherited (period_key groupBy d) = false
  /\ own_entries (aggregated Date Forecasted_Demand Number.zero Number.add data groupBy)
     = aggregated Date Forecasted_Demand Number.zero Number.add data groupBy.
Proof.
  assert (Hindex : forall d', array_index (period_key groupBy d') = None).
  { intros d'. destruct (period_key_shape groupBy d') as [-> | [a [tail ->]]];
      [reflexivity | apply hyphen_no_index]. }
  split; [apply Hindex|]. split.
  - destruct (period_key_shape groupBy d) as [-> | [a [tail ->]]]; [reflexivity|].
    apply hyphen_not_inherited, occurs_in_middle.
  - apply own_entries_plain. apply Forall_forall. intros [k t] Hin. simpl.
    assert (Hk : k ∈ map fst (aggregated Date Forecasted_Demand Number.zero Number.add data groupBy)).
    { apply list_elem_of_In, in_map_iff. exists (k, t). split; [reflexivity|].
      apply list_elem_of_In, Hin. }
    rewrite aggregated_collect, collect_keys in Hk.
    apply first_seen_elem, list_elem_of_In, in_map_iff in Hk as [r [<- _]].
    apply Hindex.
Qed.

(** ** Alert counts per supplier *)

Section Partition.
Context {A : Type}.
Variable key : A -> string.

Lemma count_outside (l : list A) :
  length (List.filter (fun x => bool_decide (key x ∈ @nil string)) l) = 0.
Proof.
  induction l as [|x l IH]; [reflexivity|]. cbn [List.filter].
  destruct (bool_decide (key x ∈ [])) eqn:Hin; [|exact IH].
  apply bool_decide_eq_true_1 in Hin. inversion Hin.
Qed.

Lemma count_one_more (k : string) (ks : list string) (l : list A) :
  k ∉ ks ->
  length (List.filter (fun x => bool_decide (key x = k)) l)
  + length (List.filter (fun x => bool_decide (key x ∈ ks)) l)
  = length (List.filter (fun x => bool_decide (key x ∈ k :: ks)) l).
Proof.
  intros Hk. induction l as [|x l IH]; [reflexivity|]. simpl.
  destruct (decide (key x = k)) as [Heq | Hne].
  - rewrite (bool_decide_eq_true_2 (key x = k)) by exact Heq.
    rewrite (bool_decide_eq_false_2 (key x ∈ ks)) by (rewrite Heq; exact Hk).
    rewrite (bool_decide_eq_true_2 (key x ∈ k :: ks)) by (rewrite Heq; left).
    simpl. rewrite <- IH. reflexivity.
  - rewrite (bool_decide_eq_false_2 (key x = k)) by exact Hne.
    destruct (decide (key x ∈ ks)) as [Hin | Hout].
    + rewrite (bool_decide_eq_true_2 (key x ∈ ks)) by exact Hin.
      rewrite (bool_decide_eq_true_2 (key x ∈ k :: ks)) by (right; exact Hin).
      simpl. rewrite <- IH. lia.
    + rewrite (bool_decide_eq_false_2 (key x ∈ ks)) by exact Hout.
      rewrite (bool_decide_eq_false_2 (key x ∈ k :: ks)).
      * exact IH.
      * intros Hin. apply elem_of_cons in Hin as [Heq | Hin]; contradiction.
Qed.

(** The elements filed under distinct keys that cover the list are the
    elements of the list, each counted once. *)
Lemma count_by_key (ks : list string) (l : list A) :
  NoDup ks ->
  (forall x, In x l -> key x ∈ ks) ->
  list_sum (map (fun k => length (List.filter (fun x => bool_decide (key x = k)) l)) ks)
  = length l.
Proof.
  intros Hks Hcover.
  transitivity (length (List.filter (fun x => bool_decide (key x ∈ ks)) l)).
  - clear Hcover. induction Hks as [|k ks Hk _ IH]; simpl.
    + symmetry. apply count_outside.
    + rewrite IH. apply count_one_more, Hk.
  - f_equal. induction l as [|x l IH]; [reflexivity|]. simpl.
    rewrite bool_decide_eq_true_2 by (apply Hcover; left; reflexivity).
    f_equal. apply IH. intros y Hy. apply Hcover. right. exact Hy.
Qed.

End Partition.

(** The counts that the reducer of the supplier alerts holds. *)
Lemma supplier_alerts_counts (stockData alertData scheduleData : list Row) :
  (Z.of_nat (length alertData) < 2 ^ 53)%Z ->
  exists counts : list (string * nat),
    supplier_alerts alertData = map (fun entry => (fst entry, Number.of_nat (snd entry))) counts
    /\ Forall (fun entry => 0 < snd entry) counts
    /\ below_reorder_point (inventory_snapshot stockData alertData scheduleData)
       = Number.of_nat (list_sum (map snd counts)).
Proof.
  intros Hbound.
  set (low := List.filter below_reorder alertData).
  set (supplier := fun item : Row => item !! "Supplier").
  set (totals := totals_by supplier (fun _ => Number.of_Z 1) low).
  assert (Hlow : (Z.of_nat (length low) < 2 ^ 53)%Z).
  { pose proof (List.filter_length_le below_reorder alertData). unfold low. lia. }
  assert (Hentries : forall k v, In (k, v) (own_entries totals) -> In (k, v) totals).
  { intros k v Hin. eapply Permutation_in; [apply own_entries_perm | exact Hin]. }
  exists (map (fun entry => (fst entry, length (filed_under supplier (fst entry) low)))
            (own_entries totals)).
  split; [|split].
  - unfold supplier_alerts. fold low supplier totals. rewrite map_map. simpl.
    rewrite <- (map_id (own_entries totals)) at 1. apply map_ext_in.
    intros [k v] Hin. simpl. f_equal.
    apply (totals_by_count supplier low k v Hlow), Hentries, Hin.
  - apply Forall_forall. intros entry Hentry.
    apply list_elem_of_In, in_map_iff in Hentry as [[k v] [<- Hin]]. simpl.
    pose proof (totals_by_inhabited _ _ _ _ _ (Hentries k v Hin)) as Hne.
    destruct (filed_under supplier k low); [contradiction | simpl; lia].
  - cbn [below_reorder_point inventory_snapshot]. fold low. f_equal.
    rewrite map_map. cbn [snd fst].
    rewrite <- (map_map fst (fun k => length (filed_under supplier k low))).
    rewrite (Permutation_map fst (own_entries_perm totals)).
    unfold totals. rewrite totals_by_keys. symmetry.
    apply (count_by_key (fun item => to_string (supplier item))).
    + apply first_seen_NoDup.
    + intros item Hitem. apply first_seen_elem, list_elem_of_In.
      apply (in_map (fun item => to_string (supplier item))). exact Hitem.
Qed.

(** X25: the alert counts of [GET /api/inventory/suppliers] add up to the
    [below_reorder_point] of [GET /api/inventory/kpis].  When no supplier of
    an alert row below its reorder point is named as a property of
    [Object.prototype] (and there are fewer than 2^53 alert rows), every
    supplier that the route lists has at least one alert, and the counts it
    lists add up to the number of alert rows whose [Available] is below
    their [Reorder_Point], which is what the KPI route sends. *)
Theorem supplier_alerts_add_up (stockData alertData scheduleData : list Row) :
  plain_keys (fun item : Row => item !! "Supplier") (List.filter below_reorder alertData) = true ->
  (Z.of_nat (length alertData) < 2 ^ 53)%Z ->
  exists counts : list (string * nat),
    inventory_suppliers_handler alertData
    = Some (Normal (json 200 (JArr (map
        (fun entry => JObj [("Supplier", JStr (fst entry));
                            ("Alert_Count", json_number (Number.of_nat (snd entry)))])
        counts))))
    /\ Forall (fun entry => 0 < snd entry) counts
    /\ below_reorder_point (inventory_snapshot stockData alertData scheduleData)
       = Number.of_nat (list_sum (map snd counts)).
Proof.
  intros Hplain Hbound.
  destruct (supplier_alerts_counts stockData alertData scheduleData Hbound)
    as [counts [Hsent [Hpositive Hsum]]].
  exists counts. split; [|split; assumption].
  unfold inventory_suppliers_handler. rewrite Hplain, Hsent, map_map. reflexivity.
Qed.

(** Two alert rows of one supplier below their reorder point, one row above
    it. *)
Lemma supplier_alerts_add_up_witness :
  exists counts : list (string * nat),
    inventory_suppliers_handler
      [row [("Supplier", "Acme"); ("Available", "3"); ("Reorder_Point", "10")];
       row [("Supplier", "Beta"); ("Available", "30"); ("Reorder_Point", "10")];
       row [("Supplier", "Acme"); ("Available", "0"); ("Reorder_Point", "5")]]
    = Some (Normal (json 200 (JArr (map
        (fun entry => JObj [("Supplier", JStr (fst entry));
                            ("Alert_Count", json_number (Number.of_nat (snd entry)))])
        counts))))
    /\ Number.of_nat 2 = Number.of_nat (list_sum (map snd counts)).
Proof.
  destruct (supplier_alerts_add_up []
              [row [("Supplier", "Acme"); ("Available", "3"); ("Reorder_Point", "10")];
               row [("Supplier", "Beta"); ("Available", "30"); ("Reorder_Point", "10")];
               row [("Supplier", "Acme"); ("Available", "0"); ("Reorder_Point", "5")]] [])
    as [counts [Hsent [_ Hsum]]].
  - vm_compute. reflexivity.
  - vm_compute. reflexivity.
  - exists counts. split; [exact Hsent|]. rewrite <- Hsum. vm_compute. reflexivity.
Defined.

(** ** The order of the tests in [GET /api/sales/:metric] *)

(** X26: [GET /api/sales/:metric] tests whether the sales are loaded before it
    looks at the metric.  With no sales rows every metric, known or not, is
    answered 200 with [{error: "Data not loaded"}]; with sales rows a metric
    that is none of the six known ones is answered 400. *)
Theorem sales_metric_order (salesData : list Row) (metric : string) :
  (salesData = [] ->
   sales_metric_handler salesData metric = Some (Normal (error_json 200 "Data not loaded")))
  /\ (salesData <> [] -> ~ In metric sales_metrics ->
      sales_metric_handler salesData metric
      = Some (Normal (error_json 400 ("Invalid metric '" ++ metric ++ "'")))).
Proof.
  split.
  - intros ->. reflexivity.
  - intros Hne Hunknown. destruct salesData as [|item rest]; [contradiction|].
    unfold sales_metric_handler. cbn [length Nat.eqb]. unfold sales_metrics in Hunknown.
    repeat match goal with
           | |- context [String.eqb metric ?known] =>
               destruct (String.eqb_spec metric known) as [-> | _];
               [exfalso; apply Hunknown; repeat first [left; reflexivity | right] |]
           end.
    reflexivity.
Qed.

(** ** Sums of the KPI routes *)

(** X27: the sums of the KPI routes are exact on naturals.  When every cell
    of the column reads as the Number of a natural and the naturals add up
    to less than 2^53, the sum that the KPI routes compute over the column
    is the Number of their sum. *)
Theorem sum_column_naturals
  (read : option string -> number) (column : string) (n : Row -> Z) (data : list Row) :
  (forall item, In item data -> read (item !! column) = Number.of_Z (n item) /\ (0 <= n item)%Z) ->
  (sum_Z (map n data) < 2 ^ 53)%Z ->
  sum_column read column data = Number.of_Z (sum_Z (map n data)).
Proof.
  intros Hnat Hbound. unfold sum_column.
  rewrite <- (fold_left_map Number.add (fun item : Row => read (item !! column))).
  rewrite (map_of_naturals (fun item : Row => read (item !! column)) n)
    by (intros item Hitem; apply Hnat, Hitem).
  apply sum_numbers_of_Z; [|exact Hbound].
  apply Forall_forall. intros z Hz. apply list_elem_of_In, in_map_iff in Hz as [item [<- Hitem]].
  apply Hnat, Hitem.
Qed.

(** Stock of 40 and of 2 units, and a row without the cell. *)
Lemma sum_column_naturals_witness :
  sum_column int_or_zero "Stock_On_Hand"
    [row [("SKU_No", "S1"); ("Stock_On_Hand", "40")]; row [("SKU_No", "S2"); ("Stock_On_Hand", "2")];
     row [("SKU_No", "S3")]]
  = Number.of_Z 42.
Proof.
  rewrite (sum_column_naturals int_or_zero "Stock_On_Hand"
             (fun item : Row => match item !! "Stock_On_Hand" with
                                | Some "40" => 40
                                | Some "2" => 2
                                | _ => 0
                                end%Z)
             [row [("SKU_No", "S1"); ("Stock_On_Hand", "40")];
              row [("SKU_No", "S2"); ("Stock_On_Hand", "2")]; row [("SKU_No", "S3")]]).
  - vm_compute. reflexivity.
  - intros item [<- | [<- | [<- | []]]]; (split; [vm_compute; reflexivity | vm_compute; discriminate]).
  - vm_compute. reflexivity.
Defined.

(** ** The day of the production KPIs *)

(** X28: [GET /api/kpis] reads one fixed day.  Whatever the day of the
    request, [absent_today] counts the attendance rows dated [2018-01-01]
    and [total_units_scheduled] adds the units scheduled on [01-01-2018]:
    with no attendance row of that date and no schedule row of that day both
    are 0, whatever else the datasets hold. *)
Theorem production_kpis_fixed_day (attendanceData stationScheduleData : list Row) :
  (forall item, In item attendanceData -> item !! "Date" <> Some "2018-01-01") ->
  (forall item, In item stationScheduleData -> item !! "scheduled_date" <> Some "01-01-2018") ->
  exists operators products,
    production_kpis attendanceData stationScheduleData
    = Normal (json 200 (JObj [("total_operators", operators);
                              ("absent_today", JNum Number.zero);
                              ("total_units_scheduled", JNum Number.zero);
                              ("unique_products", products)])).
Proof.
  intros Hdates Hdays. unfold production_kpis. cbn [try_catch].
  assert (Habsent : List.filter
            (fun item : Row => strict_eq (item !! "Date") (Some "2018-01-01")
                               && strict_eq (item !! "Present") (Some "No"))
            attendanceData = []).
  { induction attendanceData as [|item rest IH]; [reflexivity|]. simpl.
    unfold strict_eq at 1. rewrite bool_decide_eq_false_2 by (apply Hdates; left; reflexivity).
    simpl. apply IH. intros other Hother. apply Hdates. right. exact Hother. }
  assert (Hunits : List.filter
            (fun item : Row => strict_eq (item !! "scheduled_date") (Some "01-01-2018"))
            stationScheduleData = []).
  { induction stationScheduleData as [|item rest IH]; [reflexivity|]. simpl.
    unfold strict_eq at 1. rewrite bool_decide_eq_false_2 by (apply Hdays; left; reflexivity).
    apply IH. intros other Hother. apply Hdays. right. exact Hother. }
  rewrite Habsent, Hunits. eexists. eexists. reflexivity.
Qed.

(** An absence on the day after. *)
Lemma production_kpis_fixed_day_witness :
  exists operators products,
    production_kpis [row [("Date", "2018-01-02"); ("Operator_ID", "O1"); ("Present", "No")]]
      [row [("scheduled_date", "02-01-2018"); ("unit", "12"); ("product_name", "Pump A")]]
    = Normal (json 200 (JObj [("total_operators", operators);
                              ("absent_today", JNum Number.zero);
                              ("total_units_scheduled", JNum Number.zero);
                              ("unique_products", products)])).
Proof.
  apply (production_kpis_fixed_day
           [row [("Date", "2018-01-02"); ("Operator_ID", "O1"); ("Present", "No")]]
           [row [("scheduled_date", "02-01-2018"); ("unit", "12"); ("product_name", "Pump A")]]).
  - intros item [<- | []]. vm_compute. discriminate.
  - intros item [<- | []]. vm_compute. discriminate.
Defined.


(** ** The forecast routes over HTTP *)

(** X30: the three period routes of the forecasts.  A request for
    [/api/forecasts/weekly], [/monthly] or [/quarterly], whatever the case
    of the letters of its path, is answered 200 with the buckets that
    [aggregateData] makes, at that granularity, of the forecasts that pass
    [filterData] on the request's query. *)
Theorem forecast_period_over_http
  (Date_parse : string -> option Z) (store : Store) (req : Request) (a b c : string) :
  path req = [a; b; c] ->
  JsString.toLowerCase a = "api" ->
  JsString.toLowerCase b = "forecasts" ->
  In (JsString.toLowerCase c) ["weekly"; "monthly"; "quarterly"] ->
  serve Date_parse store req
  = Sent (json 200
            (JArr (map period_json
                     (aggregateData (filterData (forecastData store) req) (JsString.toLowerCase c))))).
Proof.
  intros Hpath Ha Hb Hc.
  unfold serve, respond, Router.dispatch, Router.routing_table, Router.api.
  rewrite Hpath. cbn [Router.first_match Router.match_path]. rewrite Ha, Hb.
  destruct Hc as [<- | [<- | [<- | []]]]; reflexivity.
Qed.

(** The monthly buckets of the second product, asked for in capitals. *)
Lemma forecast_period_over_http_witness :
  serve iso_date_parse sample_disk
    (get "/API/Forecasts/MONTHLY?PRODUCT_CARD_ID=2" ["API"; "Forecasts"; "MONTHLY"]
       [("PRODUCT_CARD_ID", "2")])
  = Sent (json 200 (JArr [JObj [("period", JStr "2024-M2");
                                ("total_demand", JNum (Number.parseFloat "0.5"));
                                ("average_demand", JNum (Number.parseFloat "0.25"))]])).
Proof.
  rewrite (forecast_period_over_http iso_date_parse sample_disk
             (get "/API/Forecasts/MONTHLY?PRODUCT_CARD_ID=2" ["API"; "Forecasts"; "MONTHLY"]
                [("PRODUCT_CARD_ID", "2")])
             "API" "Forecasts" "MONTHLY").
  - vm_compute. reflexivity.
  - reflexivity.
  - reflexivity.
  - reflexivity.
  - right. left. reflexivity.
Defined.
